(** * luxem-python: the CPython binding [_luxem.c] over the luxem engine

    The binding wraps three engine components that live in the C library
    included as [c/luxem_rawread.h] and [c/luxem_rawwrite.h]: the ascii16
    transcoder, the streaming reader and the streaming writer.  The wrapper
    functions below follow [_luxem.c] line by line, for both branches of
    [#if PY_MAJOR_VERSION >= 3]; the engine functions they call are modelled
    from the specification and are marked as such.

    Conventions.  A function of the binding that can end the process -- a
    failed [assert], a NULL pointer dereferenced -- answers an [option], and
    [None] is that end.  Allocation failures are left out, and so are
    reference counts, except where a method returns [self], and the use
    counts of Python 2 file objects ([WRAP_FILE_INC], [WRAP_FILE_DEC]
    applied to a file object; applied to a stream, as in [Writer_init],
    [WRAP_FILE_INC] is an action on that stream).
    The parsing of keyword arguments is taken as done: the methods take
    their arguments parsed. *)

From Stdlib Require Import List NArith ZArith Lia Bool Arith.
From Stdlib.Strings Require Import Byte String Ascii.
From Stdlib Require Import DecimalString.
Import ListNotations.

Set Implicit Arguments.

(** ** Bytes and C strings *)

Definition bytes := list byte.

(** A byte built from a number below 256 (zero above: never used there). *)
Definition byte_of_N (n : N) : byte :=
  match Byte.of_N n with
  | Some b => b
  | None => x00
  end.

Definition bytes_of_string (s : string) : bytes := list_byte_of_string s.

(** [struct luxem_string_t] holds a pointer and a length; as data it is the
    byte run they delimit. *)
Definition luxem_string_t := bytes.

(** ** The ascii16 transcoder *)

Module Ascii16.

(** The sixteen characters of the restricted alphabet. *)
Definition alphabet : bytes := bytes_of_string "0123456789abcdef".

Definition to_digit (n : N) : byte := nth (N.to_nat n) alphabet x00.

Fixpoint index_of (c : byte) (l : bytes) (i : N) : option N :=
  match l with
  | [] => None
  | d :: l' => if Byte.eqb c d then Some i else index_of c l' (N.succ i)
  end.

Definition from_digit (c : byte) : option N := index_of c alphabet 0%N.

Definition is_digit (c : byte) : bool :=
  match from_digit c with
  | Some _ => true
  | None => false
  end.

(** Why a decode failed, and where. *)
Inductive Fault := NotInAlphabet | OddLength.

Record TranscoderError := { message : Fault; offset : nat }.

Definition encode_byte (b : byte) : bytes :=
  [to_digit (Byte.to_N b / 16); to_digit (Byte.to_N b mod 16)].

(** Modelled from the spec: the encoding done by [luxem_to_ascii16] of the
    engine, absent from the binding's source.  "encode(bytes) -> string:
    deterministic, total
    (always succeeds), length-doubling mapping of arbitrary byte content
    into a restricted safe character alphabet (hexadecimal digits)". *)
Definition encode (data : bytes) : bytes := flat_map encode_byte data.

Fixpoint decode_from (off : nat) (s : bytes) : bytes + TranscoderError :=
  match s with
  | [] => inl []
  | hi :: s' =>
      match from_digit hi with
      | None => inr {| message := NotInAlphabet; offset := off |}
      | Some h =>
          match s' with
          | [] => inr {| message := OddLength; offset := off |}
          | lo :: rest =>
              match from_digit lo with
              | None => inr {| message := NotInAlphabet; offset := S off |}
              | Some l =>
                  match decode_from (S (S off)) rest with
                  | inl out => inl (byte_of_N (h * 16 + l) :: out)
                  | inr e => inr e
                  end
              end
          end
      end
  end.

(** Modelled from the spec: the decoding done by [luxem_from_ascii16] of
    the engine, absent from the binding's source.  "decode(string) -> bytes
    | Error: exact inverse;
    fails with TranscoderError{message, offset} if the input length is odd
    or any character lies outside the hexadecimal alphabet, reporting the
    offset of the first offending character". *)
Definition decode (data : bytes) : bytes + TranscoderError :=
  decode_from 0 data.

(** The first offending character of an input, if it has one: the first
    character outside the alphabet, or the unpaired last character of an
    input of odd length, whichever comes first. *)
Fixpoint first_offending (off : nat) (s : bytes) : option nat :=
  match s with
  | [] => None
  | [c] => Some off
  | hi :: lo :: rest =>
      if negb (is_digit hi) then Some off
      else if negb (is_digit lo) then Some (S off)
      else first_offending (S (S off)) rest
  end.

End Ascii16.

(** ** UTF-8, as CPython's strict codec

    Python 3 moves a [str] in and out of C as UTF-8
    ([PyUnicode_AsUTF8AndSize], [PyUnicode_FromStringAndSize]).  A [str] is
    a sequence of code points; lone surrogates may occur in it and have no
    UTF-8 form. *)

Module Utf8.

Definition codepoint := N.

Definition is_surrogate (c : N) : bool := ((55296 <=? c) && (c <? 57344))%N.

Definition encode_codepoint (c : codepoint) : option bytes :=
  if (c <? 128)%N then Some [byte_of_N c]
  else if (c <? 2048)%N then
    Some [byte_of_N (192 + c / 64); byte_of_N (128 + c mod 64)]
  else if (c <? 65536)%N then
    if is_surrogate c then None
    else Some [byte_of_N (224 + c / 4096);
               byte_of_N (128 + (c / 64) mod 64);
               byte_of_N (128 + c mod 64)]
  else if (c <? 1114112)%N then
    Some [byte_of_N (240 + c / 262144);
          byte_of_N (128 + (c / 4096) mod 64);
          byte_of_N (128 + (c / 64) mod 64);
          byte_of_N (128 + c mod 64)]
  else None.

Fixpoint encode (s : list codepoint) : option bytes :=
  match s with
  | [] => Some []
  | c :: s' =>
      match encode_codepoint c, encode s' with
      | Some b, Some bs => Some (b ++ bs)
      | _, _ => None
      end
  end.

(** The payload of a continuation byte [10xxxxxx]. *)
Definition continuation (b : byte) : option N :=
  let n := Byte.to_N b in
  if ((128 <=? n) && (n <? 192))%N then Some (n - 128)%N else None.

Fixpoint decode (bs : bytes) : option (list codepoint) :=
  match bs with
  | [] => Some []
  | b0 :: r0 =>
      let n0 := Byte.to_N b0 in
      if (n0 <? 128)%N then option_map (cons n0) (decode r0)
      else if (n0 <? 192)%N then None
      else if (n0 <? 224)%N then
        match r0 with
        | b1 :: r1 =>
            match continuation b1 with
            | Some n1 =>
                let c := ((n0 - 192) * 64 + n1)%N in
                if (c <? 128)%N then None
                else option_map (cons c) (decode r1)
            | None => None
            end
        | _ => None
        end
      else if (n0 <? 240)%N then
        match r0 with
        | b1 :: b2 :: r2 =>
            match continuation b1, continuation b2 with
            | Some n1, Some n2 =>
                let c := ((n0 - 224) * 4096 + n1 * 64 + n2)%N in
                if (c <? 2048)%N || is_surrogate c then None
                else option_map (cons c) (decode r2)
            | _, _ => None
            end
        | _ => None
        end
      else if (n0 <? 248)%N then
        match r0 with
        | b1 :: b2 :: b3 :: r3 =>
            match continuation b1, continuation b2, continuation b3 with
            | Some n1, Some n2, Some n3 =>
                let c := ((n0 - 240) * 262144 + n1 * 4096 + n2 * 64 + n3)%N in
                if (c <? 65536)%N || (1114112 <=? c)%N then None
                else option_map (cons c) (decode r3)
            | _, _, _ => None
            end
        | _ => None
        end
      else None
  end.

End Utf8.

(** ** Python objects, exceptions and the string macros *)

(** The two configurations of [#if PY_MAJOR_VERSION >= 3]. *)
Inductive python := Python2 | Python3.

(** The objects the binding tells apart.  [PyBytes] is [bytes] under
    Python 3 and [str] under Python 2; [PyUnicode] is [str] under Python 3
    and [unicode] under Python 2.  [PyFileLike fd] is a file object: under
    Python 2 the built-in file object over the descriptor [fd], the only
    kind [PyFile_Check] accepts; under Python 3 an object with a [fileno]
    attribute, whose descriptor is whatever a call of that method answers.
    [PyInstance a] is the Reader or Writer allocated at address [a];
    [PyBoundMethod o name] is the method [o.name]. *)
Inductive PyObject :=
| Py_None
| PyLong (n : Z)
| PyBytes (b : bytes)
| PyUnicode (s : list Utf8.codepoint)
| PyFileLike (fd : Z)
| PyInstance (addr : nat)
| PyOpaque (id : nat)
| PyBoundMethod (self : PyObject) (name : string).

Inductive PyExc :=
| PyExc_TypeError
| PyExc_ValueError
| PyExc_UnicodeDecodeError
| PyExc_UnicodeEncodeError
| PyExc_SystemError
| PyExc_OverflowError
| PyExc_Other (id : nat).

(** A raised exception: its type and its value, when it has one. *)
Record PyErr := { exc_type : PyExc; exc_value : option PyObject }.

(** What a [PyCFunction] without side effects does: it returns an object,
    or returns NULL with the error indicator set, or runs into undefined
    behaviour of C. *)
Inductive PyResult :=
| Return (o : PyObject)
| Raise (e : PyErr)
| Undefined.

Definition WRAP_STRING_CHECK (v : python) (o : PyObject) : bool :=
  match v, o with
  | Python3, PyUnicode _ => true
  | Python2, PyBytes _ => true
  | _, _ => false
  end.

(** [WRAP_STRING_TO]: the bytes behind a string object.  Under Python 3
    [PyUnicode_AsUTF8AndSize] returns NULL when the [str] has no UTF-8
    form. *)
Definition WRAP_STRING_TO (v : python) (o : PyObject) : option bytes :=
  match v, o with
  | Python3, PyUnicode s => Utf8.encode s
  | Python2, PyBytes b => Some b
  | _, _ => None
  end.

(** [WRAP_STRING_FROM]: a string object from bytes.  Under Python 3
    [PyUnicode_FromStringAndSize] decodes UTF-8 and returns NULL on bytes
    that are not UTF-8. *)
Definition WRAP_STRING_FROM (v : python) (b : bytes) : option PyObject :=
  match v with
  | Python3 => option_map PyUnicode (Utf8.decode b)
  | Python2 => Some (PyBytes b)
  end.

Definition WRAP_BYTES_CHECK (v : python) (o : PyObject) : bool :=
  match o with
  | PyBytes _ => true
  | _ => false
  end.

Definition WRAP_BYTES_TO (v : python) (o : PyObject) : option bytes :=
  match o with
  | PyBytes b => Some b
  | _ => None
  end.

Definition WRAP_BYTES_FROM (v : python) (b : bytes) : PyObject := PyBytes b.

Definition WRAP_INT_FROM_SIZET (v : python) (n : nat) : PyObject :=
  PyLong (Z.of_nat n).

(** [compat_file_check] under Python 3 ([PyLong_Check] or a [fileno]
    attribute), [PyFile_Check] under Python 2.  Looking the attribute up
    is taken to run no code of the object: it has the attribute or it has
    not. *)
Definition compat_file_check (o : PyObject) : bool :=
  match o with
  | PyLong _ => true
  | PyFileLike _ => true
  | _ => false
  end.

Definition WRAP_FILE_CHECK (v : python) (o : PyObject) : bool :=
  match v with
  | Python3 => compat_file_check o
  | Python2 => match o with PyFileLike _ => true | _ => false end
  end.

(** [PyErr_SetString]: the message is a C string turned into a string
    object; under Python 3 that conversion decodes UTF-8 and its own
    failure is what ends up raised. *)
Definition PyErr_SetString (v : python) (t : PyExc) (message : bytes) : PyErr :=
  match WRAP_STRING_FROM v message with
  | Some o => {| exc_type := t; exc_value := Some o |}
  | None => {| exc_type := PyExc_UnicodeDecodeError; exc_value := None |}
  end.

Definition PyErr_SetObject (t : PyExc) (value : option PyObject) : PyErr :=
  {| exc_type := t; exc_value := value |}.

(** ** The event vocabulary and the engine's data *)

(** The seven events, one for each callback of
    [struct luxem_rawread_callbacks_t] and each method of the Writer; the
    last three carry a string. *)
Inductive Event :=
| ObjectBegin
| ObjectEnd
| ArrayBegin
| ArrayEnd
| Key (s : luxem_string_t)
| TypeTag (s : luxem_string_t)
| Primitive (s : luxem_string_t).

(** Modelled from the spec: the markers of the nesting stack ("ordered
    sequence of Object|Array markers") and the awaiting-kind ("Key|Type|Value
    for object context, Type|Value for array context") of the engine's
    parser, absent from the binding's source. *)
Inductive Frame := ObjectFrame | ArrayFrame.

Inductive Awaiting := AwaitingKey | AwaitingType | AwaitingValue.

(** Modelled from the spec: the parser state of the engine, absent from the
    binding's source.  "current nesting stack, awaiting-kind, a
    possibly-partial pending token buffer spanning chunk boundaries, and a
    monotonic cumulative byte position"; the position is kept beside the
    rest, in the context. *)
Record machine := {
  stack : list Frame;
  awaiting : Awaiting;
  pending : bytes
}.

(** Modelled from the spec: "initial state TopLevel awaiting a value". *)
Definition TopLevel : machine :=
  {| stack := []; awaiting := AwaitingValue; pending := [] |}.

(** An engine message is never empty (the binding asserts as much): its
    first character and the rest. *)
Definition Message := (byte * bytes)%type.

Definition message_text (m : Message) : bytes := fst m :: snd m.

(** Modelled from the spec: the grammar of the engine's parser, absent from
    the binding's source.  The specification leaves the lexical grammar of
    the format open, so the reader is modelled over any grammar, given as a
    transition function on bytes ("transitioning on structural delimiters
    and token boundaries"), a resolution of the pending token at end of
    input, and the message for a structure left open. *)
Record Grammar := {
  grammar_step : machine -> byte -> (list Event * machine) + Message;
  grammar_finish : machine -> (list Event * machine) + Message;
  open_structure : Message
}.

(** Where the [pointer] of an error [luxem_string_t] points: nowhere, at the
    binding's [exception_marker], or at a text of the engine.  The binding
    tells the three apart by comparing with [&exception_marker]. *)
Inductive error_pointer :=
| null_pointer
| exception_marker
| text_pointer (text : bytes).

Record luxem_error_t := {
  pointer : error_pointer;
  length : nat
}.

Definition no_error : luxem_error_t := {| pointer := null_pointer; length := 0 |}.

Definition engine_error (m : Message) : luxem_error_t :=
  {| pointer := text_pointer (message_text m);
     length := List.length (message_text m) |}.

Definition is_exception_marker (p : error_pointer) : bool :=
  match p with
  | exception_marker => true
  | _ => false
  end.

(** Modelled from the spec: [struct luxem_rawread_context_t] of the engine,
    absent from the binding's source, with what the binding reads of it:
    the error of [luxem_rawread_get_error] and the position of
    [luxem_rawread_get_position]. *)
Record luxem_rawread_context_t := {
  state : machine;
  position : nat;
  error : luxem_error_t
}.

Definition rawread_set_error (e : luxem_error_t) (c : luxem_rawread_context_t) :=
  {| state := state c; position := position c; error := e |}.

Definition rawread_advance (m : machine) (c : luxem_rawread_context_t) :=
  {| state := m; position := S (position c); error := error c |}.

Definition rawread_set_state (m : machine) (c : luxem_rawread_context_t) :=
  {| state := m; position := position c; error := error c |}.

(** Modelled from the spec: [luxem_rawread_construct] of the engine, absent
    from the binding's source; the parser starts at top level, at
    position 0, without error. *)
Definition luxem_rawread_construct : luxem_rawread_context_t :=
  {| state := TopLevel; position := 0; error := no_error |}.

(** ** The interpreter state the binding acts on *)

Definition PyThreadState := nat.
Definition FILE := nat.

(** What happens, in order: calls into Python objects (with the exception
    raised, if the call failed), the release and re-acquisition of the
    interpreter lock, physical reads from a stream, byte runs written
    to a stream or to the writer's buffer, and [PyFile_IncUseCount] let
    loose on a stream: the [int] that lies in the stream structure where a
    file object has its [unlocked_count] is incremented. *)
Inductive action :=
| Called (callee : PyObject) (arguments : list PyObject)
    (failure : option PyErr)
| SaveThread
| PhysicalRead (file : FILE) (size : nat)
| RestoreThread
| FileWrite (file : FILE) (run : bytes)
| BufferWrite (run : bytes)
| FileIncUseCount (file : FILE).

Record host (World : Type) := {
  world : World;
  curexc : option PyErr;
  tstate_current : option PyThreadState;
  trace : list action
}.

Arguments world {World} _.
Arguments curexc {World} _.
Arguments tstate_current {World} _.
Arguments trace {World} _.

Definition set_world {World} (w : World) (h : host World) : host World :=
  {| world := w; curexc := curexc h;
     tstate_current := tstate_current h; trace := trace h |}.

Definition set_curexc {World} (e : PyErr) (h : host World) : host World :=
  {| world := world h; curexc := Some e;
     tstate_current := tstate_current h; trace := trace h |}.

Definition set_tstate {World} (t : option PyThreadState) (h : host World)
  : host World :=
  {| world := world h; curexc := curexc h;
     tstate_current := t; trace := trace h |}.

Definition record {World} (a : action) (h : host World) : host World :=
  {| world := world h; curexc := curexc h;
     tstate_current := tstate_current h; trace := trace h ++ [a] |}.

(** [PyEval_SaveThread] gives up the interpreter lock and hands out the
    current thread state; without a current thread state it is a fatal
    error. *)
Definition PyEval_SaveThread {World} (h : host World)
  : option (PyThreadState * host World) :=
  match tstate_current h with
  | Some t => Some (t, record SaveThread (set_tstate None h))
  | None => None
  end.

(** [PyEval_RestoreThread] takes the lock again; a NULL thread state is a
    fatal error. *)
Definition PyEval_RestoreThread {World} (t : option PyThreadState)
  (h : host World) : option (host World) :=
  match t with
  | Some t' => Some (record RestoreThread (set_tstate (Some t') h))
  | None => None
  end.

(** ** The Reader and Writer objects *)

Module Reader.
Record t := {
  context : luxem_rawread_context_t;
  object_begin : PyObject;
  object_end : PyObject;
  array_begin : PyObject;
  array_end : PyObject;
  key : PyObject;
  type : PyObject;
  primitive : PyObject;
  thread_state : option PyThreadState
}.

Definition set_context (c : luxem_rawread_context_t) (r : t) : t :=
  {| context := c; object_begin := object_begin r;
     object_end := object_end r; array_begin := array_begin r;
     array_end := array_end r; key := key r; type := type r;
     primitive := primitive r; thread_state := thread_state r |}.

Definition set_thread_state (s : option PyThreadState) (r : t) : t :=
  {| context := context r; object_begin := object_begin r;
     object_end := object_end r; array_begin := array_begin r;
     array_end := array_end r; key := key r; type := type r;
     primitive := primitive r; thread_state := s |}.
End Reader.

(** Modelled from the spec: the sink bound to the engine's writer, absent
    from the binding's source.  "Sink: polymorphic over Buffer (growable
    byte accumulator, readable on demand), Stream (a caller-owned blocking
    byte destination, written synchronously), Callback (external function
    receiving byte runs, may fail)"; [NoSink] before any is selected. *)
Inductive sink :=
| NoSink
| BufferOut (buffer : bytes)
| FileOut (file : FILE)
| CallbackOut.

(** Modelled from the spec: [struct luxem_rawwrite_context_t] of the
    engine, absent from the binding's source.  The structural state [W] is
    left to the format, like the grammar; [pretty] is the indent character
    and its multiple once pretty-printing is switched on; [werror] is what
    [luxem_rawwrite_get_error] gives. *)
Record luxem_rawwrite_context_t (W : Type) := {
  wstate : W;
  out : sink;
  werror : luxem_error_t;
  pretty : option (byte * Z)
}.

Arguments wstate {W} _.
Arguments out {W} _.
Arguments werror {W} _.
Arguments pretty {W} _.

(** Modelled from the spec: the writer's side of the format, absent from
    the binding's source: the state a fresh writer starts in, what an event
    turns into (byte runs and the next state, or a structural error), and
    the message of [luxem_rawwrite_buffer_render] on a context that has no
    buffer. *)
Record WriteGrammar (W : Type) := {
  write_initial : W;
  write_step : option (byte * Z) -> W -> Event -> (list bytes * W) + Message;
  no_buffer : Message
}.

Arguments write_initial {W} _.
Arguments write_step {W} _ _ _ _.
Arguments no_buffer {W} _.

Module Writer.
Record t (W : Type) := {
  ob_refcnt : nat;
  address : nat;
  context : luxem_rawwrite_context_t W;
  target : option PyObject;
  file : option FILE
}.

Arguments ob_refcnt {W} _.
Arguments address {W} _.
Arguments context {W} _.
Arguments target {W} _.
Arguments file {W} _.

Definition set_context {W} (c : luxem_rawwrite_context_t W) (w : t W) : t W :=
  {| ob_refcnt := ob_refcnt w; address := address w; context := c;
     target := target w; file := file w |}.

Definition set_target {W} (o : option PyObject) (w : t W) : t W :=
  {| ob_refcnt := ob_refcnt w; address := address w; context := context w;
     target := o; file := file w |}.

Definition set_file {W} (f : option FILE) (w : t W) : t W :=
  {| ob_refcnt := ob_refcnt w; address := address w; context := context w;
     target := target w; file := f |}.

Definition Py_INCREF {W} (w : t W) : t W :=
  {| ob_refcnt := S (ob_refcnt w); address := address w;
     context := context w; target := target w; file := file w |}.
End Writer.

(** An offset as [printf]'s [%lu] prints it. *)
Definition decimal (n : nat) : bytes :=
  bytes_of_string (NilEmpty.string_of_uint (Nat.to_uint n)).

(** What [printf]'s [%.*s] prints of a text: at most [n] bytes, and none
    from the first NUL on. *)
Fixpoint up_to_nul (s : bytes) : bytes :=
  match s with
  | [] => []
  | c :: s' => if Byte.eqb c x00 then [] else c :: up_to_nul s'
  end.

Definition precision_s (n : nat) (text : bytes) : bytes :=
  up_to_nul (firstn n text).

(** An integer as [printf]'s [%i] prints it. *)
Definition decimal_Z (n : Z) : bytes :=
  if (n <? 0)%Z then "-"%byte :: decimal (Z.to_nat (- n))
  else decimal (Z.to_nat n).

(** The values of a C [int]. *)
Definition C_int (n : Z) : bool :=
  ((-2147483648 <=? n) && (n <=? 2147483647))%Z.

(** [PyArg_ParseTuple(positional_args, "O", &argument)] fails with a
    TypeError of CPython's own unless exactly one argument was passed. *)
Definition PyArg_ParseTuple_O (v : python) (positional_args : list PyObject)
  : PyObject + PyErr :=
  match positional_args with
  | [argument] => inl argument
  | _ =>
      inr (PyErr_SetString v PyExc_TypeError
             (bytes_of_string "function takes exactly 1 argument ("
                ++ decimal (List.length positional_args)
                ++ bytes_of_string " given)"))
  end.

(** ** The binding *)

Section Binding.

Variable PY_MAJOR_VERSION : python.

(** Whether, under Python 3, [Py_BuildValue] takes a format with [#] from
    a file that, like [_luxem.c], does not define [PY_SSIZE_T_CLEAN] before
    it includes [Python.h]: CPython 3.10 to 3.12 refuse it with a
    SystemError; the versions before and after take it (3.8 and 3.9 with a
    DeprecationWarning, which is left out), and so does Python 2. *)
Variable PY_SSIZE_T_CLEAN_optional : bool.

(** The embedder's own state, and what calling one of its objects does
    to it: the call returns an object or raises. *)
Variable World : Type.
Variable python_call :
  PyObject -> list PyObject -> World -> (PyObject + PyErr) * World.

(** The C library's stream over a descriptor, when it can be had, and
    the successive physical reads a stream delivers before end of file. *)
Variable stdio_stream : Z -> option FILE.
Variable physical_reads : FILE -> list bytes.

Variable grammar : Grammar.

Variable W : Type.
Variable write_grammar : WriteGrammar W.

(** The text the engine gives for a transcoder error. *)
Variable error_text : Ascii16.TranscoderError -> luxem_string_t.

Local Abbreviation host := (host World).

Definition PyEval_CallObject (callable : PyObject)
  (arguments : list PyObject) (h : host) : option PyObject * host :=
  let (r, w) := python_call callable arguments (world h) in
  match r with
  | inl o => (Some o, record (Called callable arguments None) (set_world w h))
  | inr e =>
      (None,
       set_curexc e
         (record (Called callable arguments (Some e)) (set_world w h)))
  end.

(** What [PyObject_AsFileDescriptor] makes of the integer it has got,
    from its argument or from the [fileno()] of its argument:
    [_PyLong_AsInt] raises an OverflowError on what is no C [int]; -1 while
    an exception is pending is taken for a failure; a negative descriptor
    is a ValueError.  The answer is the descriptor, or none and the
    exception set. *)
Definition descriptor_of_long (n : Z) (h : host) : option Z * host :=
  if negb (C_int n) then
    (None,
     set_curexc
       (PyErr_SetString PY_MAJOR_VERSION PyExc_OverflowError
          (bytes_of_string "Python int too large to convert to C int")) h)
  else if (n =? -1)%Z
          && match curexc h with Some _ => true | None => false end
  then (None, h)
  else if (n <? 0)%Z then
    (None,
     set_curexc
       (PyErr_SetString PY_MAJOR_VERSION PyExc_ValueError
          (bytes_of_string "file descriptor cannot be a negative integer ("
             ++ decimal_Z n ++ bytes_of_string ")")) h)
  else (Some n, h).

(** [PyObject_AsFileDescriptor]: an [int] is its own descriptor; of an
    object with a [fileno] attribute the method is called, and what it
    returns must be an [int]. *)
Definition PyObject_AsFileDescriptor (o : PyObject) (h : host)
  : option Z * host :=
  match o with
  | PyLong n => descriptor_of_long n h
  | PyFileLike _ =>
      match PyEval_CallObject (PyBoundMethod o "fileno") [] h with
      | (None, h') => (None, h')
      | (Some (PyLong n), h') => descriptor_of_long n h'
      | (Some _, h') =>
          (None,
           set_curexc
             (PyErr_SetString PY_MAJOR_VERSION PyExc_TypeError
                (bytes_of_string "fileno() returned a non-integer")) h')
      end
  | _ =>
      (None,
       set_curexc
         (PyErr_SetString PY_MAJOR_VERSION PyExc_TypeError
            (bytes_of_string
               "argument must be an int, or have a fileno() method.")) h)
  end.

(** [compat_file_file] under Python 3, [PyFile_AsFile] under Python 2:
    the stream, or NULL -- under Python 3 with an exception set, under
    Python 2 without. *)
Definition WRAP_FILE_TO (o : PyObject) (h : host) : option FILE * host :=
  match PY_MAJOR_VERSION with
  | Python3 =>
      match PyObject_AsFileDescriptor o h with
      | (None, h') => (None, h')
      | (Some fd, h') =>
          match stdio_stream fd with
          | Some f => (Some f, h')
          | None =>
              (None,
               set_curexc
                 (PyErr_SetString Python3 PyExc_TypeError
                    (bytes_of_string "Could not access file.")) h')
          end
      end
  | Python2 =>
      match o with
      | PyFileLike fd => (stdio_stream fd, h)
      | _ => (None, h)
      end
  end.

(** [WRAP_FILE_INC] as [Writer_init] uses it, on the stream: nothing under
    Python 3; under Python 2 [PyFile_IncUseCount], which takes the
    [FILE *] for a file object. *)
Definition WRAP_FILE_INC_stream (file : FILE) (h : host) : host :=
  match PY_MAJOR_VERSION with
  | Python3 => h
  | Python2 => record (FileIncUseCount file) h
  end.

(** *** Reader: the callbacks handed to the engine *)

(** What an engine callback answers: [luxem_true] or [luxem_false]
    together with the context and the interpreter state it leaves, or
    nothing when the process dies inside it. *)
Definition callback_result : Type :=
  option (bool * luxem_rawread_context_t * host).

(** [TRANSLATE_VOID_CALLBACK(name)]. *)
Definition TRANSLATE_VOID_CALLBACK (name : Reader.t -> PyObject)
  (context : luxem_rawread_context_t) (user_data : Reader.t) (h : host)
  : callback_result :=
  match PyEval_CallObject (name user_data) [] h with
  | (None, h') =>
      Some (false,
            rawread_set_error
              {| pointer := exception_marker; length := 0 |} context,
            h')
  | (Some _, h') => Some (true, context, h')
  end.

Definition translate_rawread_object_begin :=
  TRANSLATE_VOID_CALLBACK Reader.object_begin.
Definition translate_rawread_object_end :=
  TRANSLATE_VOID_CALLBACK Reader.object_end.
Definition translate_rawread_array_begin :=
  TRANSLATE_VOID_CALLBACK Reader.array_begin.
Definition translate_rawread_array_end :=
  TRANSLATE_VOID_CALLBACK Reader.array_end.

(** [TRANSLATE_STRING_CALLBACK(name)].  When [WRAP_STRING_FROM] returns
    NULL, so does [Py_BuildValue], and [Py_DECREF(prearguments)] then
    dereferences NULL. *)
Definition TRANSLATE_STRING_CALLBACK (name : Reader.t -> PyObject)
  (context : luxem_rawread_context_t) (user_data : Reader.t)
  (string : luxem_string_t) (h : host) : callback_result :=
  match WRAP_STRING_FROM PY_MAJOR_VERSION string with
  | None => None
  | Some prearguments =>
      match PyEval_CallObject (name user_data) [prearguments] h with
      | (None, h') =>
          Some (false,
                rawread_set_error
                  {| pointer := exception_marker; length := 0 |} context,
                h')
      | (Some _, h') => Some (true, context, h')
      end
  end.

Definition translate_rawread_key := TRANSLATE_STRING_CALLBACK Reader.key.
Definition translate_rawread_type := TRANSLATE_STRING_CALLBACK Reader.type.
Definition translate_rawread_primitive :=
  TRANSLATE_STRING_CALLBACK Reader.primitive.

(** [struct luxem_rawread_callbacks_t], with [user_data] of type [U]. *)
Record luxem_rawread_callbacks_t (U : Type) := {
  callbacks_object_begin :
    luxem_rawread_context_t -> U -> host -> callback_result;
  callbacks_object_end :
    luxem_rawread_context_t -> U -> host -> callback_result;
  callbacks_array_begin :
    luxem_rawread_context_t -> U -> host -> callback_result;
  callbacks_array_end :
    luxem_rawread_context_t -> U -> host -> callback_result;
  callbacks_key :
    luxem_rawread_context_t -> U -> luxem_string_t -> host -> callback_result;
  callbacks_type :
    luxem_rawread_context_t -> U -> luxem_string_t -> host -> callback_result;
  callbacks_primitive :
    luxem_rawread_context_t -> U -> luxem_string_t -> host -> callback_result
}.

(** The callbacks [Reader_new] installs. *)
Definition Reader_callbacks : luxem_rawread_callbacks_t Reader.t :=
  {| callbacks_object_begin := translate_rawread_object_begin;
     callbacks_object_end := translate_rawread_object_end;
     callbacks_array_begin := translate_rawread_array_begin;
     callbacks_array_end := translate_rawread_array_end;
     callbacks_key := translate_rawread_key;
     callbacks_type := translate_rawread_type;
     callbacks_primitive := translate_rawread_primitive |}.

(** *** Reader: the engine *)

Section Engine.

Variable U : Type.
Variable callbacks : luxem_rawread_callbacks_t U.

(** Modelled from the spec: the engine hands each event to the callback of
    its kind ("seven methods, each may signal failure to abort parsing"). *)
Definition rawread_dispatch (ev : Event) (c : luxem_rawread_context_t)
  (u : U) (h : host) : callback_result :=
  match ev with
  | ObjectBegin => callbacks_object_begin callbacks c u h
  | ObjectEnd => callbacks_object_end callbacks c u h
  | ArrayBegin => callbacks_array_begin callbacks c u h
  | ArrayEnd => callbacks_array_end callbacks c u h
  | Key s => callbacks_key callbacks c u s h
  | TypeTag s => callbacks_type callbacks c u s h
  | Primitive s => callbacks_primitive callbacks c u s h
  end.

(** Modelled from the spec: events go out in order; the first callback
    that answers [luxem_false] ends the delivery, with the context as that
    callback left it ("parsing stops immediately without attempting further
    recovery or further event delivery for that call"). *)
Fixpoint rawread_deliver (evs : list Event) (c : luxem_rawread_context_t)
  (u : U) (h : host) : callback_result :=
  match evs with
  | [] => Some (true, c, h)
  | ev :: evs' =>
      match rawread_dispatch ev c u h with
      | Some (true, c', h') => rawread_deliver evs' c' u h'
      | stopped => stopped
      end
  end.

(** Modelled from the spec: one byte at a time through the state machine.
    A grammar violation sets the engine's message and stops at the
    offending byte ("position is the cumulative offset"); otherwise the
    byte's events are delivered and the position moves on ("position is
    monotonic and equals exactly the bytes consumed so far"). *)
Fixpoint rawread_consume (data : bytes) (c : luxem_rawread_context_t)
  (u : U) (h : host) : callback_result :=
  match data with
  | [] => Some (true, c, h)
  | b :: data' =>
      match grammar_step grammar (state c) b with
      | inr m => Some (false, rawread_set_error (engine_error m) c, h)
      | inl (evs, m') =>
          match rawread_deliver evs c u h with
          | Some (true, c', h') =>
              rawread_consume data' (rawread_advance m' c') u h'
          | stopped => stopped
          end
      end
  end.

(** Modelled from the spec: the end of input.  "any open structure or
    unterminated token at this point is a SyntaxError": an open structure
    is an error; otherwise the pending token is resolved, which may fail or
    yield the last events. *)
Definition rawread_finish (c : luxem_rawread_context_t) (u : U) (h : host)
  : callback_result :=
  match stack (state c) with
  | _ :: _ =>
      Some (false, rawread_set_error (engine_error (open_structure grammar)) c, h)
  | [] =>
      match grammar_finish grammar (state c) with
      | inr m => Some (false, rawread_set_error (engine_error m) c, h)
      | inl (evs, m') =>
          match rawread_deliver evs c u h with
          | Some (true, c', h') => Some (true, rawread_set_state m' c', h')
          | stopped => stopped
          end
      end
  end.

(** Modelled from the spec: [luxem_rawread_feed] of the engine, absent from
    the binding's source.  "feed(chunk, finish) -> consumed | Error. Emits
    zero or more events through the registered listener during the call.
    When finish=false, a dangling partial token or an open structure at the
    end of input is legal and is retained internally for continuation by a
    later feed call on the same instance.  When finish=true, the remaining
    input must resolve to a complete, balanced document; any open structure
    or unterminated token at this point is a SyntaxError."  A listener
    failure stops parsing at once.  The answer is the engine's boolean, the
    context, the bytes eaten and the interpreter state. *)
Definition luxem_rawread_feed (c : luxem_rawread_context_t) (u : U)
  (data : luxem_string_t) (finish : bool) (h : host)
  : option (bool * luxem_rawread_context_t * nat * host) :=
  match rawread_consume data c u h with
  | Some (true, c', h') =>
      if finish then
        match rawread_finish c' u h' with
        | Some (ok, c'', h'') => Some (ok, c'', List.length data, h'')
        | None => None
        end
      else Some (true, c', List.length data, h')
  | Some (false, c', h') => Some (false, c', 0, h')
  | None => None
  end.

Variable suspend : luxem_rawread_context_t -> U -> host -> option (U * host).
Variable resume : luxem_rawread_context_t -> U -> host -> option (U * host).

(** Modelled from the spec: the read loop of [luxem_rawread_feed_file] over
    the physical reads still to come.  Each read sits between the suspend
    and the resume hook, and its bytes reach the state machine only after
    the resume; the read that finds the end of the file finishes the
    document. *)
Fixpoint rawread_feed_reads (file : FILE) (reads : list bytes)
  (c : luxem_rawread_context_t) (u : U) (h : host)
  : option (bool * luxem_rawread_context_t * U * host) :=
  match suspend c u h with
  | None => None
  | Some (u1, h1) =>
      let chunk := match reads with [] => [] | chunk :: _ => chunk end in
      let h2 := record (PhysicalRead file (List.length chunk)) h1 in
      match resume c u1 h2 with
      | None => None
      | Some (u2, h3) =>
          match reads with
          | [] =>
              match luxem_rawread_feed c u2 [] true h3 with
              | Some (ok, c', _, h4) => Some (ok, c', u2, h4)
              | None => None
              end
          | _ :: reads' =>
              match luxem_rawread_feed c u2 chunk false h3 with
              | Some (true, c', _, h4) => rawread_feed_reads file reads' c' u2 h4
              | Some (false, c', _, h4) => Some (false, c', u2, h4)
              | None => None
              end
          end
      end
  end.

(** Modelled from the spec: [luxem_rawread_feed_file] of the engine, absent
    from the binding's source.  "feed_stream(source): pulls from a blocking
    byte source instead of an in-memory chunk.  Before each physical
    blocking read it invokes a caller-supplied suspend hook, and after the
    read returns it invokes a caller-supplied resume hook before delivering
    the bytes to the state machine." *)
Definition luxem_rawread_feed_file (c : luxem_rawread_context_t) (u : U)
  (file : FILE) (h : host)
  : option (bool * luxem_rawread_context_t * U * host) :=
  rawread_feed_reads file (physical_reads file) c u h.

End Engine.

(** *** Reader: the methods *)

(** [Reader_new] followed by [Reader_init] with its seven arguments. *)
Definition Reader_init (object_begin object_end array_begin array_end
  key type primitive : PyObject) : Reader.t :=
  {| Reader.context := luxem_rawread_construct;
     Reader.object_begin := object_begin;
     Reader.object_end := object_end;
     Reader.array_begin := array_begin;
     Reader.array_end := array_end;
     Reader.key := key;
     Reader.type := type;
     Reader.primitive := primitive;
     Reader.thread_state := None |}.

(** [format_context_error].  A failed [assert] ends the process, and so
    does a null pointer handed to [%.*s]: nothing is returned then.  The
    branch for a negative [snprintf] result is left out: the format has no
    conversion that can fail. *)
Definition format_context_error (context : luxem_rawread_context_t)
  (h : host) : option host :=
  let error := error context in
  if negb (is_exception_marker (pointer error)) then
    if 0 <? length error then
      match pointer error with
      | text_pointer text =>
          let formatted_error :=
            precision_s (length error) text
              ++ bytes_of_string " [offset "
              ++ decimal (position context)
              ++ bytes_of_string "]" in
          Some (set_curexc
                  (PyErr_SetString PY_MAJOR_VERSION PyExc_ValueError
                     formatted_error) h)
      | _ => None
      end
    else None
  else
    (* Pass through python exception *)
    if length error =? 0 then Some h else None.

(** [feed_unlock_gil]. *)
Definition feed_unlock_gil (context : luxem_rawread_context_t)
  (self : Reader.t) (h : host) : option (Reader.t * host) :=
  match Reader.thread_state self with
  | Some _ => None
  | None =>
      match PyEval_SaveThread h with
      | Some (t, h') => Some (Reader.set_thread_state (Some t) self, h')
      | None => None
      end
  end.

(** [feed_lock_gil]. *)
Definition feed_lock_gil (context : luxem_rawread_context_t)
  (self : Reader.t) (h : host) : option (Reader.t * host) :=
  match Reader.thread_state self with
  | None => None
  | Some t =>
      match PyEval_RestoreThread (Some t) h with
      | Some h' => Some (Reader.set_thread_state None self, h')
      | None => None
      end
  end.

(** [Reader_feed], past the parsing of its arguments [data] and [finish].
    The answer is the object returned (NULL: none), the Reader and the
    interpreter state; there is no answer when the process dies.  The
    stream case hands [WRAP_FILE_TO]'s result to the engine unchecked. *)
Definition Reader_feed (self : Reader.t) (data : PyObject) (finish : bool)
  (h : host) : option (option PyObject * Reader.t * host) :=
  if WRAP_BYTES_CHECK PY_MAJOR_VERSION data then
    match WRAP_BYTES_TO PY_MAJOR_VERSION data with
    | None => None
    | Some string =>
        match luxem_rawread_feed Reader_callbacks (Reader.context self) self
                string finish h with
        | None => None
        | Some (false, c, _, h') =>
            match format_context_error c h' with
            | Some h'' => Some (None, Reader.set_context c self, h'')
            | None => None
            end
        | Some (true, c, eaten, h') =>
            Some (Some (WRAP_INT_FROM_SIZET PY_MAJOR_VERSION eaten),
                  Reader.set_context c self, h')
        end
    end
  else if WRAP_FILE_CHECK PY_MAJOR_VERSION data then
    match WRAP_FILE_TO data h with
    | (None, _) => None
    | (Some file, h0) =>
        match luxem_rawread_feed_file Reader_callbacks
                feed_unlock_gil feed_lock_gil
                (Reader.context self) self file h0 with
        | None => None
        | Some (false, c, self', h') =>
            match format_context_error c h' with
            | Some h'' => Some (None, Reader.set_context c self', h'')
            | None => None
            end
        | Some (true, c, self', h') =>
            Some (Some Py_None, Reader.set_context c self', h')
        end
    end
  else
    Some (None, self,
          set_curexc
            (PyErr_SetString PY_MAJOR_VERSION PyExc_TypeError
               (bytes_of_string
                  "luxem.RawReader.feed requires a single bytes or binary file argument."))
            h).

(** *** Writer: the engine *)

Definition rawwrite_set_error (e : luxem_error_t)
  (c : luxem_rawwrite_context_t W) : luxem_rawwrite_context_t W :=
  {| wstate := wstate c; out := out c; werror := e; pretty := pretty c |}.

Definition rawwrite_set_state (w : W)
  (c : luxem_rawwrite_context_t W) : luxem_rawwrite_context_t W :=
  {| wstate := w; out := out c; werror := werror c; pretty := pretty c |}.

Definition rawwrite_set_out (s : sink)
  (c : luxem_rawwrite_context_t W) : luxem_rawwrite_context_t W :=
  {| wstate := wstate c; out := s; werror := werror c; pretty := pretty c |}.

(** Modelled from the spec: [luxem_rawwrite_construct] of the engine; no
    sink is bound yet and pretty-printing is "disabled by default". *)
Definition luxem_rawwrite_construct : luxem_rawwrite_context_t W :=
  {| wstate := write_initial write_grammar; out := NoSink;
     werror := no_error; pretty := None |}.

(** Modelled from the spec: the engine's three sink selectors and
    [luxem_rawwrite_set_pretty] ("Sink selection is fixed at construction
    and mutually exclusive"; "indent unit character, repeat multiple per
    depth"). *)
Definition luxem_rawwrite_set_buffer_out (c : luxem_rawwrite_context_t W) :=
  rawwrite_set_out (BufferOut []) c.

Definition luxem_rawwrite_set_file_out (c : luxem_rawwrite_context_t W)
  (f : FILE) := rawwrite_set_out (FileOut f) c.

Definition luxem_rawwrite_set_write_callback (c : luxem_rawwrite_context_t W) :=
  rawwrite_set_out CallbackOut c.

Definition luxem_rawwrite_set_pretty (c : luxem_rawwrite_context_t W)
  (indent : byte) (multiple : Z) : luxem_rawwrite_context_t W :=
  {| wstate := wstate c; out := out c; werror := werror c;
     pretty := Some (indent, multiple) |}.

Definition write_result : Type :=
  option (bool * luxem_rawwrite_context_t W * host).

Section WriteEngine.

Variable U : Type.

(** The function given to [luxem_rawwrite_set_write_callback], called with
    the [user_data] given along with it. *)
Variable write_callback :
  luxem_rawwrite_context_t W -> U -> luxem_string_t -> host -> write_result.

(** Modelled from the spec: byte runs go to the bound sink in order:
    appended to the buffer, written to the stream, or handed to the
    callback, whose [luxem_false] ends the operation ("aborting the current
    operation without synthesizing a new error").  Without a sink there is
    nowhere to write. *)
Fixpoint rawwrite_emit (runs : list bytes) (c : luxem_rawwrite_context_t W)
  (u : U) (h : host) : write_result :=
  match runs with
  | [] => Some (true, c, h)
  | run :: runs' =>
      match out c with
      | NoSink => None
      | BufferOut buffer =>
          rawwrite_emit runs' (rawwrite_set_out (BufferOut (buffer ++ run)) c) u
            (record (BufferWrite run) h)
      | FileOut f => rawwrite_emit runs' c u (record (FileWrite f run) h)
      | CallbackOut =>
          match write_callback c u run h with
          | Some (true, c', h') => rawwrite_emit runs' c' u h'
          | stopped => stopped
          end
      end
  end.

(** Modelled from the spec: the engine's seven writing functions
    ([luxem_rawwrite_object_begin] ... [luxem_rawwrite_primitive]), absent
    from the binding's source.  A call that is structurally invalid fails
    with the engine's message and writes nothing; a valid one emits its
    byte runs to the sink. *)
Definition rawwrite_event (ev : Event) (c : luxem_rawwrite_context_t W)
  (u : U) (h : host) : write_result :=
  match write_step write_grammar (pretty c) (wstate c) ev with
  | inr m => Some (false, rawwrite_set_error (engine_error m) c, h)
  | inl (runs, w') =>
      match rawwrite_emit runs c u h with
      | Some (true, c', h') => Some (true, rawwrite_set_state w' c', h')
      | stopped => stopped
      end
  end.

Definition luxem_rawwrite_object_begin := rawwrite_event ObjectBegin.
Definition luxem_rawwrite_object_end := rawwrite_event ObjectEnd.
Definition luxem_rawwrite_array_begin := rawwrite_event ArrayBegin.
Definition luxem_rawwrite_array_end := rawwrite_event ArrayEnd.

Definition luxem_rawwrite_key (c : luxem_rawwrite_context_t W) (u : U)
  (s : luxem_string_t) := rawwrite_event (Key s) c u.

Definition luxem_rawwrite_type (c : luxem_rawwrite_context_t W) (u : U)
  (s : luxem_string_t) := rawwrite_event (TypeTag s) c u.

Definition luxem_rawwrite_primitive (c : luxem_rawwrite_context_t W) (u : U)
  (s : luxem_string_t) := rawwrite_event (Primitive s) c u.

End WriteEngine.

(** Modelled from the spec: [luxem_rawwrite_buffer_render] of the engine,
    absent from the binding's source.  "Buffer: accumulates all written
    bytes; dump() returns everything written so far; calling dump() on any
    other sink kind is an error."  On failure the context holds the
    message. *)
Definition luxem_rawwrite_buffer_render (c : luxem_rawwrite_context_t W)
  : luxem_string_t + luxem_rawwrite_context_t W :=
  match out c with
  | BufferOut buffer => inl buffer
  | _ => inr (rawwrite_set_error (engine_error (no_buffer write_grammar)) c)
  end.

(** *** Writer: the methods *)

(** The bytes [WRAP_STRING_FROM(error->pointer, error->length)] reads. *)
Definition error_bytes (e : luxem_error_t) : option bytes :=
  match pointer e with
  | text_pointer text => Some (firstn (length e) text)
  | _ => None
  end.

(** [Py_BuildValue("(y#)", ...)] under Python 3, [Py_BuildValue("(s#)",
    ...)] under Python 2: the argument tuple that holds the byte run, or
    NULL with a SystemError set where the format is refused. *)
Definition Py_BuildValue_bytes (string : luxem_string_t) (h : host)
  : option (list PyObject) * host :=
  match PY_MAJOR_VERSION with
  | Python2 => (Some [PyBytes string], h)
  | Python3 =>
      if PY_SSIZE_T_CLEAN_optional then (Some [PyBytes string], h)
      else
        (None,
         set_curexc
           (PyErr_SetString Python3 PyExc_SystemError
              (bytes_of_string
                 "PY_SSIZE_T_CLEAN macro must be defined for '#' formats"))
           h)
  end.

(** [translate_rawwrite_write]: the byte run goes to [user_data->target]
    as one [bytes] argument.  When the argument tuple cannot be built the
    answer is [luxem_false], with the error of the context left as it
    is. *)
Definition translate_rawwrite_write (context : luxem_rawwrite_context_t W)
  (user_data : Writer.t W) (string : luxem_string_t) (h : host)
  : write_result :=
  match Py_BuildValue_bytes string h with
  | (None, h') => Some (false, context, h')
  | (Some arguments, h') =>
      match Writer.target user_data with
      | None => None
      | Some target =>
          match PyEval_CallObject target arguments h' with
          | (None, h'') =>
              Some (false,
                    rawwrite_set_error
                      {| pointer := exception_marker; length := 0 |} context,
                    h'')
          | (Some _, h'') => Some (true, context, h'')
          end
      end
  end.

(** [Writer_new]: a fresh instance at [address], holding one reference. *)
Definition Writer_new (address : nat) : Writer.t W :=
  {| Writer.ob_refcnt := 1; Writer.address := address;
     Writer.context := luxem_rawwrite_construct;
     Writer.target := None; Writer.file := None |}.

(** [Writer_init], past the parsing of its arguments; [target] is written
    only when the argument was given, and [indent_multiple] is the C [int]
    the parsing has left.  The answer is 0 or -1 as in C. *)
Definition Writer_init (self : Writer.t W) (target : option PyObject)
  (pretty use_spaces : bool) (indent_multiple : Z) (h : host)
  : Z * Writer.t W * host :=
  let self :=
    match target with
    | Some o => Writer.set_target (Some o) self
    | None => self
    end in
  let bound : (Writer.t W * host) + (Writer.t W * host) :=
    match Writer.target self with
    | Some o =>
        if WRAP_FILE_CHECK PY_MAJOR_VERSION o then
          match WRAP_FILE_TO o h with
          | (None, h') => inr (Writer.set_file None self, h')
          | (Some f, h') =>
              let self := Writer.set_file (Some f) self in
              let h' := WRAP_FILE_INC_stream f h' in
              inl (Writer.set_context
                     (luxem_rawwrite_set_file_out (Writer.context self) f) self,
                   h')
          end
        else
          inl (Writer.set_context
                 (luxem_rawwrite_set_write_callback (Writer.context self)) self,
               h)
    | None =>
        inl (Writer.set_context
               (luxem_rawwrite_set_buffer_out (Writer.context self)) self,
             h)
    end in
  match bound with
  | inr (self, h) => ((-1)%Z, self, h)
  | inl (self, h) =>
      if pretty then
        (0%Z,
         Writer.set_context
           (luxem_rawwrite_set_pretty (Writer.context self)
              (if use_spaces then " "%byte else x09) indent_multiple) self,
         h)
      else (0%Z, self, h)
  end.

(** What a Writer method answers: the object returned (NULL: none), the
    Writer and the interpreter state; nothing when the process dies. *)
Definition method_result : Type :=
  option (option PyObject * Writer.t W * host).

(** The error branch shared by [translate_void_method] and
    [translate_string_method]: an engine message becomes a ValueError, the
    marker lets the exception already raised pass. *)
Definition raise_write_error (self : Writer.t W) (h : host) : method_result :=
  let error := werror (Writer.context self) in
  if negb (is_exception_marker (pointer error)) then
    if 0 <? length error then
      match error_bytes error with
      | Some text =>
          Some (None, self,
                set_curexc
                  (PyErr_SetObject PyExc_ValueError
                     (WRAP_STRING_FROM PY_MAJOR_VERSION text)) h)
      | None => None
      end
    else None
  else
    (* Pass through python exception *)
    if length error =? 0 then Some (None, self, h) else None.

(** [translate_void_method]. *)
Definition translate_void_method (self : Writer.t W)
  (method : luxem_rawwrite_context_t W -> Writer.t W -> host -> write_result)
  (h : host) : method_result :=
  match method (Writer.context self) self h with
  | None => None
  | Some (false, c, h') => raise_write_error (Writer.set_context c self) h'
  | Some (true, c, h') =>
      let self := Writer.Py_INCREF (Writer.set_context c self) in
      Some (Some (PyInstance (Writer.address self)), self, h')
  end.

Definition Writer_object_begin (self : Writer.t W) :=
  translate_void_method self (luxem_rawwrite_object_begin translate_rawwrite_write).
Definition Writer_object_end (self : Writer.t W) :=
  translate_void_method self (luxem_rawwrite_object_end translate_rawwrite_write).
Definition Writer_array_begin (self : Writer.t W) :=
  translate_void_method self (luxem_rawwrite_array_begin translate_rawwrite_write).
Definition Writer_array_end (self : Writer.t W) :=
  translate_void_method self (luxem_rawwrite_array_end translate_rawwrite_write).

(** [translate_string_method].  [WRAP_STRING_TO] leaves the pointer NULL
    and the length unset when the string has no bytes to give; the engine
    is called all the same. *)
Definition translate_string_method (self : Writer.t W)
  (positional_args : list PyObject)
  (method : luxem_rawwrite_context_t W -> Writer.t W -> luxem_string_t ->
            host -> write_result)
  (badargs : bytes) (h : host) : method_result :=
  match PyArg_ParseTuple_O PY_MAJOR_VERSION positional_args with
  | inr e => Some (None, self, set_curexc e h)
  | inl argument =>
      if WRAP_STRING_CHECK PY_MAJOR_VERSION argument then
        match WRAP_STRING_TO PY_MAJOR_VERSION argument with
        | None => None
        | Some string =>
            match method (Writer.context self) self string h with
            | None => None
            | Some (false, c, h') =>
                raise_write_error (Writer.set_context c self) h'
            | Some (true, c, h') =>
                let self := Writer.Py_INCREF (Writer.set_context c self) in
                Some (Some (PyInstance (Writer.address self)), self, h')
            end
        end
      else
        Some (None, self,
              set_curexc
                (PyErr_SetString PY_MAJOR_VERSION PyExc_TypeError badargs) h)
  end.

Definition Writer_key (self : Writer.t W) (positional_args : list PyObject) :=
  translate_string_method self positional_args
    (luxem_rawwrite_key translate_rawwrite_write)
    (bytes_of_string "luxem.RawWriter.key requires a single string argument.").

Definition Writer_type (self : Writer.t W) (positional_args : list PyObject) :=
  translate_string_method self positional_args
    (luxem_rawwrite_type translate_rawwrite_write)
    (bytes_of_string "luxem.RawWriter.type requires a single string argument.").

Definition Writer_primitive (self : Writer.t W) (positional_args : list PyObject) :=
  translate_string_method self positional_args
    (luxem_rawwrite_primitive translate_rawwrite_write)
    (bytes_of_string "luxem.RawWriter.primitive requires a single string argument.").

(** [Writer_dump]. *)
Definition Writer_dump (self : Writer.t W) (h : host) : method_result :=
  match Writer.target self with
  | Some _ =>
      Some (None, self,
            set_curexc
              (PyErr_SetString PY_MAJOR_VERSION PyExc_TypeError
                 (bytes_of_string
                    "luxem.RawWriter.dump can only be used if not using a custom serialize callback for serializing to file."))
              h)
  | None =>
      match luxem_rawwrite_buffer_render (Writer.context self) with
      | inr c =>
          let self := Writer.set_context c self in
          if 0 <? length (werror c) then
            match error_bytes (werror c) with
            | Some text =>
                Some (None, self,
                      set_curexc
                        (PyErr_SetObject PyExc_ValueError
                           (WRAP_STRING_FROM PY_MAJOR_VERSION text)) h)
            | None => None
            end
          else None
      | inl rendered =>
          Some (Some (WRAP_BYTES_FROM PY_MAJOR_VERSION rendered), self, h)
      end
  end.

(** *** The transcoder functions of the module *)

(** Modelled from the spec: [luxem_to_ascii16] and [luxem_from_ascii16] of
    the engine, absent from the binding's source, with the calling
    convention the binding uses: the output string, or no output and the
    error string filled in. *)
Definition luxem_to_ascii16 (data : luxem_string_t)
  : luxem_string_t + luxem_string_t :=
  inl (Ascii16.encode data).

Definition luxem_from_ascii16 (data : luxem_string_t)
  : luxem_string_t + luxem_string_t :=
  match Ascii16.decode data with
  | inl out => inl out
  | inr e => inr (error_text e)
  end.

(** [translate_to_from_ascii16].  [WRAP_STRING_TO] leaves the pointer NULL
    and the length unset when the string has no bytes to give, and
    [function] is called all the same. *)
Definition translate_to_from_ascii16 (positional_args : list PyObject)
  (function : luxem_string_t -> luxem_string_t + luxem_string_t) : PyResult :=
  match PyArg_ParseTuple_O PY_MAJOR_VERSION positional_args with
  | inr e => Raise e
  | inl argument =>
      if WRAP_STRING_CHECK PY_MAJOR_VERSION argument then
        match WRAP_STRING_TO PY_MAJOR_VERSION argument with
        | None => Undefined
        | Some string =>
            match function string with
            | inr error =>
                Raise (PyErr_SetObject PyExc_ValueError
                         (WRAP_STRING_FROM PY_MAJOR_VERSION error))
            | inl out =>
                match WRAP_STRING_FROM PY_MAJOR_VERSION out with
                | Some out_string => Return out_string
                | None =>
                    Raise {| exc_type := PyExc_UnicodeDecodeError;
                             exc_value := None |}
                end
            end
        end
      else
        Raise (PyErr_SetString PY_MAJOR_VERSION PyExc_TypeError
                 (bytes_of_string "A single string argument is required."))
  end.

Definition translate_to_ascii16 (positional_args : list PyObject) : PyResult :=
  translate_to_from_ascii16 positional_args luxem_to_ascii16.

Definition translate_from_ascii16 (positional_args : list PyObject) : PyResult :=
  translate_to_from_ascii16 positional_args luxem_from_ascii16.

(** *** The callers' side *)

(** The chunks of a document fed in order to one Reader, [finish] false on
    all but the last; the caller stops at the first call that raises. *)
Fixpoint feed_chunks (self : Reader.t) (chunks : list bytes) (last : bytes)
  (h : host) : option (option PyObject * Reader.t * host) :=
  match chunks with
  | [] => Reader_feed self (PyBytes last) true h
  | chunk :: chunks' =>
      match Reader_feed self (PyBytes chunk) false h with
      | Some (Some _, self', h') => feed_chunks self' chunks' last h'
      | stopped => stopped
      end
  end.

(** The entries of the method table [Writer_methods], with the positional
    arguments of the three [METH_VARARGS] ones. *)
Inductive Writer_method :=
| method_object_begin
| method_object_end
| method_array_begin
| method_array_end
| method_key (positional_args : list PyObject)
| method_type (positional_args : list PyObject)
| method_primitive (positional_args : list PyObject)
| method_dump.

Definition Writer_methods (m : Writer_method) (self : Writer.t W) (h : host)
  : method_result :=
  match m with
  | method_object_begin => Writer_object_begin self h
  | method_object_end => Writer_object_end self h
  | method_array_begin => Writer_array_begin self h
  | method_array_end => Writer_array_end self h
  | method_key positional_args => Writer_key self positional_args h
  | method_type positional_args => Writer_type self positional_args h
  | method_primitive positional_args => Writer_primitive self positional_args h
  | method_dump => Writer_dump self h
  end.

(** A caller's calls one after the other on one Writer, whatever each of
    them returns or raises. *)
Fixpoint Writer_calls (ms : list Writer_method) (self : Writer.t W) (h : host)
  : option (Writer.t W * host) :=
  match ms with
  | [] => Some (self, h)
  | m :: ms' =>
      match Writer_methods m self h with
      | Some (_, self', h') => Writer_calls ms' self' h'
      | None => None
      end
  end.

End Binding.

(** ** Vocabulary of the statements *)


Definition is_ascii (c : byte) : bool := (Byte.to_N c <? 128)%N.

(** The string object whose characters are the given ASCII bytes: a [str]
    of either Python. *)
Definition ascii_string (v : python) (text : bytes) : PyObject :=
  match v with
  | Python2 => PyBytes text
  | Python3 => PyUnicode (map Byte.to_N text)
  end.

(** The state machine alone, without listeners: the events a run of bytes
    yields and the state it ends in, when no byte violates the grammar. *)
Fixpoint grammar_run (g : Grammar) (m : machine) (data : bytes)
  : option (list Event * machine) :=
  match data with
  | [] => Some ([], m)
  | b :: data' =>
      match grammar_step g m b with
      | inr _ => None
      | inl (evs, m') =>
          match grammar_run g m' data' with
          | Some (evs', m'') => Some (evs ++ evs', m'')
          | None => None
          end
      end
  end.

(** An event whose payload the binding can turn into a string object. *)
Definition deliverable (v : python) (ev : Event) : bool :=
  match ev with
  | Key s | TypeTag s | Primitive s =>
      match WRAP_STRING_FROM v s with
      | Some _ => true
      | None => false
      end
  | _ => true
  end.

Definition failed_call (a : action) : bool :=
  match a with
  | Called _ _ (Some _) => true
  | _ => false
  end.

(** The bytes that went to the writer's buffer. *)
Fixpoint buffer_writes (l : list action) : bytes :=
  match l with
  | [] => []
  | BufferWrite run :: l' => run ++ buffer_writes l'
  | _ :: l' => buffer_writes l'
  end.

(** Where a thread stands with respect to the interpreter lock while it
    feeds from a stream. *)
Inductive lock := Held | Released | ReadDone.

(** The discipline of the suspend and resume hooks, read off a trace: a
    suspend only while the lock is held, then exactly one physical read,
    then the resume; calls into Python only while the lock is held; and
    the lock held at the end. *)
Fixpoint hooks_paired (st : lock) (l : list action) : bool :=
  match l with
  | [] => match st with Held => true | _ => false end
  | a :: l' =>
      match st, a with
      | Held, Called _ _ _ => hooks_paired Held l'
      | Held, SaveThread => hooks_paired Released l'
      | Released, PhysicalRead _ _ => hooks_paired ReadDone l'
      | ReadDone, RestoreThread => hooks_paired Held l'
      | _, _ => false
      end
  end.

(** No call into Python has failed. *)
Definition quiet (l : list action) : Prop :=
  forallb (fun a => negb (failed_call a)) l = true.

(** A call into Python, failed or not. *)
Definition is_call (a : action) : bool :=
  match a with
  | Called _ _ _ => true
  | _ => false
  end.

(** What a run of the reader engine has done when it answers [ok]: the
    trace has grown by [new]; either no call failed, the exception
    indicator is untouched and the error slot is as before (on success) or
    holds an engine message (on a grammar violation); or the last thing
    that happened is a call that raised [e], the indicator holds [e] and
    the error slot holds the marker. *)
Inductive engine_post (World : Type) (e0 : luxem_error_t) (h : host World)
  : bool -> luxem_error_t -> host World -> Prop :=
| post_success (h' : host World) (new : list action) :
    trace h' = trace h ++ new -> quiet new -> curexc h' = curexc h ->
    engine_post e0 h true e0 h'
| post_violation (h' : host World) (new : list action) (m : Message) :
    trace h' = trace h ++ new -> quiet new -> curexc h' = curexc h ->
    engine_post e0 h false (engine_error m) h'
| post_callback_failure (h' : host World) (pre : list action)
    (callee : PyObject) (arguments : list PyObject) (e : PyErr) :
    trace h' = trace h ++ pre ++ [Called callee arguments (Some e)] ->
    quiet pre -> curexc h' = Some e ->
    engine_post e0 h false {| pointer := exception_marker; length := 0 |} h'.

(** Only calls into Python have happened between two interpreter states,
    and the thread holds the lock as before. *)
Definition calls_post (World : Type) (h h' : host World) : Prop :=
  tstate_current h' = tstate_current h /\
  exists new, trace h' = trace h ++ new /\ forallb is_call new = true.

(** What a call of [feed] has done when it returns: either no call into
    Python failed, or it returns NULL, the last thing that happened is
    the call that raised, and the exception indicator holds what that call
    raised. *)
Definition feed_post (World : Type) (h h' : host World)
  (ret : option PyObject) : Prop :=
  (exists new, trace h' = trace h ++ new /\ quiet new) \/
  (ret = None /\
   exists pre callee arguments e,
     trace h' = trace h ++ pre ++ [Called callee arguments (Some e)] /\
     quiet pre /\ curexc h' = Some e).

(** The embedder's callables all return. *)
Definition obliging (World : Type)
  (python_call :
     PyObject -> list PyObject -> World -> (PyObject + PyErr) * World)
  : Prop :=
  forall callee arguments w,
    exists o w', python_call callee arguments w = (inl o, w').

(** A Writer that writes to its buffer: no target, the buffer sink bound,
    and in the buffer exactly the bytes written since the trace [since]. *)
Definition buffering (World W : Type) (since : list action)
  (self : Writer.t W) (h : host World) : Prop :=
  Writer.target self = None /\
  exists new,
    trace h = since ++ new /\
    out (Writer.context self) = BufferOut (buffer_writes new).

(** What a Writer constructed with [target], holding the stream [file],
    may do to the world: write to its buffer when it has no target, write
    to its stream when it has one, and otherwise call its target with one
    [bytes] argument. *)
Definition sink_action (target : option PyObject) (file : option FILE)
  (a : action) : Prop :=
  match target, a with
  | None, BufferWrite _ => True
  | Some _, FileWrite f _ => file = Some f
  | Some t, Called f [PyBytes _] _ => file = None /\ f = t
  | _, _ => False
  end.

(** The sink that goes with a target and a stream. *)
Definition sink_of (target : option PyObject) (file : option FILE)
  (s : sink) : Prop :=
  match target, file with
  | None, _ => exists buffer, s = BufferOut buffer
  | Some _, Some f => s = FileOut f
  | Some _, None => s = CallbackOut
  end.

(** A Writer as [Writer_init] leaves it: the sink of its target bound. *)
Definition sink_bound (W : Type) (self : Writer.t W) : Prop :=
  sink_of (Writer.target self) (Writer.file self) (out (Writer.context self)).

(** Positional arguments whose string, if they are one string, has bytes
    to give. *)
Definition has_bytes (v : python) (positional_args : list PyObject) : bool :=
  match positional_args with
  | [o] =>
      if WRAP_STRING_CHECK v o then
        match WRAP_STRING_TO v o with
        | Some _ => true
        | None => false
        end
      else true
  | _ => true
  end.

Definition call_has_bytes (v : python) (m : Writer_method) : bool :=
  match m with
  | method_key positional_args
  | method_type positional_args
  | method_primitive positional_args => has_bytes v positional_args
  | _ => true
  end.

(** The references a returned object holds on the instance at [address]. *)
Definition references_to (address : nat) (r : option PyObject) : nat :=
  match r with
  | Some (PyInstance a) => if a =? address then 1 else 0
  | _ => 0
  end.

(** A code point without UTF-8 form: a surrogate, or beyond U+10FFFF. *)
Definition unencodable (c : Utf8.codepoint) : bool :=
  Utf8.is_surrogate c || (1114112 <=? c)%N.

(** A call of one of the listeners of a Reader: one of the four without
    argument, or one of the three with a payload, which is a string of the
    running Python. *)
Definition listener_call (v : python) (r : Reader.t) (a : action) : Prop :=
  match a with
  | Called f [] _ =>
      f = Reader.object_begin r \/ f = Reader.object_end r \/
      f = Reader.array_begin r \/ f = Reader.array_end r
  | Called f [o] _ =>
      (f = Reader.key r \/ f = Reader.type r \/ f = Reader.primitive r) /\
      WRAP_STRING_CHECK v o = true
  | _ => False
  end.

(** A grammar all of whose events the binding can deliver under [v]. *)
Definition deliverable_grammar (v : python) (g : Grammar) : Prop :=
  (forall m b evs m',
     grammar_step g m b = inl (evs, m') -> forallb (deliverable v) evs = true) /\
  (forall m evs m',
     grammar_finish g m = inl (evs, m') -> forallb (deliverable v) evs = true).

(** The two ways a Writer method ends once the engine has answered:
    the shared tail of [translate_void_method] and
    [translate_string_method]. *)
Definition finish_method (v : python) (World W : Type) (self : Writer.t W)
  (res : write_result World W) : method_result World W :=
  match res with
  | None => None
  | Some (false, c, h') => raise_write_error v (Writer.set_context c self) h'
  | Some (true, c, h') =>
      Some (Some (PyInstance
                    (Writer.address (Writer.Py_INCREF (Writer.set_context c self)))),
            Writer.Py_INCREF (Writer.set_context c self), h')
  end.

(** The stream of a target, when it is a file object with one: what
    [WRAP_FILE_TO] gets of it in the interpreter state [h]. *)
Definition stream_of (v : python) (World : Type)
  (python_call :
     PyObject -> list PyObject -> World -> (PyObject + PyErr) * World)
  (stdio_stream : Z -> option FILE)
  (target : option PyObject) (h : host World) : option FILE :=
  match target with
  | Some o =>
      if WRAP_FILE_CHECK v o then
        fst (WRAP_FILE_TO v python_call stdio_stream o h)
      else None
  | None => None
  end.

(** The stream [feed] reads from: that of a file object, none for
    [bytes]. *)
Definition feed_stream (v : python) (World : Type)
  (python_call :
     PyObject -> list PyObject -> World -> (PyObject + PyErr) * World)
  (stdio_stream : Z -> option FILE)
  (data : PyObject) (h : host World) : option FILE :=
  if WRAP_BYTES_CHECK v data then None
  else stream_of v python_call stdio_stream (Some data) h.

(** The call by which the descriptor of a file object is asked for:
    under Python 3, of its [fileno] method, without argument. *)
Definition fileno_call (v : python) (o : PyObject) (a : action) : Prop :=
  v = Python3 /\
  exists failure, a = Called (PyBoundMethod o "fileno") [] failure.

(** What a Reader may do to the world while it is fed from [file]: call
    its listeners, and release the lock, read from [file] and take the lock
    again. *)
Definition reader_action (v : python) (r : Reader.t) (file : option FILE)
  (a : action) : Prop :=
  match a with
  | Called _ _ _ => listener_call v r a
  | SaveThread | RestoreThread => file <> None
  | PhysicalRead f _ => file = Some f
  | FileWrite _ _ | BufferWrite _ | FileIncUseCount _ => False
  end.

(** Between two interpreter states, only listeners of the Reader were
    called. *)
Definition listens (World : Type) (v : python) (r : Reader.t)
  (h h' : host World) : Prop :=
  exists new, trace h' = trace h ++ new /\ Forall (listener_call v r) new.

(** The event a Writer method asks the engine to write, when its
    arguments get it that far. *)
Definition method_event (v : python) (m : Writer_method) : option Event :=
  let payload (event : luxem_string_t -> Event)
        (positional_args : list PyObject) :=
    match positional_args with
    | [argument] =>
        if WRAP_STRING_CHECK v argument then
          option_map event (WRAP_STRING_TO v argument)
        else None
    | _ => None
    end in
  match m with
  | method_object_begin => Some ObjectBegin
  | method_object_end => Some ObjectEnd
  | method_array_begin => Some ArrayBegin
  | method_array_end => Some ArrayEnd
  | method_key positional_args => payload Key positional_args
  | method_type positional_args => payload TypeTag positional_args
  | method_primitive positional_args => payload Primitive positional_args
  | method_dump => None
  end.


(** The events the grammar gives on [data], in order, up to its first
    violation; with [finish], and no structure left open, also those of
    the end of input.  These are the events a feed can deliver: it
    delivers them in this order and may stop early. *)
Fixpoint grammar_events (g : Grammar) (m : machine) (data : bytes)
  (finish : bool) : list Event :=
  match data with
  | [] =>
      if finish then
        match stack m with
        | [] =>
            match grammar_finish g m with
            | inl (evs, _) => evs
            | inr _ => []
            end
        | _ :: _ => []
        end
      else []
  | b :: data' =>
      match grammar_step g m b with
      | inl (evs, m') => evs ++ grammar_events g m' data' finish
      | inr _ => []
      end
  end.

(** What a feed of [data] puts through the state machine, and whether the
    document ends with it: the bytes of a [bytes] object, and [finish];
    all that the stream of a file object delivers, to its end. *)
Definition fed (v : python) (World : Type)
  (python_call :
     PyObject -> list PyObject -> World -> (PyObject + PyErr) * World)
  (stdio_stream : Z -> option FILE) (physical_reads : FILE -> list bytes)
  (data : PyObject) (finish : bool) (h : host World)
  : option (bytes * bool) :=
  if WRAP_BYTES_CHECK v data then
    option_map (fun string => (string, finish)) (WRAP_BYTES_TO v data)
  else
    option_map (fun file => (List.concat (physical_reads file), true))
      (feed_stream v python_call stdio_stream data h).

(** Whether [Py_BuildValue] builds the argument of the write callback:
    always under Python 2; under Python 3 where the formats with [#] are
    taken without [PY_SSIZE_T_CLEAN]. *)
Definition builds_bytes (v : python) (clean : bool) : bool :=
  match v with
  | Python2 => true
  | Python3 => clean
  end.

(** A target that is called with the bytes to write: one that is no file
    object. *)
Definition callback_target (v : python) (target : option PyObject) : bool :=
  match target with
  | Some o => negb (WRAP_FILE_CHECK v o)
  | None => false
  end.

(** What [Writer_init] may do to the world: under Python 3 call the
    [fileno] method of its target, under Python 2 increment the use count
    in the stream [file] of its target. *)
Definition init_action (v : python) (target : option PyObject)
  (file : option FILE) (a : action) : Prop :=
  match a with
  | Called _ _ _ => exists o, target = Some o /\ fileno_call v o a
  | FileIncUseCount f => v = Python2 /\ file = Some f
  | _ => False
  end.

(** ** A sample format and a sample embedder

    Small instances of what the binding is parametric in, to run the
    definitions on: a grammar in the style of the format, a writer for it,
    and embedders whose callables count their calls. *)

Definition sample_message (s : string) : Message :=
  match bytes_of_string s with
  | c :: r => (c, r)
  | [] => ("?"%byte, [])
  end.

Definition sample_flush (m : machine) : list Event :=
  match pending m with
  | [] => []
  | token => [Primitive token]
  end.

Definition sample_step (m : machine) (b : byte)
  : (list Event * machine) + Message :=
  match b with
  | "{"%byte =>
      inl ([ObjectBegin],
           {| stack := ObjectFrame :: stack m; awaiting := AwaitingKey;
              pending := [] |})
  | "["%byte =>
      inl ([ArrayBegin],
           {| stack := ArrayFrame :: stack m; awaiting := AwaitingValue;
              pending := [] |})
  | "}"%byte =>
      match stack m with
      | ObjectFrame :: st =>
          inl (sample_flush m ++ [ObjectEnd],
               {| stack := st; awaiting := AwaitingValue; pending := [] |})
      | _ => inr (sample_message "no object to close")
      end
  | "]"%byte =>
      match stack m with
      | ArrayFrame :: st =>
          inl (sample_flush m ++ [ArrayEnd],
               {| stack := st; awaiting := AwaitingValue; pending := [] |})
      | _ => inr (sample_message "no array to close")
      end
  | ":"%byte =>
      match stack m with
      | ObjectFrame :: _ =>
          inl ([Key (pending m)],
               {| stack := stack m; awaiting := AwaitingValue; pending := [] |})
      | _ => inr (sample_message "key outside of an object")
      end
  | ","%byte =>
      inl (sample_flush m,
           {| stack := stack m; awaiting := awaiting m; pending := [] |})
  | c =>
      inl ([],
           {| stack := stack m; awaiting := awaiting m;
              pending := pending m ++ [c] |})
  end.

Definition sample_grammar : Grammar :=
  {| grammar_step := sample_step;
     grammar_finish := fun m =>
       inl (sample_flush m,
            {| stack := stack m; awaiting := awaiting m; pending := [] |});
     open_structure := sample_message "unexpected end of input" |}.

Definition sample_write_step (p : option (byte * Z)) (w : list Frame)
  (ev : Event) : (list bytes * list Frame) + Message :=
  match ev with
  | ObjectBegin => inl ([bytes_of_string "{"], ObjectFrame :: w)
  | ArrayBegin => inl ([bytes_of_string "["], ArrayFrame :: w)
  | ObjectEnd =>
      match w with
      | ObjectFrame :: w' => inl ([bytes_of_string "},"], w')
      | _ => inr (sample_message "no object to close")
      end
  | ArrayEnd =>
      match w with
      | ArrayFrame :: w' => inl ([bytes_of_string "],"], w')
      | _ => inr (sample_message "no array to close")
      end
  | Key s =>
      match w with
      | ObjectFrame :: _ => inl ([s; bytes_of_string ":"], w)
      | _ => inr (sample_message "key outside of an object")
      end
  | TypeTag s => inl ([bytes_of_string "("; s; bytes_of_string ")"], w)
  | Primitive s => inl ([s; bytes_of_string ","], w)
  end.

Definition sample_write_grammar : WriteGrammar (list Frame) :=
  {| write_initial := [];
     write_step := sample_write_step;
     no_buffer := sample_message "not writing to a buffer" |}.

(** An embedder whose every callable returns [None]; its state counts the
    calls. *)
Definition obliging_call (callee : PyObject) (arguments : list PyObject)
  (w : nat) : (PyObject + PyErr) * nat :=
  (inl Py_None, S w).

(** The same, but for the object [PyOpaque 0], which raises, and for the
    [fileno] of a file object, which gives its descriptor. *)
Definition sample_call (callee : PyObject) (arguments : list PyObject)
  (w : nat) : (PyObject + PyErr) * nat :=
  match callee with
  | PyOpaque 0 =>
      (inr {| exc_type := PyExc_Other 0; exc_value := None |}, S w)
  | PyBoundMethod (PyFileLike fd) _ => (inl (PyLong fd), S w)
  | _ => (inl Py_None, S w)
  end.

Definition sample_host : host nat :=
  {| world := 0; curexc := None; tstate_current := Some 1; trace := [] |}.

(** Descriptor 3 is open; its stream delivers a document in two reads. *)
Definition sample_stream (fd : Z) : option FILE :=
  if (fd =? 3)%Z then Some 3 else None.

Definition sample_reads (f : FILE) : list bytes :=
  [bytes_of_string "{a:"; bytes_of_string "1}"].

Definition sample_error_text (e : Ascii16.TranscoderError) : luxem_string_t :=
  match Ascii16.message e with
  | Ascii16.NotInAlphabet => bytes_of_string "invalid ascii16 character"
  | Ascii16.OddLength => bytes_of_string "ascii16 input of odd length"
  end.

(** A Reader whose seven listeners are the objects [PyOpaque 1] to
    [PyOpaque 7], and one whose [key] listener is the raising object. *)
Definition sample_reader : Reader.t :=
  Reader_init (PyOpaque 1) (PyOpaque 2) (PyOpaque 3) (PyOpaque 4)
    (PyOpaque 5) (PyOpaque 6) (PyOpaque 7).

Definition sample_reader_bad_key : Reader.t :=
  Reader_init (PyOpaque 1) (PyOpaque 2) (PyOpaque 3) (PyOpaque 4)
    (PyOpaque 0) (PyOpaque 6) (PyOpaque 7).

(** One whose [object_begin] listener is the raising object. *)
Definition sample_reader_bad_begin : Reader.t :=
  Reader_init (PyOpaque 0) (PyOpaque 2) (PyOpaque 3) (PyOpaque 4)
    (PyOpaque 5) (PyOpaque 6) (PyOpaque 7).

(** A Writer of Python 3 constructed without target, at address 64. *)
Definition sample_writer : Writer.t (list Frame) :=
  snd (fst (Writer_init Python3 sample_call sample_stream
              (Writer_new sample_write_grammar 64) None false false 1
              sample_host)).


Definition sample_stream_writer : Writer.t (list Frame) :=
  snd (fst (Writer_init Python3 sample_call sample_stream
              (Writer_new sample_write_grammar 66) (Some (PyFileLike 3)) true
              true 2 sample_host)).

(** The interpreter state once that Writer is constructed. *)
Definition sample_stream_host : host nat :=
  snd (Writer_init Python3 sample_call sample_stream
         (Writer_new sample_write_grammar 66) (Some (PyFileLike 3)) true
         true 2 sample_host).

(** A Writer whose target is the raising object. *)
Definition sample_failing_writer : Writer.t (list Frame) :=
  snd (fst (Writer_init Python3 sample_call sample_stream
              (Writer_new sample_write_grammar 67) (Some (PyOpaque 0)) false
              false 1 sample_host)).

(** The exception the raising object raises. *)
Definition sample_exception : PyErr :=
  {| exc_type := PyExc_Other 0; exc_value := None |}.

(** * Properties *)

(** ** The transcoder *)

Ltac Zify.zify_post_hook ::= Z.to_euclidean_division_equations.

Lemma decode_encode_byte (b : byte) (rest : bytes) (off : nat) :
  Ascii16.decode_from off (Ascii16.encode_byte b ++ rest) =
  match Ascii16.decode_from (S (S off)) rest with
  | inl out => inl (b :: out)
  | inr e => inr e
  end.
Proof. destruct b; reflexivity. Qed.

Lemma decode_from_encode (data : bytes) :
  forall off, Ascii16.decode_from off (Ascii16.encode data) = inl data.
Proof.
  induction data as [|b data IH]; intro off; [reflexivity|].
  change (Ascii16.encode (b :: data))
    with (Ascii16.encode_byte b ++ Ascii16.encode data).
  now rewrite decode_encode_byte, IH.
Qed.

Lemma ascii16_decode_encode (data : bytes) :
  Ascii16.decode (Ascii16.encode data) = inl data.
Proof. apply decode_from_encode. Qed.

Lemma encode_length (data : bytes) :
  List.length (Ascii16.encode data) = 2 * List.length data.
Proof.
  induction data as [|b data IH]; [reflexivity|].
  change (Ascii16.encode (b :: data))
    with (Ascii16.encode_byte b ++ Ascii16.encode data).
  rewrite length_app, IH. simpl. lia.
Qed.

Lemma encode_byte_digits (b : byte) :
  forallb Ascii16.is_digit (Ascii16.encode_byte b) = true.
Proof. destruct b; reflexivity. Qed.

Lemma encode_digits (data : bytes) :
  forallb Ascii16.is_digit (Ascii16.encode data) = true.
Proof.
  induction data as [|b data IH]; [reflexivity|].
  change (Ascii16.encode (b :: data))
    with (Ascii16.encode_byte b ++ Ascii16.encode data).
  now rewrite forallb_app, encode_byte_digits, IH.
Qed.

(** A digit of the alphabet is an ASCII character. *)
Lemma digit_is_ascii (c : byte) :
  Ascii16.is_digit c = true -> (Byte.to_N c <? 128)%N = true.
Proof. destruct c; intro H; try reflexivity; discriminate H. Qed.

(** Induction over a list two elements at a time. *)
Lemma pairs_ind (A : Type) (P : list A -> Prop) :
  P [] -> (forall a, P [a]) -> (forall a b l, P l -> P (a :: b :: l)) ->
  forall l, P l.
Proof.
  intros H0 H1 H2.
  assert (both : forall l, P l /\ forall a, P (a :: l)).
  { induction l as [|x l [IHl IHx]]; split; auto. }
  intro l. apply both.
Qed.

(** The decoder fails exactly on the inputs that have an offending
    character, and reports the first one. *)
Lemma decode_from_first_offending (s : bytes) :
  forall off,
    match Ascii16.first_offending off s with
    | None => exists out, Ascii16.decode_from off s = inl out
    | Some k =>
        exists m,
          Ascii16.decode_from off s =
          inr {| Ascii16.message := m; Ascii16.offset := k |}
    end.
Proof.
  induction s as [|a|a b l IH] using pairs_ind; intro off.
  - now exists [].
  - simpl. destruct (Ascii16.from_digit a); eauto.
  - cbn [Ascii16.first_offending Ascii16.decode_from].
    unfold Ascii16.is_digit.
    destruct (Ascii16.from_digit a) as [h|]; cbn [negb]; [|eauto].
    destruct (Ascii16.from_digit b) as [lo|]; cbn [negb]; [|eauto].
    specialize (IH (S (S off))).
    destruct (Ascii16.first_offending (S (S off)) l).
    + destruct IH as [m ->]. eauto.
    + destruct IH as [out ->]. eauto.
Qed.

(** An input has no offending character exactly when its length is even
    and all its characters are digits of the alphabet. *)
Lemma first_offending_none (s : bytes) :
  forall off,
    Ascii16.first_offending off s = None <->
    Nat.even (List.length s) = true /\ forallb Ascii16.is_digit s = true.
Proof.
  induction s as [|a|a b l IH] using pairs_ind; intro off.
  - simpl. tauto.
  - simpl. split; [discriminate|]. intros [H _]. discriminate H.
  - cbn [Ascii16.first_offending List.length forallb Nat.even].
    destruct (Ascii16.is_digit a); cbn [negb andb].
    2:{ split; [discriminate|]. intros [_ H]. discriminate H. }
    destruct (Ascii16.is_digit b); cbn [negb andb].
    2:{ split; [discriminate|]. intros [_ H]. discriminate H. }
    apply IH.
Qed.

(** The offset reported lies in the input, every character before it is a
    digit, and the character there is outside the alphabet or is the
    unpaired last one of an input of odd length. *)
Lemma first_offending_some (s : bytes) :
  forall off k,
    Ascii16.first_offending off s = Some k ->
    off <= k < off + List.length s /\
    forallb Ascii16.is_digit (firstn (k - off) s) = true /\
    (Ascii16.is_digit (nth (k - off) s x00) = false \/
     (S k = off + List.length s /\ Nat.odd (List.length s) = true)).
Proof.
  induction s as [|a|a b l IH] using pairs_ind; intros off k H.
  - discriminate H.
  - injection H as <-. rewrite Nat.sub_diag. simpl.
    repeat split; auto; try lia. right. split; [lia|reflexivity].
  - cbn [Ascii16.first_offending] in H.
    destruct (Ascii16.is_digit a) eqn:Ha; cbn [negb] in H.
    2:{ injection H as <-. rewrite Nat.sub_diag. simpl.
        repeat split; auto; lia. }
    destruct (Ascii16.is_digit b) eqn:Hb; cbn [negb] in H.
    2:{ injection H as <-. replace (S off - off) with 1 by lia. simpl.
        rewrite Ha. repeat split; auto; lia. }
    apply IH in H. destruct H as (Hk & Hd & Hc).
    replace (k - off) with (S (S (k - S (S off)))) by lia.
    cbn [firstn forallb nth List.length].
    rewrite Ha, Hb. cbn [andb].
    repeat split; auto; try lia.
    destruct Hc as [Hc|[Hc Ho]]; [now left|right].
    split; [lia|]. now rewrite Nat.odd_succ_succ.
Qed.

(** ** The UTF-8 codec *)

Lemma to_N_byte_of_N (n : N) : (n < 256)%N -> Byte.to_N (byte_of_N n) = n.
Proof.
  intro H. unfold byte_of_N.
  destruct (Byte.of_N n) as [b|] eqn:E.
  - now apply Byte.to_of_N.
  - apply Byte.of_N_None_iff in E. lia.
Qed.

Lemma byte_of_N_to_N (b : byte) : byte_of_N (Byte.to_N b) = b.
Proof. unfold byte_of_N. now rewrite Byte.of_to_N. Qed.

Lemma utf8_decode_ascii (bs : bytes) :
  forallb is_ascii bs = true -> Utf8.decode bs = Some (map Byte.to_N bs).
Proof.
  induction bs as [|b bs IH]; [reflexivity|].
  cbn [forallb]. intro H. apply andb_prop in H. destruct H as [Hb Hbs].
  unfold is_ascii in Hb.
  cbn [Utf8.decode map]. rewrite Hb, (IH Hbs). reflexivity.
Qed.

Lemma utf8_encode_ascii (bs : bytes) :
  forallb is_ascii bs = true -> Utf8.encode (map Byte.to_N bs) = Some bs.
Proof.
  induction bs as [|b bs IH]; [reflexivity|].
  cbn [forallb]. intro H. apply andb_prop in H. destruct H as [Hb Hbs].
  unfold is_ascii in Hb.
  cbn [Utf8.encode map]. unfold Utf8.encode_codepoint.
  rewrite Hb, (IH Hbs), byte_of_N_to_N. reflexivity.
Qed.

Lemma continuation_byte_of_N (n : N) :
  (n < 64)%N -> Utf8.continuation (byte_of_N (128 + n)) = Some n.
Proof.
  intro H. unfold Utf8.continuation.
  rewrite to_N_byte_of_N by lia.
  replace ((128 <=? 128 + n) && (128 + n <? 192))%N with true.
  - f_equal. lia.
  - symmetry. apply andb_true_intro. split.
    + apply N.leb_le. lia.
    + apply N.ltb_lt. lia.
Qed.

Ltac ltb_decide :=
  repeat match goal with
  | |- context [(?a <? ?b)%N] =>
      let E := fresh "E" in
      destruct (a <? b)%N eqn:E;
      [apply N.ltb_lt in E | apply N.ltb_ge in E]; try lia
  | |- context [(?a <=? ?b)%N] =>
      let E := fresh "E" in
      destruct (a <=? b)%N eqn:E;
      [apply N.leb_le in E | apply N.leb_gt in E]; try lia
  end.

Lemma some_inj (A : Type) (x y : A) : Some x = Some y -> x = y.
Proof. congruence. Qed.

Lemma utf8_decode_1 (b0 : byte) (rest : bytes) :
  (Byte.to_N b0 < 128)%N ->
  Utf8.decode (b0 :: rest) = option_map (cons (Byte.to_N b0)) (Utf8.decode rest).
Proof.
  intro H. cbn [Utf8.decode]. apply N.ltb_lt in H. now rewrite H.
Qed.

Lemma utf8_decode_2 (b0 b1 : byte) (rest : bytes) (n1 : N) :
  (192 <= Byte.to_N b0 < 224)%N ->
  Utf8.continuation b1 = Some n1 ->
  (128 <= (Byte.to_N b0 - 192) * 64 + n1)%N ->
  Utf8.decode (b0 :: b1 :: rest) =
  option_map (cons ((Byte.to_N b0 - 192) * 64 + n1)%N) (Utf8.decode rest).
Proof.
  intros H0 H1 Hc. cbn [Utf8.decode]. rewrite H1.
  ltb_decide. reflexivity.
Qed.

Lemma utf8_decode_3 (b0 b1 b2 : byte) (rest : bytes) (n1 n2 : N) :
  (224 <= Byte.to_N b0 < 240)%N ->
  Utf8.continuation b1 = Some n1 ->
  Utf8.continuation b2 = Some n2 ->
  (2048 <= (Byte.to_N b0 - 224) * 4096 + n1 * 64 + n2)%N ->
  Utf8.is_surrogate ((Byte.to_N b0 - 224) * 4096 + n1 * 64 + n2) = false ->
  Utf8.decode (b0 :: b1 :: b2 :: rest) =
  option_map (cons ((Byte.to_N b0 - 224) * 4096 + n1 * 64 + n2)%N)
    (Utf8.decode rest).
Proof.
  intros H0 H1 H2 Hc Hs. cbn [Utf8.decode]. rewrite H1, H2, Hs.
  ltb_decide. reflexivity.
Qed.

Lemma utf8_decode_4 (b0 b1 b2 b3 : byte) (rest : bytes) (n1 n2 n3 : N) :
  (240 <= Byte.to_N b0 < 248)%N ->
  Utf8.continuation b1 = Some n1 ->
  Utf8.continuation b2 = Some n2 ->
  Utf8.continuation b3 = Some n3 ->
  (65536 <= (Byte.to_N b0 - 240) * 262144 + n1 * 4096 + n2 * 64 + n3
   < 1114112)%N ->
  Utf8.decode (b0 :: b1 :: b2 :: b3 :: rest) =
  option_map
    (cons ((Byte.to_N b0 - 240) * 262144 + n1 * 4096 + n2 * 64 + n3)%N)
    (Utf8.decode rest).
Proof.
  intros H0 H1 H2 H3 Hc. cbn [Utf8.decode]. rewrite H1, H2, H3.
  ltb_decide. reflexivity.
Qed.

Lemma utf8_decode_encode_codepoint (c : Utf8.codepoint) (b rest : bytes) :
  Utf8.encode_codepoint c = Some b ->
  Utf8.decode (b ++ rest) = option_map (cons c) (Utf8.decode rest).
Proof.
  unfold Utf8.encode_codepoint.
  destruct (c <? 128)%N eqn:E1.
  { intro H. apply some_inj in H. subst b. apply N.ltb_lt in E1.
    cbv beta iota delta [app].
    rewrite utf8_decode_1; rewrite to_N_byte_of_N by lia; [reflexivity|lia]. }
  apply N.ltb_ge in E1.
  destruct (c <? 2048)%N eqn:E2.
  { intro H. apply some_inj in H. subst b. apply N.ltb_lt in E2.
    cbv beta iota delta [app].
    assert (Hc : ((192 + c / 64 - 192) * 64 + c mod 64 = c)%N) by lia.
    rewrite utf8_decode_2 with (n1 := (c mod 64)%N);
      rewrite ?to_N_byte_of_N by lia; rewrite ?Hc;
      [reflexivity | lia | apply continuation_byte_of_N; lia | lia]. }
  apply N.ltb_ge in E2.
  destruct (c <? 65536)%N eqn:E3.
  { destruct (Utf8.is_surrogate c) eqn:Es; [discriminate|].
    intro H. apply some_inj in H. subst b. apply N.ltb_lt in E3.
    cbv beta iota delta [app].
    assert (Hc : ((224 + c / 4096 - 224) * 4096 + (c / 64) mod 64 * 64
                  + c mod 64 = c)%N) by lia.
    rewrite utf8_decode_3
      with (n1 := ((c / 64) mod 64)%N) (n2 := (c mod 64)%N);
      rewrite ?to_N_byte_of_N by lia; rewrite ?Hc;
      [reflexivity | lia | apply continuation_byte_of_N; lia
      | apply continuation_byte_of_N; lia | lia | assumption]. }
  apply N.ltb_ge in E3.
  destruct (c <? 1114112)%N eqn:E4; [|discriminate].
  intro H. apply some_inj in H. subst b. apply N.ltb_lt in E4.
  cbv beta iota delta [app].
  assert (Hc : ((240 + c / 262144 - 240) * 262144 + (c / 4096) mod 64 * 4096
                + (c / 64) mod 64 * 64 + c mod 64 = c)%N) by lia.
  rewrite utf8_decode_4
    with (n1 := ((c / 4096) mod 64)%N) (n2 := ((c / 64) mod 64)%N)
         (n3 := (c mod 64)%N);
    rewrite ?to_N_byte_of_N by lia; rewrite ?Hc;
    [reflexivity | lia | apply continuation_byte_of_N; lia
    | apply continuation_byte_of_N; lia | apply continuation_byte_of_N; lia
    | lia].
Qed.

(** Decoding the UTF-8 form of a [str] gives the [str] back. *)
Lemma utf8_decode_encode (s : list Utf8.codepoint) :
  forall bs, Utf8.encode s = Some bs -> Utf8.decode bs = Some s.
Proof.
  induction s as [|c s IH]; intros bs H.
  - injection H as <-. reflexivity.
  - cbn [Utf8.encode] in H.
    destruct (Utf8.encode_codepoint c) as [b|] eqn:Ec; [|discriminate].
    destruct (Utf8.encode s) as [bs'|] eqn:Es; [|discriminate].
    injection H as <-.
    rewrite (@utf8_decode_encode_codepoint c b _ Ec), (IH _ eq_refl).
    reflexivity.
Qed.

(** ** The string macros *)

(** A string object made from the bytes of a string object is that
    object. *)
Lemma WRAP_STRING_FROM_TO (v : python) (o : PyObject) (b : bytes) :
  WRAP_STRING_TO v o = Some b -> WRAP_STRING_FROM v b = Some o.
Proof.
  destruct v, o; try discriminate; cbn [WRAP_STRING_TO WRAP_STRING_FROM].
  - congruence.
  - intro H. now rewrite (utf8_decode_encode s H).
Qed.

Lemma WRAP_STRING_TO_CHECK (v : python) (o : PyObject) (b : bytes) :
  WRAP_STRING_TO v o = Some b -> WRAP_STRING_CHECK v o = true.
Proof. destruct v, o; try discriminate; reflexivity. Qed.

Lemma WRAP_STRING_FROM_ascii (v : python) (text : bytes) :
  forallb is_ascii text = true ->
  WRAP_STRING_FROM v text = Some (ascii_string v text).
Proof.
  intro H. destruct v; [reflexivity|].
  cbn [WRAP_STRING_FROM ascii_string]. now rewrite utf8_decode_ascii.
Qed.

Lemma WRAP_STRING_TO_ascii (v : python) (text : bytes) :
  forallb is_ascii text = true ->
  WRAP_STRING_TO v (ascii_string v text) = Some text.
Proof.
  intro H. destruct v; [reflexivity|].
  cbn [WRAP_STRING_TO ascii_string]. now apply utf8_encode_ascii.
Qed.

Lemma digits_are_ascii (text : bytes) :
  forallb Ascii16.is_digit text = true -> forallb is_ascii text = true.
Proof.
  induction text as [|c text IH]; [reflexivity|].
  cbn [forallb]. intro H. apply andb_prop in H. destruct H as [Hc Ht].
  unfold is_ascii at 1. now rewrite (digit_is_ascii c Hc), IH.
Qed.

(** ** The transcoder functions of the module *)

(** What [to_ascii16] answers on a string object with bytes [b]. *)
Lemma translate_to_ascii16_string (v : python) (o : PyObject) (b : bytes) :
  WRAP_STRING_TO v o = Some b ->
  translate_to_ascii16 v [o] = Return (ascii_string v (Ascii16.encode b)).
Proof.
  intro H. unfold translate_to_ascii16, translate_to_from_ascii16.
  cbn [PyArg_ParseTuple_O]. rewrite (WRAP_STRING_TO_CHECK v o H), H.
  cbn [luxem_to_ascii16].
  rewrite WRAP_STRING_FROM_ascii; [reflexivity|].
  apply digits_are_ascii, encode_digits.
Qed.

(** C8 (as amended): on every string argument whose bytes [b] the binding
    can obtain -- any [str] of Python 2, any [str] of Python 3 that has a
    UTF-8 form -- [to_ascii16] succeeds and returns the string of
    [2 * length b] characters, all of them in the alphabet, that encodes
    [b]. *)
Theorem to_ascii16_total_on_strings (v : python) (o : PyObject) (b : bytes) :
  WRAP_STRING_TO v o = Some b ->
  translate_to_ascii16 v [o] = Return (ascii_string v (Ascii16.encode b)) /\
  List.length (Ascii16.encode b) = 2 * List.length b /\
  forallb Ascii16.is_digit (Ascii16.encode b) = true.
Proof.
  intro H. split; [now apply translate_to_ascii16_string|].
  split; [apply encode_length | apply encode_digits].
Qed.

(** C4 (as amended): on every string argument whose bytes the binding can
    obtain, [from_ascii16 (to_ascii16 s)] returns [s]. *)
Theorem ascii16_round_trip_on_strings (v : python)
  (error_text : Ascii16.TranscoderError -> luxem_string_t)
  (o : PyObject) (b : bytes) :
  WRAP_STRING_TO v o = Some b ->
  exists encoded,
    translate_to_ascii16 v [o] = Return encoded /\
    translate_from_ascii16 v error_text [encoded] = Return o.
Proof.
  intro H. exists (ascii_string v (Ascii16.encode b)).
  split; [now apply translate_to_ascii16_string|].
  assert (Ha : forallb is_ascii (Ascii16.encode b) = true)
    by apply digits_are_ascii, encode_digits.
  pose proof (WRAP_STRING_TO_ascii v _ Ha) as Hto.
  unfold translate_from_ascii16, translate_to_from_ascii16.
  cbn [PyArg_ParseTuple_O].
  rewrite (WRAP_STRING_TO_CHECK v _ Hto), Hto.
  unfold luxem_from_ascii16. rewrite ascii16_decode_encode.
  now rewrite (WRAP_STRING_FROM_TO v o H).
Qed.

(** On an input with an offending character [from_ascii16] raises a
    ValueError whose value is the engine's text for an error at the first
    offending offset. *)
Lemma from_ascii16_rejects (v : python)
  (error_text : Ascii16.TranscoderError -> luxem_string_t)
  (o : PyObject) (s : bytes) (k : nat) :
  WRAP_STRING_TO v o = Some s ->
  Ascii16.first_offending 0 s = Some k ->
  exists m,
    translate_from_ascii16 v error_text [o] =
    Raise (PyErr_SetObject PyExc_ValueError
             (WRAP_STRING_FROM v
                (error_text {| Ascii16.message := m; Ascii16.offset := k |}))).
Proof.
  intros H Hk. pose proof (decode_from_first_offending s 0) as Hd.
  rewrite Hk in Hd. destruct Hd as [m Hd]. exists m.
  unfold translate_from_ascii16, translate_to_from_ascii16.
  cbn [PyArg_ParseTuple_O]. rewrite (WRAP_STRING_TO_CHECK v o H), H.
  unfold luxem_from_ascii16, Ascii16.decode. now rewrite Hd.
Qed.

(** Under Python 2, on an input without offending character,
    [from_ascii16] returns the decoded bytes. *)
Lemma from_ascii16_python2_accepts
  (error_text : Ascii16.TranscoderError -> luxem_string_t) (s : bytes) :
  Ascii16.first_offending 0 s = None ->
  exists out,
    Ascii16.decode s = inl out /\
    translate_from_ascii16 Python2 error_text [PyBytes s] = Return (PyBytes out).
Proof.
  intro Hk. pose proof (decode_from_first_offending s 0) as Hd.
  rewrite Hk in Hd. destruct Hd as [out Hd]. exists out. split; [exact Hd|].
  unfold translate_from_ascii16, translate_to_from_ascii16.
  cbn. unfold luxem_from_ascii16, Ascii16.decode. now rewrite Hd.
Qed.

(** C5 (the defect): under Python 3 the well-formed input ["ff"] decodes to
    the byte 0xff, which [PyUnicode_FromStringAndSize] refuses: the call
    raises UnicodeDecodeError instead of returning. *)
Theorem from_ascii16_python3_undecodable
  (error_text : Ascii16.TranscoderError -> luxem_string_t) :
  Ascii16.first_offending 0 (bytes_of_string "ff") = None /\
  translate_from_ascii16 Python3 error_text [PyUnicode [102; 102]%N] =
  Raise {| exc_type := PyExc_UnicodeDecodeError; exc_value := None |}.
Proof. split; reflexivity. Qed.

(** ** The Writer *)

Lemma buffer_writes_app (l l' : list action) :
  buffer_writes (l ++ l') = buffer_writes l ++ buffer_writes l'.
Proof.
  induction l as [|a l IH]; [reflexivity|].
  destruct a; cbn [app buffer_writes]; rewrite IH; try reflexivity.
  now rewrite app_assoc.
Qed.

Section WriterFacts.

Variable v : python.
Variable clean : bool.
Variable World : Type.
Variable python_call :
  PyObject -> list PyObject -> World -> (PyObject + PyErr) * World.
Variable stdio_stream : Z -> option FILE.
Variable W : Type.
Variable g : WriteGrammar W.

(** The error branch returns NULL and leaves the Writer and the trace as
    they are. *)
Lemma raise_write_error_returns (self self' : Writer.t W) (h h' : host World)
  (r : option PyObject) :
  raise_write_error v self h = Some (r, self', h') ->
  r = None /\ self' = self /\ trace h' = trace h.
Proof.
  unfold raise_write_error.
  destruct (negb _).
  - destruct (0 <? _); [|discriminate].
    destruct (error_bytes _); [|discriminate].
    intro H. injection H as <- <- <-. auto.
  - destruct (_ =? 0); [|discriminate].
    intro H. injection H as <- <- <-. auto.
Qed.

(** With the buffer bound, emission cannot fail: the runs are appended and
    recorded. *)
Lemma rawwrite_emit_buffer (U : Type)
  (cb : luxem_rawwrite_context_t W -> U -> luxem_string_t -> host World ->
        write_result World W)
  (runs : list bytes) :
  forall (c : luxem_rawwrite_context_t W) (u : U) (h : host World)
    (since new : list action),
    trace h = since ++ new ->
    out c = BufferOut (buffer_writes new) ->
    exists c' h' new',
      rawwrite_emit cb runs c u h = Some (true, c', h') /\
      trace h' = since ++ new' /\
      out c' = BufferOut (buffer_writes new').
Proof.
  induction runs as [|run runs IH]; intros c u h since new Ht Ho.
  - exists c, h, new. auto.
  - cbn [rawwrite_emit]. rewrite Ho.
    apply IH with (new := new ++ [BufferWrite run]).
    + cbn [record trace]. rewrite Ht. now rewrite app_assoc.
    + cbn [rawwrite_set_out out]. rewrite buffer_writes_app.
      cbn [buffer_writes]. now rewrite app_nil_r.
Qed.

Lemma rawwrite_event_buffer (U : Type)
  (cb : luxem_rawwrite_context_t W -> U -> luxem_string_t -> host World ->
        write_result World W)
  (ev : Event) (c : luxem_rawwrite_context_t W) (u : U) (h : host World)
  (since new : list action) :
  trace h = since ++ new ->
  out c = BufferOut (buffer_writes new) ->
  exists ok c' h' new',
    rawwrite_event g cb ev c u h = Some (ok, c', h') /\
    trace h' = since ++ new' /\
    out c' = BufferOut (buffer_writes new').
Proof.
  intros Ht Ho. unfold rawwrite_event.
  destruct (write_step g (pretty c) (wstate c) ev) as [[runs w']|m].
  - destruct (@rawwrite_emit_buffer U cb runs c u h since new Ht Ho)
      as (c' & h' & new' & -> & Ht' & Ho').
    exists true, (rawwrite_set_state w' c'), h', new'. auto.
  - exists false, (rawwrite_set_error (engine_error m) c), h, new. auto.
Qed.

Lemma PyErr_SetString_ascii (t : PyExc) (text : bytes) :
  forallb is_ascii text = true ->
  PyErr_SetString v t text =
  {| exc_type := t; exc_value := Some (ascii_string v text) |}.
Proof.
  intro H. unfold PyErr_SetString. now rewrite WRAP_STRING_FROM_ascii.
Qed.

Local Abbreviation methods := (Writer_methods v clean python_call g).

Ltac method_cases m :=
  destruct m as [| | | |args|args|args|];
  cbn [Writer_methods];
  unfold Writer_object_begin, Writer_object_end, Writer_array_begin,
    Writer_array_end, Writer_key, Writer_type, Writer_primitive,
    luxem_rawwrite_object_begin, luxem_rawwrite_object_end,
    luxem_rawwrite_array_begin, luxem_rawwrite_array_end,
    luxem_rawwrite_key, luxem_rawwrite_type, luxem_rawwrite_primitive,
    translate_void_method, translate_string_method.

(** No method touches [target]. *)
Lemma Writer_methods_target (m : Writer_method) (self self' : Writer.t W)
  (h h' : host World) (r : option PyObject) :
  methods m self h = Some (r, self', h') ->
  Writer.target self' = Writer.target self.
Proof.
  assert (void : forall res : write_result World W,
    match res with
    | None => None
    | Some (false, c, h1) => raise_write_error v (Writer.set_context c self) h1
    | Some (true, c, h1) =>
        Some (Some (PyInstance
                      (Writer.address (Writer.Py_INCREF (Writer.set_context c self)))),
              Writer.Py_INCREF (Writer.set_context c self), h1)
    end = Some (r, self', h') ->
    Writer.target self' = Writer.target self).
  { intros [[[[|] c] h1]|]; [| |discriminate].
    - intro H. injection H as <- <- <-. reflexivity.
    - intro H. apply raise_write_error_returns in H.
      destruct H as (_ & -> & _). reflexivity. }
  method_cases m; try apply void.
  1-3: destruct (PyArg_ParseTuple_O v args) as [argument|e];
    [destruct (WRAP_STRING_CHECK v argument);
     [destruct (WRAP_STRING_TO v argument); [apply void|discriminate]|]|];
    intro H; injection H as <- <- <-; reflexivity.
  unfold Writer_dump. destruct (Writer.target self) eqn:E.
  { intro H. injection H as <- <- <-. exact E. }
  destruct (luxem_rawwrite_buffer_render g (Writer.context self)).
  - intro H. injection H as <- <- <-. exact E.
  - destruct (0 <? _); [|discriminate].
    destruct (error_bytes _); [|discriminate].
    intro H. injection H as <- <- <-. exact E.
Qed.

(** Every method keeps a buffering Writer buffering. *)
Lemma Writer_methods_buffering (since : list action) (m : Writer_method)
  (self self' : Writer.t W) (h h' : host World) (r : option PyObject) :
  buffering since self h ->
  methods m self h = Some (r, self', h') ->
  buffering since self' h'.
Proof.
  intros [Htarget (new & Ht & Ho)].
  assert (event : forall ev,
    match rawwrite_event g
            (translate_rawwrite_write (W:=W) v clean python_call) ev
            (Writer.context self) self h with
    | None => None
    | Some (false, c, h1) => raise_write_error v (Writer.set_context c self) h1
    | Some (true, c, h1) =>
        Some (Some (PyInstance
                      (Writer.address (Writer.Py_INCREF (Writer.set_context c self)))),
              Writer.Py_INCREF (Writer.set_context c self), h1)
    end = Some (r, self', h') ->
    buffering since self' h').
  { intro ev.
    destruct (@rawwrite_event_buffer (Writer.t W)
                (translate_rawwrite_write (W:=W) v clean python_call) ev
                (Writer.context self) self h since new Ht Ho)
      as (ok & c' & h1 & new' & -> & Ht' & Ho').
    destruct ok.
    - intro H. injection H as <- <- <-. split; [exact Htarget|].
      exists new'. auto.
    - intro H. apply raise_write_error_returns in H.
      destruct H as (_ & -> & Hh). split; [exact Htarget|].
      exists new'. rewrite Hh. auto. }
  assert (same : buffering since self h) by (split; [|exists new]; auto).
  method_cases m; try apply event.
  1-3: destruct (PyArg_ParseTuple_O v args) as [argument|e];
    [destruct (WRAP_STRING_CHECK v argument);
     [destruct (WRAP_STRING_TO v argument); [apply event|discriminate]|]|];
    intro H; injection H as <- <- <-; exact same.
  unfold Writer_dump. rewrite Htarget.
  unfold luxem_rawwrite_buffer_render. rewrite Ho.
  intro H. injection H as <- <- <-. exact same.
Qed.

Lemma Writer_calls_target (ms : list Writer_method) :
  forall (self self' : Writer.t W) (h h' : host World),
    Writer_calls v clean python_call g ms self h = Some (self', h') ->
    Writer.target self' = Writer.target self.
Proof.
  induction ms as [|m ms IH]; intros self self' h h' H; cbn [Writer_calls] in H.
  - now injection H as <- <-.
  - destruct (Writer_methods v clean python_call g m self h)
      as [[[r self1] h1]|] eqn:E; [|discriminate].
    rewrite (IH _ _ _ _ H). exact (Writer_methods_target _ _ _ E).
Qed.

Lemma Writer_calls_buffering (since : list action) (ms : list Writer_method) :
  forall (self self' : Writer.t W) (h h' : host World),
    buffering since self h ->
    Writer_calls v clean python_call g ms self h = Some (self', h') ->
    buffering since self' h'.
Proof.
  induction ms as [|m ms IH]; intros self self' h h' Hb H;
    cbn [Writer_calls] in H.
  - now injection H as <- <-.
  - destruct (Writer_methods v clean python_call g m self h)
      as [[[r self1] h1]|] eqn:E; [|discriminate].
    exact (IH _ _ _ _ (Writer_methods_buffering _ Hb E) H).
Qed.

(** What [Writer_init] leaves on a fresh instance when it succeeds. *)
Lemma Writer_init_bound (address : nat) (target : option PyObject)
  (pretty use_spaces : bool) (indent_multiple : Z)
  (h h' : host World) (self : Writer.t W) :
  Writer_init v python_call stdio_stream (Writer_new g address) target pretty
    use_spaces indent_multiple h = (0%Z, self, h') ->
  Writer.target self = target /\
  (target = None -> buffering (trace h') self h').
Proof.
  unfold Writer_init. destruct target as [o|].
  - cbn [Writer.set_target Writer.target Writer_new].
    destruct (WRAP_FILE_CHECK v o).
    + destruct (WRAP_FILE_TO v python_call stdio_stream o h) as [[f|] h1];
        [|discriminate].
      destruct pretty; intro H; injection H as <- <-;
        (split; [reflexivity|discriminate]).
    + destruct pretty; intro H; injection H as <- <-;
        (split; [reflexivity|discriminate]).
  - cbn [Writer.target Writer_new].
    destruct pretty; intro H; injection H as <- <-;
      (split; [reflexivity|]); intros _;
      (split; [reflexivity|]); exists []; rewrite app_nil_r; auto.
Qed.

(** C6: on a Writer constructed without target, after any calls, [dump]
    returns as [bytes] all that was written to the buffer since the
    construction; on one constructed with a target -- a stream or a
    callable -- it raises a TypeError.  Either way the Writer is left as
    it was. *)
Theorem dump_succeeds_exactly_on_buffer (address : nat)
  (target : option PyObject) (pretty use_spaces : bool) (indent_multiple : Z)
  (ms : list Writer_method) (h0 h1 h : host World) (self0 self : Writer.t W) :
  Writer_init v python_call stdio_stream (Writer_new g address) target pretty
    use_spaces indent_multiple h0 = (0%Z, self0, h1) ->
  Writer_calls v clean python_call g ms self0 h1 = Some (self, h) ->
  match target with
  | None =>
      exists new,
        trace h = trace h1 ++ new /\
        Writer_dump v g self h =
        Some (Some (PyBytes (buffer_writes new)), self, h)
  | Some _ =>
      Writer_dump v g self h =
      Some (None, self,
            set_curexc
              {| exc_type := PyExc_TypeError;
                 exc_value :=
                   Some (ascii_string v
                           (bytes_of_string
                              "luxem.RawWriter.dump can only be used if not using a custom serialize callback for serializing to file.")) |}
              h)
  end.
Proof.
  intros Hinit Hcalls.
  destruct (Writer_init_bound _ _ _ _ _ _ Hinit) as [Ht Hb].
  pose proof (Writer_calls_target _ _ _ Hcalls) as Hsame.
  rewrite Ht in Hsame. destruct target as [o|].
  - unfold Writer_dump. rewrite Hsame.
    now rewrite PyErr_SetString_ascii by reflexivity.
  - destruct (@Writer_calls_buffering (trace h1) ms self0 self h1 h
                (Hb eq_refl) Hcalls)
      as [_ (new & Htr & Ho)].
    exists new. split; [exact Htr|].
    unfold Writer_dump, luxem_rawwrite_buffer_render.
    now rewrite Hsame, Ho.
Qed.

(** C9: a call of [object_begin], [object_end], [array_begin],
    [array_end], [key], [type] or [primitive] that succeeds returns the
    Writer it was called on, with one more reference to it. *)
Theorem Writer_methods_return_self (m : Writer_method)
  (self self' : Writer.t W) (h h' : host World) (r : PyObject) :
  m <> method_dump ->
  methods m self h = Some (Some r, self', h') ->
  r = PyInstance (Writer.address self) /\
  Writer.address self' = Writer.address self /\
  Writer.ob_refcnt self' = S (Writer.ob_refcnt self).
Proof.
  intro Hm.
  assert (void : forall res : write_result World W,
    match res with
    | None => None
    | Some (false, c, h1) => raise_write_error v (Writer.set_context c self) h1
    | Some (true, c, h1) =>
        Some (Some (PyInstance
                      (Writer.address (Writer.Py_INCREF (Writer.set_context c self)))),
              Writer.Py_INCREF (Writer.set_context c self), h1)
    end = Some (Some r, self', h') ->
    r = PyInstance (Writer.address self) /\
    Writer.address self' = Writer.address self /\
    Writer.ob_refcnt self' = S (Writer.ob_refcnt self)).
  { intros [[[[|] c] h1]|]; [| |discriminate].
    - intro H. injection H as <- <- <-. auto.
    - intro H. apply raise_write_error_returns in H.
      destruct H as (H & _). discriminate H. }
  method_cases m; try apply void; [| | |congruence].
  all: destruct (PyArg_ParseTuple_O v args) as [argument|e];
    [destruct (WRAP_STRING_CHECK v argument);
     [destruct (WRAP_STRING_TO v argument); [apply void|discriminate]|]|];
    discriminate.
Qed.

(** C10: [key], [type] and [primitive] called with one argument that is not
    a string return NULL with a TypeError set; the Writer is as before,
    and so is the interpreter state but for the exception: the engine was
    not called and nothing was written. *)
Theorem Writer_string_methods_reject_non_strings (self : Writer.t W)
  (argument : PyObject) (h : host World) :
  WRAP_STRING_CHECK v argument = false ->
  Writer_key v clean python_call g self [argument] h =
    Some (None, self,
          set_curexc
            {| exc_type := PyExc_TypeError;
               exc_value :=
                 Some (ascii_string v
                         (bytes_of_string
                            "luxem.RawWriter.key requires a single string argument.")) |}
            h) /\
  Writer_type v clean python_call g self [argument] h =
    Some (None, self,
          set_curexc
            {| exc_type := PyExc_TypeError;
               exc_value :=
                 Some (ascii_string v
                         (bytes_of_string
                            "luxem.RawWriter.type requires a single string argument.")) |}
            h) /\
  Writer_primitive v clean python_call g self [argument] h =
    Some (None, self,
          set_curexc
            {| exc_type := PyExc_TypeError;
               exc_value :=
                 Some (ascii_string v
                         (bytes_of_string
                            "luxem.RawWriter.primitive requires a single string argument.")) |}
            h).
Proof.
  intro H.
  unfold Writer_key, Writer_type, Writer_primitive, translate_string_method.
  cbn [PyArg_ParseTuple_O]. rewrite H.
  now rewrite !PyErr_SetString_ascii by reflexivity.
Qed.

End WriterFacts.

(** ** The Reader *)

Lemma quiet_app (l l' : list action) : quiet l -> quiet l' -> quiet (l ++ l').
Proof.
  unfold quiet. intros H H'. rewrite forallb_app, H, H'. reflexivity.
Qed.

(** In a trace that ends with the only failed call, a failed call is the
    last entry. *)
Lemma failed_call_is_last (pre before after : list action) (x y : action) :
  quiet pre -> failed_call y = true ->
  pre ++ [x] = before ++ y :: after ->
  after = [] /\ x = y.
Proof.
  revert before. induction pre as [|a pre IH]; intros before Hq Hy H.
  - destruct before as [|b before]; cbn [app] in H.
    + injection H as -> <-. auto.
    + injection H as _ H. destruct before; discriminate H.
  - destruct before as [|b before]; cbn [app] in H.
    + injection H as -> _. unfold quiet in Hq. cbn [forallb] in Hq.
      rewrite Hy in Hq. discriminate Hq.
    + injection H as _ H. apply (IH before); auto.
      unfold quiet in *. cbn [forallb] in Hq.
      apply andb_prop in Hq. tauto.
Qed.

Lemma quiet_no_failed_call (l before after : list action) (y : action) :
  quiet l -> failed_call y = true -> l <> before ++ y :: after.
Proof.
  intros Hq Hy ->. unfold quiet in Hq. rewrite forallb_app in Hq.
  cbn [forallb] in Hq. rewrite Hy in Hq.
  destruct (forallb _ before); discriminate Hq.
Qed.

Section ReaderFacts.

Variable v : python.
Variable World : Type.
Variable python_call :
  PyObject -> list PyObject -> World -> (PyObject + PyErr) * World.
Variable stdio_stream : Z -> option FILE.
Variable physical_reads : FILE -> list bytes.
Variable g : Grammar.

Local Abbreviation callbacks := (Reader_callbacks v python_call).

(** One more quiet stretch before a run of the engine. *)
Lemma engine_post_after (e0 : luxem_error_t) (h h1 h2 : host World)
  (new : list action) (ok : bool) (e2 : luxem_error_t) :
  trace h1 = trace h ++ new -> quiet new -> curexc h1 = curexc h ->
  engine_post e0 h1 ok e2 h2 -> engine_post e0 h ok e2 h2.
Proof.
  intros Ht Hq Hc H. destruct H as [h2 new2 Ht2 Hq2 Hc2|h2 new2 m Ht2 Hq2 Hc2
                                   |h2 pre f args e Ht2 Hq2 Hc2].
  - apply post_success with (new := new ++ new2).
    + now rewrite Ht2, Ht, app_assoc.
    + now apply quiet_app.
    + congruence.
  - apply post_violation with (new := new ++ new2).
    + now rewrite Ht2, Ht, app_assoc.
    + now apply quiet_app.
    + congruence.
  - apply post_callback_failure
      with (pre := new ++ pre) (callee := f) (arguments := args) (e := e).
    + now rewrite Ht2, Ht, !app_assoc.
    + now apply quiet_app.
    + exact Hc2.
Qed.

Lemma engine_post_trans (e0 e1 e2 : luxem_error_t) (h h1 h2 : host World)
  (ok : bool) :
  engine_post e0 h true e1 h1 -> engine_post e1 h1 ok e2 h2 ->
  engine_post e0 h ok e2 h2.
Proof.
  intros H1 H2. inversion H1; subst.
  eapply engine_post_after; eauto.
Qed.

(** A call into Python: what it leaves. *)
Lemma PyEval_CallObject_post (callable : PyObject) (arguments : list PyObject)
  (h h' : host World) (r : option PyObject) :
  PyEval_CallObject python_call callable arguments h = (r, h') ->
  tstate_current h' = tstate_current h /\
  match r with
  | Some _ =>
      trace h' = trace h ++ [Called callable arguments None] /\
      curexc h' = curexc h
  | None =>
      exists e,
        trace h' = trace h ++ [Called callable arguments (Some e)] /\
        curexc h' = Some e
  end.
Proof.
  unfold PyEval_CallObject.
  destruct (python_call callable arguments (world h)) as [[o|e] w];
    intro H; injection H as <- <-; cbn; eauto.
Qed.

(** What the search for the stream of a file object leaves: at most one
    call, of the [fileno] method under Python 3; when the stream is found
    the call has returned and no exception is set; when it is not, an
    exception is set under Python 3 and nothing has changed under
    Python 2. *)
Lemma descriptor_of_long_post (v0 : python) (n : Z) (h h' : host World)
  (r : option Z) :
  descriptor_of_long v0 n h = (r, h') ->
  tstate_current h' = tstate_current h /\ trace h' = trace h /\
  match r with
  | Some _ => h' = h
  | None => exists e, curexc h' = Some e
  end.
Proof.
  unfold descriptor_of_long. destruct (negb (C_int n)).
  { intro H. injection H as <- <-. cbn. eauto. }
  destruct ((n =? -1)%Z && _) eqn:E.
  { intro H. injection H as <- <-. apply andb_prop in E.
    destruct E as [_ E]. destruct (curexc h); [eauto|discriminate]. }
  destruct (n <? 0)%Z; intro H; injection H as <- <-; cbn; eauto.
Qed.

Lemma PyObject_AsFileDescriptor_post (v0 : python) (o : PyObject)
  (h h' : host World)
  (r : option Z) :
  PyObject_AsFileDescriptor v0 python_call o h = (r, h') ->
  tstate_current h' = tstate_current h /\
  exists new,
    trace h' = trace h ++ new /\
    (new = [] \/
     exists failure, new = [Called (PyBoundMethod o "fileno") [] failure]) /\
    match r with
    | Some _ => quiet new /\ curexc h' = curexc h
    | None => exists e, curexc h' = Some e
    end.
Proof.
  assert (long : forall n h0,
            descriptor_of_long v0 n h0 = (r, h') ->
            tstate_current h' = tstate_current h0 /\
            trace h' = trace h0 /\
            match r with
            | Some _ => curexc h' = curexc h0
            | None => exists e, curexc h' = Some e
            end).
  { intros n h0 H. apply descriptor_of_long_post in H.
    destruct H as (Hs & Ht & H). repeat split; auto.
    destruct r; [now subst|exact H]. }
  assert (other : forall e (h0 : host World),
            trace h0 = trace h -> tstate_current h0 = tstate_current h ->
            (None, set_curexc e h0) = (r, h') ->
            tstate_current h' = tstate_current h /\
            exists new,
              trace h' = trace h ++ new /\
              (new = [] \/
               exists failure,
                 new = [Called (PyBoundMethod o "fileno") [] failure]) /\
              match r with
              | Some _ => quiet new /\ curexc h' = curexc h
              | None => exists e, curexc h' = Some e
              end).
  { intros e h0 Ht Hs H. injection H as <- <-. split; [exact Hs|].
    exists []. rewrite app_nil_r. cbn. eauto. }
  destruct o; cbn [PyObject_AsFileDescriptor];
    try (apply other; reflexivity).
  - intro H. apply long in H. destruct H as (Hs & Ht & H).
    split; [exact Hs|]. exists []. rewrite app_nil_r.
    split; [exact Ht|]. split; [now left|].
    destruct r; [split; [reflexivity|exact H]|exact H].
  - destruct (PyEval_CallObject python_call
                (PyBoundMethod (PyFileLike fd) "fileno") [] h)
      as [[answer|] h1] eqn:E;
      apply PyEval_CallObject_post in E; destruct E as [Hs1 E].
    + destruct E as [Ht1 Hc1].
      assert (called : forall r0 : option Z,
                (match r0 with
                 | Some _ => curexc h' = curexc h1
                 | None => exists e, curexc h' = Some e
                 end) ->
                match r0 with
                | Some _ =>
                    quiet [Called (PyBoundMethod (PyFileLike fd) "fileno") []
                             None] /\ curexc h' = curexc h
                | None => exists e, curexc h' = Some e
                end).
      { intros [z|] H; [split; [reflexivity|congruence]|exact H]. }
      destruct answer;
        try (intro H; injection H as <- <-; split; [exact Hs1|];
             eexists; split; [exact Ht1|]; split; [eauto|]; cbn; eauto).
      intro H. apply long in H. destruct H as (Hs & Ht & H).
      split; [congruence|]. eexists. split; [rewrite Ht; exact Ht1|].
      split; [eauto|]. now apply called.
    + destruct E as (e & Ht1 & Hc1). intro H. injection H as <- <-.
      split; [exact Hs1|]. eexists. split; [exact Ht1|]. split; eauto.
Qed.

Lemma WRAP_FILE_TO_post (o : PyObject) (h h' : host World)
  (r : option FILE) :
  WRAP_FILE_TO v python_call stdio_stream o h = (r, h') ->
  tstate_current h' = tstate_current h /\
  exists new,
    trace h' = trace h ++ new /\
    (new = [] \/
     v = Python3 /\
     exists failure, new = [Called (PyBoundMethod o "fileno") [] failure]) /\
    match r with
    | Some _ => quiet new /\ curexc h' = curexc h
    | None =>
        match v with
        | Python3 => exists e, curexc h' = Some e
        | Python2 => h' = h
        end
    end.
Proof.
  unfold WRAP_FILE_TO. destruct v.
  - assert (same : forall r0 : option FILE,
              (r0, h) = (r, h') ->
              tstate_current h' = tstate_current h /\
              exists new,
                trace h' = trace h ++ new /\
                (new = [] \/
                 Python2 = Python3 /\
                 exists failure,
                   new = [Called (PyBoundMethod o "fileno") [] failure]) /\
                match r with
                | Some _ => quiet new /\ curexc h' = curexc h
                | None => h' = h
                end).
    { intros r0 H. injection H as <- <-. split; [reflexivity|].
      exists []. rewrite app_nil_r. split; [reflexivity|].
      split; [now left|]. destruct r0; [split|]; reflexivity. }
    destruct o; apply same.
  - destruct (PyObject_AsFileDescriptor Python3 python_call o h)
      as [[fd|] h1] eqn:E; apply PyObject_AsFileDescriptor_post in E;
      destruct E as (Hs & new & Ht & Hn & E).
    + destruct (stdio_stream fd) as [f|]; intro H; injection H as <- <-.
      * split; [exact Hs|]. exists new. split; [exact Ht|].
        split; [|exact E]. destruct Hn as [Hn|Hn]; auto.
      * split; [exact Hs|]. exists new. split; [exact Ht|].
        split; [destruct Hn as [Hn|Hn]; auto|]. cbn. eauto.
    + intro H. injection H as <- <-. split; [exact Hs|]. exists new.
      split; [exact Ht|]. split; [destruct Hn as [Hn|Hn]; auto|exact E].
Qed.

(** What one event leaves, whatever its kind. *)
Lemma rawread_dispatch_post (ev : Event) (c c' : luxem_rawread_context_t)
  (u : Reader.t) (h h' : host World) (ok : bool) :
  rawread_dispatch callbacks ev c u h = Some (ok, c', h') ->
  engine_post (error c) h ok (error c') h' /\ calls_post h h'.
Proof.
  unfold calls_post.
  assert (call : forall callable arguments,
    match PyEval_CallObject python_call callable arguments h with
    | (None, h1) =>
        Some (false,
              rawread_set_error
                {| pointer := exception_marker; length := 0 |} c, h1)
    | (Some _, h1) => Some (true, c, h1)
    end = Some (ok, c', h') ->
    engine_post (error c) h ok (error c') h' /\
    tstate_current h' = tstate_current h /\
    exists new, trace h' = trace h ++ new /\ forallb is_call new = true).
  { intros callable arguments.
    destruct (PyEval_CallObject python_call callable arguments h)
      as [[o|] h1] eqn:E;
      apply PyEval_CallObject_post in E; destruct E as [Hts E];
      intro H; injection H as <- <- <-.
    - destruct E as [Ht Hc]. repeat split; eauto.
      eapply post_success; eauto. reflexivity.
    - destruct E as (e & Ht & Hc). repeat split; eauto.
      cbn [rawread_set_error error].
      eapply post_callback_failure with (pre := []); eauto. reflexivity. }
  destruct ev; cbn [rawread_dispatch Reader_callbacks callbacks_object_begin
    callbacks_object_end callbacks_array_begin callbacks_array_end
    callbacks_key callbacks_type callbacks_primitive];
    unfold translate_rawread_object_begin, translate_rawread_object_end,
      translate_rawread_array_begin, translate_rawread_array_end,
      translate_rawread_key, translate_rawread_type,
      translate_rawread_primitive, TRANSLATE_VOID_CALLBACK,
      TRANSLATE_STRING_CALLBACK;
    try apply call;
    (destruct (WRAP_STRING_FROM v s); [apply call|discriminate]).
Qed.

Lemma engine_post_refl (e0 : luxem_error_t) (h : host World) :
  engine_post e0 h true e0 h.
Proof.
  apply post_success with (new := []); [now rewrite app_nil_r|reflexivity..].
Qed.

Lemma calls_post_refl (h : host World) : calls_post h h.
Proof. split; [reflexivity|]. exists []. now rewrite app_nil_r. Qed.

Lemma calls_post_trans (h h1 h2 : host World) :
  calls_post h h1 -> calls_post h1 h2 -> calls_post h h2.
Proof.
  intros [Hs1 (n1 & Ht1 & Hc1)] [Hs2 (n2 & Ht2 & Hc2)].
  split; [congruence|]. exists (n1 ++ n2).
  rewrite Ht2, Ht1, app_assoc, forallb_app, Hc1, Hc2. auto.
Qed.

Lemma rawread_deliver_post (evs : list Event) :
  forall (c c' : luxem_rawread_context_t) (u : Reader.t) (h h' : host World)
    (ok : bool),
    rawread_deliver callbacks evs c u h = Some (ok, c', h') ->
    engine_post (error c) h ok (error c') h' /\ calls_post h h'.
Proof.
  induction evs as [|ev evs IH]; intros c c' u h h' ok H;
    cbn [rawread_deliver] in H.
  - injection H as <- <- <-.
    split; [apply engine_post_refl | apply calls_post_refl].
  - destruct (rawread_dispatch callbacks ev c u h)
      as [[[[|] c1] h1]|] eqn:E; [| |discriminate].
    + apply rawread_dispatch_post in E. destruct E as [E1 E2].
      apply IH in H. destruct H as [H1 H2].
      split; [eapply engine_post_trans | eapply calls_post_trans]; eauto.
    + injection H as <- <- <-. now apply rawread_dispatch_post in E.
Qed.

Lemma rawread_consume_post (data : bytes) :
  forall (c c' : luxem_rawread_context_t) (u : Reader.t) (h h' : host World)
    (ok : bool),
    rawread_consume g callbacks data c u h = Some (ok, c', h') ->
    engine_post (error c) h ok (error c') h' /\ calls_post h h'.
Proof.
  induction data as [|b data IH]; intros c c' u h h' ok H;
    cbn [rawread_consume] in H.
  - injection H as <- <- <-.
    split; [apply engine_post_refl | apply calls_post_refl].
  - destruct (grammar_step g (state c) b) as [[evs m']|m].
    + destruct (rawread_deliver callbacks evs c u h)
        as [[[[|] c1] h1]|] eqn:E; [| |discriminate].
      * apply rawread_deliver_post in E. destruct E as [E1 E2].
        apply IH in H. cbn [rawread_advance error] in H.
        destruct H as [H1 H2].
        split; [eapply engine_post_trans | eapply calls_post_trans]; eauto.
      * injection H as <- <- <-. now apply rawread_deliver_post in E.
    + injection H as <- <- <-. cbn [rawread_set_error error].
      split; [|apply calls_post_refl].
      apply post_violation with (new := []);
        [now rewrite app_nil_r|reflexivity..].
Qed.

Lemma rawread_finish_post (c c' : luxem_rawread_context_t) (u : Reader.t)
  (h h' : host World) (ok : bool) :
  rawread_finish g callbacks c u h = Some (ok, c', h') ->
  engine_post (error c) h ok (error c') h' /\ calls_post h h'.
Proof.
  assert (violation : forall m,
    engine_post (error c) h false (engine_error m) h /\ calls_post h h).
  { intro m. split; [|apply calls_post_refl].
    apply post_violation with (new := []);
      [now rewrite app_nil_r|reflexivity..]. }
  unfold rawread_finish. destruct (stack (state c)).
  - destruct (grammar_finish g (state c)) as [[evs m']|m].
    + destruct (rawread_deliver callbacks evs c u h)
        as [[[[|] c1] h1]|] eqn:E; [| |discriminate];
        intro H; injection H as <- <- <-;
        now apply rawread_deliver_post in E.
    + intro H. injection H as <- <- <-. apply violation.
  - intro H. injection H as <- <- <-. apply violation.
Qed.

Lemma luxem_rawread_feed_post (c c' : luxem_rawread_context_t) (u : Reader.t)
  (data : bytes) (finish ok : bool) (eaten : nat) (h h' : host World) :
  luxem_rawread_feed g callbacks c u data finish h = Some (ok, c', eaten, h') ->
  engine_post (error c) h ok (error c') h' /\ calls_post h h'.
Proof.
  unfold luxem_rawread_feed.
  destruct (rawread_consume g callbacks data c u h)
    as [[[[|] c1] h1]|] eqn:E; [| |discriminate].
  - apply rawread_consume_post in E. destruct E as [E1 E2].
    destruct finish.
    + destruct (rawread_finish g callbacks c1 u h1)
        as [[[ok' c2] h2]|] eqn:F; [|discriminate].
      intro H. injection H as <- <- _ <-.
      apply rawread_finish_post in F. destruct F as [F1 F2].
      split; [eapply engine_post_trans | eapply calls_post_trans]; eauto.
    + intro H. injection H as <- <- _ <-. auto.
  - intro H. injection H as <- <- _ <-. now apply rawread_consume_post in E.
Qed.

(** [format_context_error] lets the exception of a failed listener pass,
    and turns an engine message into a ValueError. *)
Lemma format_context_error_marker (c : luxem_rawread_context_t)
  (h : host World) :
  error c = {| pointer := exception_marker; length := 0 |} ->
  format_context_error v c h = Some h.
Proof. unfold format_context_error. now intros ->. Qed.

Lemma format_context_error_message (c : luxem_rawread_context_t)
  (h : host World) (m : Message) :
  error c = engine_error m ->
  format_context_error v c h =
  Some (set_curexc
          (PyErr_SetString v PyExc_ValueError
             (precision_s (List.length (message_text m)) (message_text m)
                ++ bytes_of_string " [offset "
                ++ decimal (position c)
                ++ bytes_of_string "]")) h).
Proof. unfold format_context_error. now intros ->. Qed.

(** The two hooks, on a Reader that is not suspended, by a thread that
    holds the lock. *)
Lemma feed_unlock_gil_post (c : luxem_rawread_context_t) (u u' : Reader.t)
  (h h' : host World) :
  feed_unlock_gil c u h = Some (u', h') ->
  trace h' = trace h ++ [SaveThread] /\ curexc h' = curexc h /\
  Reader.thread_state u = None /\
  Reader.thread_state u' = tstate_current h /\
  tstate_current h <> None.
Proof.
  unfold feed_unlock_gil, PyEval_SaveThread.
  destruct (Reader.thread_state u); [discriminate|].
  destruct (tstate_current h) as [t|] eqn:E; [|discriminate].
  intro H. injection H as <- <-. cbn. repeat split. discriminate.
Qed.

Lemma feed_lock_gil_post (c : luxem_rawread_context_t) (u u' : Reader.t)
  (h h' : host World) :
  feed_lock_gil c u h = Some (u', h') ->
  trace h' = trace h ++ [RestoreThread] /\ curexc h' = curexc h /\
  Reader.thread_state u' = None /\
  tstate_current h' = Reader.thread_state u /\
  Reader.thread_state u <> None.
Proof.
  unfold feed_lock_gil, PyEval_RestoreThread.
  destruct (Reader.thread_state u) as [t|]; [|discriminate].
  intro H. injection H as <- <-. cbn. repeat split. discriminate.
Qed.

Local Abbreviation feed_reads :=
  (rawread_feed_reads g callbacks (@feed_unlock_gil World)
     (@feed_lock_gil World)).

(** One physical read between its two hooks. *)
Lemma read_window (c : luxem_rawread_context_t) (u u1 u2 : Reader.t)
  (h h1 h3 : host World) (file : FILE) (n : nat) :
  feed_unlock_gil c u h = Some (u1, h1) ->
  feed_lock_gil c u1 (record (PhysicalRead file n) h1) = Some (u2, h3) ->
  trace h3 = trace h ++ [SaveThread; PhysicalRead file n; RestoreThread] /\
  curexc h3 = curexc h /\
  tstate_current h3 = tstate_current h /\
  Reader.thread_state u2 = None.
Proof.
  intros E1 E2.
  apply feed_unlock_gil_post in E1. destruct E1 as (Ht1 & Hc1 & _ & Hs1 & _).
  apply feed_lock_gil_post in E2. destruct E2 as (Ht2 & Hc2 & Hs2 & Hs3 & _).
  cbn [record trace curexc] in Ht2, Hc2.
  repeat split; try congruence.
  rewrite Ht2, Ht1, <- !app_assoc. reflexivity.
Qed.

Lemma rawread_feed_reads_post (file : FILE) (reads : list bytes) :
  forall (c c' : luxem_rawread_context_t) (u u' : Reader.t)
    (h h' : host World) (ok : bool),
    feed_reads file reads c u h = Some (ok, c', u', h') ->
    engine_post (error c) h ok (error c') h'.
Proof.
  induction reads as [|chunk reads IH]; intros c c' u u' h h' ok H;
    cbn [rawread_feed_reads] in H;
    destruct (feed_unlock_gil c u h) as [[u1 h1]|] eqn:E1;
    try discriminate;
    destruct (feed_lock_gil c u1 _) as [[u2 h3]|] eqn:E2;
    try discriminate;
    destruct (@read_window c u u1 u2 h h1 h3 file _ E1 E2) as (Hq & Hc & _).
  - destruct (luxem_rawread_feed g callbacks c u2 [] true h3)
      as [[[[ok' c1] eaten] h4]|] eqn:F; [|discriminate].
    injection H as <- <- <- <-.
    apply luxem_rawread_feed_post in F. destruct F as [F _].
    eapply engine_post_after; eauto. reflexivity.
  - destruct (luxem_rawread_feed g callbacks c u2 chunk false h3)
      as [[[[[|] c1] eaten] h4]|] eqn:F; [| |discriminate];
      apply luxem_rawread_feed_post in F; destruct F as [F _].
    + apply IH in H.
      eapply engine_post_after; [exact Hq|reflexivity|exact Hc|].
      eapply engine_post_trans; [exact F|exact H].
    + injection H as <- <- <- <-.
      eapply engine_post_after; eauto. reflexivity.
Qed.

Lemma failed_feed_post (e0 : luxem_error_t) (c : luxem_rawread_context_t)
  (h h1 h2 : host World) :
  engine_post e0 h false (error c) h1 ->
  format_context_error v c h1 = Some h2 ->
  feed_post h h2 None.
Proof.
  intros H F. inversion H as [|h1' new m Ht Hq Hc Hok He|
                              h1' pre callee args e Ht Hq Hc Hok He]; subst.
  - rewrite (@format_context_error_message c h1 m) in F by congruence.
    injection F as <-. left. exists new. auto.
  - rewrite format_context_error_marker in F by congruence.
    injection F as <-. right. split; [reflexivity|].
    exists pre, callee, args, e. auto.
Qed.

Lemma Reader_feed_post (self self' : Reader.t) (data : PyObject)
  (finish : bool) (h h' : host World) (ret : option PyObject) :
  Reader_feed v python_call stdio_stream physical_reads g self data finish h
  = Some (ret, self', h') ->
  feed_post h h' ret.
Proof.
  unfold Reader_feed.
  destruct (WRAP_BYTES_CHECK v data).
  - destruct (WRAP_BYTES_TO v data) as [string|]; [|discriminate].
    destruct (luxem_rawread_feed g callbacks (Reader.context self) self
                string finish h) as [[[[[|] c] eaten] h1]|] eqn:F;
      [| |discriminate];
      apply luxem_rawread_feed_post in F; destruct F as [F _].
    + intro H. injection H as <- <- <-.
      inversion F; subst. left. eauto.
    + destruct (format_context_error v c h1) as [h2|] eqn:E; [|discriminate].
      intro H. injection H as <- <- <-.
      eapply failed_feed_post; eauto.
  - destruct (WRAP_FILE_CHECK v data).
    + destruct (WRAP_FILE_TO v python_call stdio_stream data h)
        as [[file|] h0] eqn:Ew; [|discriminate].
      apply WRAP_FILE_TO_post in Ew.
      destruct Ew as (_ & new0 & Ht0 & _ & Hq0 & Hc0).
      unfold luxem_rawread_feed_file.
      destruct (feed_reads file (physical_reads file) (Reader.context self)
                  self h0) as [[[[[|] c] u1] h1]|] eqn:F;
        [| |discriminate];
        apply rawread_feed_reads_post in F;
        apply (@engine_post_after _ h h0 h1 new0 _ _ Ht0 Hq0 Hc0) in F.
      * intro H. injection H as <- <- <-.
        inversion F; subst. left. eauto.
      * destruct (format_context_error v c h1) as [h2|] eqn:E; [|discriminate].
        intro H. injection H as <- <- <-.
        eapply failed_feed_post; eauto.
    + intro H. injection H as <- <- <-. left. exists [].
      cbn. now rewrite app_nil_r.
Qed.

(** Calls into Python made while the lock is held do not disturb the
    discipline of the hooks. *)
Lemma hooks_paired_calls (calls rest : list action) :
  forallb is_call calls = true ->
  hooks_paired Held (calls ++ rest) = hooks_paired Held rest.
Proof.
  induction calls as [|a calls IH]; [reflexivity|].
  cbn [forallb]. intro H. apply andb_prop in H. destruct H as [Ha Hc].
  destruct a; try discriminate Ha. cbn [app hooks_paired]. now apply IH.
Qed.

Lemma rawread_feed_reads_paired (file : FILE) (reads : list bytes) :
  forall (c c' : luxem_rawread_context_t) (u u' : Reader.t)
    (h h' : host World) (ok : bool),
    feed_reads file reads c u h = Some (ok, c', u', h') ->
    exists new,
      trace h' = trace h ++ new /\ hooks_paired Held new = true /\
      tstate_current h' = tstate_current h /\
      Reader.thread_state u' = None.
Proof.
  induction reads as [|chunk reads IH]; intros c c' u u' h h' ok H;
    cbn [rawread_feed_reads] in H;
    destruct (feed_unlock_gil c u h) as [[u1 h1]|] eqn:E1;
    try discriminate;
    destruct (feed_lock_gil c u1 _) as [[u2 h3]|] eqn:E2;
    try discriminate;
    destruct (@read_window c u u1 u2 h h1 h3 file _ E1 E2)
      as (Hq & _ & Hs & Hu).
  - destruct (luxem_rawread_feed g callbacks c u2 [] true h3)
      as [[[[ok' c1] eaten] h4]|] eqn:F; [|discriminate].
    injection H as <- <- <- <-.
    apply luxem_rawread_feed_post in F.
    destruct F as [_ [Hs4 (calls & Ht4 & Hc4)]].
    exists ([SaveThread; PhysicalRead file (List.length (@nil byte));
             RestoreThread] ++ calls).
    repeat split; [| |congruence|exact Hu].
    + now rewrite Ht4, Hq, app_assoc.
    + cbn [app hooks_paired].
      rewrite <- (app_nil_r calls), hooks_paired_calls by exact Hc4.
      reflexivity.
  - destruct (luxem_rawread_feed g callbacks c u2 chunk false h3)
      as [[[[[|] c1] eaten] h4]|] eqn:F; [| |discriminate];
      apply luxem_rawread_feed_post in F;
      destruct F as [_ [Hs4 (calls & Ht4 & Hc4)]].
    + apply IH in H. destruct H as (new & Ht & Hp & Hs5 & Hu5).
      exists ([SaveThread; PhysicalRead file (List.length chunk);
               RestoreThread] ++ calls ++ new).
      repeat split; [| |congruence|exact Hu5].
      * now rewrite Ht, Ht4, Hq, !app_assoc.
      * cbn [app hooks_paired]. now rewrite hooks_paired_calls.
    + injection H as <- <- <- <-.
      exists ([SaveThread; PhysicalRead file (List.length chunk);
               RestoreThread] ++ calls).
      repeat split; [| |congruence|exact Hu].
      * now rewrite Ht4, Hq, app_assoc.
      * cbn [app hooks_paired].
        rewrite <- (app_nil_r calls), hooks_paired_calls by exact Hc4.
        reflexivity.
Qed.

(** Under Python 2 every payload makes a string object, so that no
    listener call can bring the process down. *)
Lemma rawread_dispatch_python2 (ev : Event) (c : luxem_rawread_context_t)
  (u : Reader.t) (h : host World) :
  v = Python2 -> rawread_dispatch callbacks ev c u h <> None.
Proof.
  intro Hv.
  assert (call : forall callable arguments,
    match PyEval_CallObject python_call callable arguments h with
    | (None, h1) =>
        Some (false,
              rawread_set_error
                {| pointer := exception_marker; length := 0 |} c, h1)
    | (Some _, h1) => Some (true, c, h1)
    end <> None).
  { intros callable arguments.
    destruct (PyEval_CallObject python_call callable arguments h)
      as [[o|] h1]; discriminate. }
  destruct ev; cbn [rawread_dispatch Reader_callbacks callbacks_object_begin
    callbacks_object_end callbacks_array_begin callbacks_array_end
    callbacks_key callbacks_type callbacks_primitive];
    unfold translate_rawread_object_begin, translate_rawread_object_end,
      translate_rawread_array_begin, translate_rawread_array_end,
      translate_rawread_key, translate_rawread_type,
      translate_rawread_primitive, TRANSLATE_VOID_CALLBACK,
      TRANSLATE_STRING_CALLBACK;
    try apply call; rewrite Hv; cbn [WRAP_STRING_FROM]; apply call.
Qed.

Lemma rawread_deliver_python2 (evs : list Event) :
  forall (c : luxem_rawread_context_t) (u : Reader.t) (h : host World),
    v = Python2 -> rawread_deliver callbacks evs c u h <> None.
Proof.
  induction evs as [|ev evs IH]; intros c u h Hv; cbn [rawread_deliver].
  - discriminate.
  - pose proof (@rawread_dispatch_python2 ev c u h Hv) as D.
    destruct (rawread_dispatch callbacks ev c u h) as [[[[|] c1] h1]|];
      [now apply IH|discriminate|contradiction].
Qed.

Lemma rawread_consume_python2 (data : bytes) :
  forall (c : luxem_rawread_context_t) (u : Reader.t) (h : host World),
    v = Python2 -> rawread_consume g callbacks data c u h <> None.
Proof.
  induction data as [|b data IH]; intros c u h Hv; cbn [rawread_consume].
  - discriminate.
  - destruct (grammar_step g (state c) b) as [[evs m']|m]; [|discriminate].
    pose proof (@rawread_deliver_python2 evs c u h Hv) as D.
    destruct (rawread_deliver callbacks evs c u h) as [[[[|] c1] h1]|];
      [now apply IH|discriminate|contradiction].
Qed.

Lemma luxem_rawread_feed_python2 (c : luxem_rawread_context_t) (u : Reader.t)
  (data : bytes) (finish : bool) (h : host World) :
  v = Python2 -> luxem_rawread_feed g callbacks c u data finish h <> None.
Proof.
  intro Hv. unfold luxem_rawread_feed.
  pose proof (@rawread_consume_python2 data c u h Hv) as C.
  destruct (rawread_consume g callbacks data c u h) as [[[[|] c1] h1]|];
    [|discriminate|contradiction].
  destruct finish; [|discriminate].
  unfold rawread_finish. destruct (stack (state c1)); [|discriminate].
  destruct (grammar_finish g (state c1)) as [[evs m']|m]; [|discriminate].
  pose proof (@rawread_deliver_python2 evs c1 u h1 Hv) as D.
  destruct (rawread_deliver callbacks evs c1 u h1) as [[[[|] c2] h2]|];
    [discriminate|discriminate|contradiction].
Qed.

Lemma rawread_feed_reads_python2 (file : FILE) (reads : list bytes) :
  forall (c : luxem_rawread_context_t) (u : Reader.t) (h : host World),
    v = Python2 ->
    Reader.thread_state u = None -> tstate_current h <> None ->
    feed_reads file reads c u h <> None.
Proof.
  induction reads as [|chunk reads IH]; intros c u h Hv Hu Hs;
    cbn [rawread_feed_reads];
    (destruct (feed_unlock_gil c u h) as [[u1 h1]|] eqn:E1;
     [|revert E1; unfold feed_unlock_gil, PyEval_SaveThread; rewrite Hu;
       destruct (tstate_current h); [discriminate|contradiction]]);
    pose proof E1 as P1; apply feed_unlock_gil_post in P1;
    destruct P1 as (_ & _ & _ & Hu1 & _);
    (destruct (feed_lock_gil c u1 _) as [[u2 h3]|] eqn:E2;
     [|revert E2; unfold feed_lock_gil; rewrite Hu1;
       destruct (tstate_current h); [discriminate|contradiction]]);
    destruct (@read_window c u u1 u2 h h1 h3 file _ E1 E2)
      as (_ & _ & Hs3 & Hu2).
  - pose proof (@luxem_rawread_feed_python2 c u2 [] true h3 Hv) as F.
    destruct (luxem_rawread_feed g callbacks c u2 [] true h3)
      as [[[[ok' c1] eaten] h4]|]; [discriminate|contradiction].
  - pose proof (@luxem_rawread_feed_python2 c u2 chunk false h3 Hv) as F.
    destruct (luxem_rawread_feed g callbacks c u2 chunk false h3)
      as [[[[[|] c1] eaten] h4]|] eqn:E; [|discriminate|contradiction].
    apply luxem_rawread_feed_post in E. destruct E as [_ [Hs4 _]].
    apply IH; auto. congruence.
Qed.

Lemma format_context_error_total (e0 : luxem_error_t)
  (c : luxem_rawread_context_t) (h h1 : host World) :
  engine_post e0 h false (error c) h1 ->
  format_context_error v c h1 <> None.
Proof.
  intro H. inversion H as [|h1' new m Ht Hq Hc Hok He|
                           h1' pre callee args e Ht Hq Hc Hok He]; subst.
  - rewrite (@format_context_error_message c h1 m) by congruence.
    discriminate.
  - rewrite format_context_error_marker by congruence. discriminate.
Qed.

(** C7: while [feed] reads from a stream, the hooks come in pairs around
    each physical read -- suspend, one read, resume -- and listeners are
    called only outside such a pair; when [feed] returns, whether with
    success or with an error, the last suspend has had its resume, the
    thread holds the lock again and the Reader keeps no thread state.
    Under Python 2, where nothing can bring the process down in a
    listener call, [feed] does return. *)
Theorem feed_stream_hooks_paired (self : Reader.t) (data : PyObject)
  (finish : bool) (file : FILE) (h : host World) (t : PyThreadState) :
  WRAP_BYTES_CHECK v data = false ->
  WRAP_FILE_CHECK v data = true ->
  fst (WRAP_FILE_TO v python_call stdio_stream data h) = Some file ->
  Reader.thread_state self = None ->
  tstate_current h = Some t ->
  (v = Python2 ->
   Reader_feed v python_call stdio_stream physical_reads g self data finish h
   <> None) /\
  (forall ret self' h',
     Reader_feed v python_call stdio_stream physical_reads g self data
       finish h = Some (ret, self', h') ->
     exists new,
       trace h' = trace h ++ new /\ hooks_paired Held new = true /\
       Reader.thread_state self' = None /\ tstate_current h' = Some t).
Proof.
  intros Hb Hf Hfile Hu Hs. unfold Reader_feed. rewrite Hb, Hf.
  destruct (WRAP_FILE_TO v python_call stdio_stream data h) as [r h0] eqn:Ew.
  cbn [fst] in Hfile. subst r. apply WRAP_FILE_TO_post in Ew.
  destruct Ew as (Hs0 & new0 & Ht0 & Hn0 & _).
  assert (Hcalls0 : forallb is_call new0 = true)
    by (destruct Hn0 as [->|(_ & failure & ->)]; reflexivity).
  unfold luxem_rawread_feed_file. split.
  - intro Hv.
    assert (Hs' : tstate_current h0 <> None)
      by (rewrite Hs0, Hs; discriminate).
    pose proof (@rawread_feed_reads_python2 file (physical_reads file)
                  (Reader.context self) self h0 Hv Hu Hs') as P.
    destruct (feed_reads file (physical_reads file) (Reader.context self)
                self h0) as [[[[[|] c] u1] h1]|] eqn:F;
      [discriminate| |contradiction].
    apply rawread_feed_reads_post in F.
    pose proof (@format_context_error_total _ c h0 h1 F) as T.
    destruct (format_context_error v c h1); [discriminate|contradiction].
  - intros ret self' h'.
    destruct (feed_reads file (physical_reads file) (Reader.context self)
                self h0) as [[[[[|] c] u1] h1]|] eqn:F; [| |discriminate].
    + intro H. injection H as <- <- <-.
      apply rawread_feed_reads_paired in F.
      destruct F as (new & Ht & Hp & Hs1 & Hu1).
      exists (new0 ++ new). rewrite hooks_paired_calls by exact Hcalls0.
      repeat split; auto; [|congruence].
      now rewrite Ht, Ht0, app_assoc.
    + pose proof F as P. apply rawread_feed_reads_post in P.
      apply rawread_feed_reads_paired in F.
      destruct F as (new & Ht & Hp & Hs1 & Hu1).
      destruct (format_context_error v c h1) as [h2|] eqn:E; [|discriminate].
      intro H. injection H as <- <- <-.
      assert (Hsame : trace h2 = trace h1 /\
                      tstate_current h2 = tstate_current h1).
      { inversion P as [|h1' n m Ht' Hq Hc Hok He|
                        h1' pre callee args e Ht' Hq Hc Hok He]; subst.
        - rewrite (@format_context_error_message c h1 m) in E by congruence.
          injection E as <-. auto.
        - rewrite format_context_error_marker in E by congruence.
          injection E as <-. auto. }
      destruct Hsame as [Ht2 Hs2].
      exists (new0 ++ new). rewrite hooks_paired_calls by exact Hcalls0.
      repeat split; auto; [|congruence].
      now rewrite Ht2, Ht, Ht0, app_assoc.
Qed.

End ReaderFacts.

(** ** When a feed returns *)

Section ReaderReturns.

Variable v : python.
Variable World : Type.
Variable python_call :
  PyObject -> list PyObject -> World -> (PyObject + PyErr) * World.
Variable stdio_stream : Z -> option FILE.
Variable physical_reads : FILE -> list bytes.
Variable g : Grammar.

Local Abbreviation callbacks := (Reader_callbacks v python_call).
Local Abbreviation feed_reads :=
  (rawread_feed_reads g callbacks (@feed_unlock_gil World)
     (@feed_lock_gil World)).

Lemma rawread_dispatch_deliverable (ev : Event) (c : luxem_rawread_context_t)
  (u : Reader.t) (h : host World) :
  deliverable v ev = true -> rawread_dispatch callbacks ev c u h <> None.
Proof.
  intro Hd.
  assert (call : forall callable arguments,
    match PyEval_CallObject python_call callable arguments h with
    | (None, h1) =>
        Some (false,
              rawread_set_error
                {| pointer := exception_marker; length := 0 |} c, h1)
    | (Some _, h1) => Some (true, c, h1)
    end <> None).
  { intros callable arguments.
    destruct (PyEval_CallObject python_call callable arguments h)
      as [[o|] h1]; discriminate. }
  destruct ev; cbn [rawread_dispatch Reader_callbacks callbacks_object_begin
    callbacks_object_end callbacks_array_begin callbacks_array_end
    callbacks_key callbacks_type callbacks_primitive];
    unfold translate_rawread_object_begin, translate_rawread_object_end,
      translate_rawread_array_begin, translate_rawread_array_end,
      translate_rawread_key, translate_rawread_type,
      translate_rawread_primitive, TRANSLATE_VOID_CALLBACK,
      TRANSLATE_STRING_CALLBACK;
    try apply call;
    cbn [deliverable] in Hd;
    (destruct (WRAP_STRING_FROM v s); [apply call|discriminate]).
Qed.

Lemma rawread_deliver_deliverable (evs : list Event) :
  forall (c : luxem_rawread_context_t) (u : Reader.t) (h : host World),
    forallb (deliverable v) evs = true ->
    rawread_deliver callbacks evs c u h <> None.
Proof.
  induction evs as [|ev evs IH]; intros c u h Hd; cbn [rawread_deliver].
  - discriminate.
  - cbn [forallb] in Hd. apply andb_prop in Hd. destruct Hd as [Hev Hevs].
    pose proof (@rawread_dispatch_deliverable ev c u h Hev) as D.
    destruct (rawread_dispatch callbacks ev c u h) as [[[[|] c1] h1]|];
      [now apply IH|discriminate|contradiction].
Qed.

(** The callbacks leave the state of the parser alone. *)
Lemma rawread_dispatch_state (ev : Event) (c c' : luxem_rawread_context_t)
  (u : Reader.t) (h h' : host World) (ok : bool) :
  rawread_dispatch callbacks ev c u h = Some (ok, c', h') ->
  state c' = state c.
Proof.
  assert (call : forall callable arguments,
    match PyEval_CallObject python_call callable arguments h with
    | (None, h1) =>
        Some (false,
              rawread_set_error
                {| pointer := exception_marker; length := 0 |} c, h1)
    | (Some _, h1) => Some (true, c, h1)
    end = Some (ok, c', h') -> state c' = state c).
  { intros callable arguments.
    destruct (PyEval_CallObject python_call callable arguments h)
      as [[o|] h1]; intro H; injection H as _ <- _; reflexivity. }
  destruct ev; cbn [rawread_dispatch Reader_callbacks callbacks_object_begin
    callbacks_object_end callbacks_array_begin callbacks_array_end
    callbacks_key callbacks_type callbacks_primitive];
    unfold translate_rawread_object_begin, translate_rawread_object_end,
      translate_rawread_array_begin, translate_rawread_array_end,
      translate_rawread_key, translate_rawread_type,
      translate_rawread_primitive, TRANSLATE_VOID_CALLBACK,
      TRANSLATE_STRING_CALLBACK;
    try apply call;
    (destruct (WRAP_STRING_FROM v s); [apply call|discriminate]).
Qed.

Lemma rawread_deliver_state (evs : list Event) :
  forall (c c' : luxem_rawread_context_t) (u : Reader.t) (h h' : host World)
    (ok : bool),
    rawread_deliver callbacks evs c u h = Some (ok, c', h') ->
    state c' = state c.
Proof.
  induction evs as [|ev evs IH]; intros c c' u h h' ok H;
    cbn [rawread_deliver] in H.
  - now injection H as _ <- _.
  - destruct (rawread_dispatch callbacks ev c u h)
      as [[[[|] c1] h1]|] eqn:E; [| |discriminate];
      apply rawread_dispatch_state in E.
    + apply IH in H. congruence.
    + injection H as _ <- _. exact E.
Qed.

(** Bytes that went through have taken the parser where the grammar
    says. *)
Lemma rawread_consume_run (data : bytes) :
  forall (c c' : luxem_rawread_context_t) (u : Reader.t) (h h' : host World),
    rawread_consume g callbacks data c u h = Some (true, c', h') ->
    exists events, grammar_run g (state c) data = Some (events, state c').
Proof.
  induction data as [|b data IH]; intros c c' u h h' H;
    cbn [rawread_consume] in H; cbn [grammar_run].
  - injection H as <- _. eauto.
  - destruct (grammar_step g (state c) b) as [[evs m']|m]; [|discriminate].
    destruct (rawread_deliver callbacks evs c u h)
      as [[[[|] c1] h1]|] eqn:E; [| |discriminate].
    + apply IH in H. cbn [rawread_advance state] in H.
      destruct H as (events & ->). eauto.
    + discriminate.
Qed.

Lemma grammar_events_run (data : bytes) :
  forall (m m' : machine) (events : list Event),
    grammar_run g m data = Some (events, m') ->
    grammar_events g m data false = events.
Proof.
  induction data as [|b data IH]; intros m m' events H;
    cbn [grammar_run] in H; cbn [grammar_events].
  - now injection H as <- _.
  - destruct (grammar_step g m b) as [[evs m1]|]; [|discriminate].
    destruct (grammar_run g m1 data) as [[evs' m2]|] eqn:R; [|discriminate].
    injection H as <- _. now rewrite (IH _ _ _ R).
Qed.

Lemma grammar_events_app (a b : bytes) (finish : bool) :
  forall m : machine,
    grammar_events g m (a ++ b) finish =
    match grammar_run g m a with
    | Some (events, m') => events ++ grammar_events g m' b finish
    | None => grammar_events g m a false
    end.
Proof.
  induction a as [|x a IH]; intro m; [reflexivity|].
  cbn [app grammar_events grammar_run].
  destruct (grammar_step g m x) as [[evs m1]|]; [|reflexivity].
  rewrite IH. destruct (grammar_run g m1 a) as [[evs' m2]|].
  - now rewrite app_assoc.
  - reflexivity.
Qed.

Lemma rawread_consume_events (data : bytes) (finish : bool) :
  forall (c : luxem_rawread_context_t) (u : Reader.t) (h : host World),
    forallb (deliverable v) (grammar_events g (state c) data finish) = true ->
    rawread_consume g callbacks data c u h <> None.
Proof.
  induction data as [|b data IH]; intros c u h Hd; cbn [rawread_consume].
  - discriminate.
  - cbn [grammar_events] in Hd.
    destruct (grammar_step g (state c) b) as [[evs m']|m]; [|discriminate].
    rewrite forallb_app in Hd. apply andb_prop in Hd.
    destruct Hd as [Hevs Hrest].
    pose proof (@rawread_deliver_deliverable evs c u h Hevs) as D.
    destruct (rawread_deliver callbacks evs c u h)
      as [[[[|] c1] h1]|]; [|discriminate|contradiction].
    apply IH. exact Hrest.
Qed.

Lemma luxem_rawread_feed_events (c : luxem_rawread_context_t) (u : Reader.t)
  (data : bytes) (finish : bool) (h : host World) :
  forallb (deliverable v) (grammar_events g (state c) data finish) = true ->
  luxem_rawread_feed g callbacks c u data finish h <> None.
Proof.
  intro Hd. unfold luxem_rawread_feed.
  pose proof (@rawread_consume_events data finish c u h Hd) as C.
  destruct (rawread_consume g callbacks data c u h)
    as [[[[|] c1] h1]|] eqn:E; [|discriminate|contradiction].
  destruct finish; [|discriminate].
  apply rawread_consume_run in E. destruct E as (events & E).
  pose proof (grammar_events_app data [] true (state c)) as A.
  rewrite app_nil_r, E in A. rewrite A, forallb_app in Hd.
  apply andb_prop in Hd. destruct Hd as [_ Hd].
  cbn [grammar_events] in Hd. unfold rawread_finish.
  destruct (stack (state c1)); [|discriminate].
  destruct (grammar_finish g (state c1)) as [[evs m']|m]; [|discriminate].
  pose proof (@rawread_deliver_deliverable evs c1 u h1 Hd) as D.
  destruct (rawread_deliver callbacks evs c1 u h1) as [[[[|] c2] h2]|];
    [discriminate|discriminate|contradiction].
Qed.

Lemma luxem_rawread_feed_run (c c' : luxem_rawread_context_t) (u : Reader.t)
  (data : bytes) (n : nat) (h h' : host World) :
  luxem_rawread_feed g callbacks c u data false h = Some (true, c', n, h') ->
  exists events, grammar_run g (state c) data = Some (events, state c').
Proof.
  unfold luxem_rawread_feed.
  destruct (rawread_consume g callbacks data c u h)
    as [[[[|] c1] h1]|] eqn:E; [| |discriminate].
  - intro H. injection H as <- _ _. now apply rawread_consume_run in E.
  - discriminate.
Qed.

Lemma rawread_feed_reads_events (file : FILE) (reads : list bytes) :
  forall (c : luxem_rawread_context_t) (u : Reader.t) (h : host World),
    Reader.thread_state u = None -> tstate_current h <> None ->
    forallb (deliverable v)
      (grammar_events g (state c) (List.concat reads) true) = true ->
    feed_reads file reads c u h <> None.
Proof.
  induction reads as [|chunk reads IH]; intros c u h Hu Hs Hd;
    cbn [rawread_feed_reads];
    (destruct (feed_unlock_gil c u h) as [[u1 h1]|] eqn:E1;
     [|revert E1; unfold feed_unlock_gil, PyEval_SaveThread; rewrite Hu;
       destruct (tstate_current h); [discriminate|contradiction]]);
    pose proof E1 as P1; apply feed_unlock_gil_post in P1;
    destruct P1 as (_ & _ & _ & Hu1 & _);
    (destruct (feed_lock_gil c u1 _) as [[u2 h3]|] eqn:E2;
     [|revert E2; unfold feed_lock_gil; rewrite Hu1;
       destruct (tstate_current h); [discriminate|contradiction]]);
    destruct (@read_window World c u u1 u2 h h1 h3 file _ E1 E2)
      as (_ & _ & Hs3 & Hu2).
  - pose proof (@luxem_rawread_feed_events c u2 [] true h3 Hd) as F.
    destruct (luxem_rawread_feed g callbacks c u2 [] true h3)
      as [[[[ok' c1] eaten] h4]|]; [discriminate|contradiction].
  - cbn [List.concat] in Hd. rewrite grammar_events_app in Hd.
    assert (Hchunk : forallb (deliverable v)
                       (grammar_events g (state c) chunk false) = true).
    { destruct (grammar_run g (state c) chunk) as [[events m']|] eqn:R;
        [|exact Hd].
      rewrite (@grammar_events_run chunk _ _ _ R). rewrite forallb_app in Hd.
      apply andb_prop in Hd. now destruct Hd. }
    pose proof (@luxem_rawread_feed_events c u2 chunk false h3 Hchunk) as F.
    destruct (luxem_rawread_feed g callbacks c u2 chunk false h3)
      as [[[[[|] c1] eaten] h4]|] eqn:E; [|discriminate|contradiction].
    pose proof E as R. apply luxem_rawread_feed_run in R.
    destruct R as (events & R). rewrite R, forallb_app in Hd.
    apply andb_prop in Hd. destruct Hd as [_ Hd].
    apply luxem_rawread_feed_post in E. destruct E as [_ [Hs4 _]].
    apply IH; auto. congruence.
Qed.

(** C2: a feed whose payloads all make string objects returns, whatever
    its listeners do; and when a call into a listener fails during a
    feed, that call is the last thing the feed does, [feed] returns NULL,
    and the exception indicator holds the very exception the listener
    raised -- not a ValueError of the binding's making.  The payloads are
    those of the events the grammar gives on the bytes fed: the bytes of a
    [bytes] object, or all that the stream of a file object delivers; a
    feed from a stream is made by a thread that holds the lock, on a
    Reader that is not suspended. *)
Theorem listener_failure_passes_through (self : Reader.t) (data : PyObject)
  (finish : bool) (h : host World) :
  (forall (input : bytes) (last : bool),
     fed v python_call stdio_stream physical_reads data finish h
     = Some (input, last) ->
     forallb (deliverable v)
       (grammar_events g (state (Reader.context self)) input last) = true ->
     (WRAP_BYTES_CHECK v data = false ->
      Reader.thread_state self = None /\ tstate_current h <> None) ->
     exists ret self' h',
       Reader_feed v python_call stdio_stream physical_reads g self data
         finish h = Some (ret, self', h')) /\
  (forall (ret : option PyObject) (self' : Reader.t) (h' : host World),
     Reader_feed v python_call stdio_stream physical_reads g self data
       finish h = Some (ret, self', h') ->
     forall (before after : list action) (callee : PyObject)
       (arguments : list PyObject) (e : PyErr),
       trace h'
       = trace h ++ before ++ Called callee arguments (Some e) :: after ->
       after = [] /\ ret = None /\ curexc h' = Some e).
Proof.
  split.
  - intros input last Hfed Hd Hstream.
    revert Hfed. unfold fed, feed_stream, stream_of, Reader_feed.
    destruct (WRAP_BYTES_CHECK v data).
    + destruct (WRAP_BYTES_TO v data) as [string|]; [|discriminate].
      cbn [option_map]. intro H. injection H as <- <-.
      pose proof (@luxem_rawread_feed_events (Reader.context self) self
                    string finish h Hd) as F.
      destruct (luxem_rawread_feed g callbacks (Reader.context self) self
                  string finish h) as [[[[[|] c] eaten] h1]|] eqn:E;
        [| |contradiction].
      * eauto.
      * apply luxem_rawread_feed_post in E. destruct E as [E _].
        pose proof (@format_context_error_total v World _ c h h1 E) as T.
        destruct (format_context_error v c h1) as [h2|];
          [eauto|contradiction].
    + destruct (Hstream eq_refl) as [Hu Hs].
      destruct (WRAP_FILE_CHECK v data); [|discriminate].
      destruct (WRAP_FILE_TO v python_call stdio_stream data h)
        as [[file|] h0] eqn:Ew; [|discriminate].
      cbn [fst option_map]. intro H. injection H as <- <-.
      apply WRAP_FILE_TO_post in Ew. destruct Ew as (Hs0 & _).
      unfold luxem_rawread_feed_file.
      assert (Hs' : tstate_current h0 <> None) by congruence.
      pose proof (@rawread_feed_reads_events file (physical_reads file)
                    (Reader.context self) self h0 Hu Hs' Hd) as P.
      destruct (feed_reads file (physical_reads file) (Reader.context self)
                  self h0) as [[[[[|] c] u1] h1]|] eqn:F;
        [| |contradiction].
      * eauto.
      * apply rawread_feed_reads_post in F.
        pose proof (@format_context_error_total v World _ c h0 h1 F) as T.
        destruct (format_context_error v c h1) as [h2|];
          [eauto|contradiction].
  - intros ret self' h' H before after callee arguments e Ht.
    apply Reader_feed_post in H.
    destruct H as [(new & Hn & Hq)|(Hr & pre & f & args & e' & Hn & Hq & Hc)];
      rewrite Hn in Ht; apply app_inv_head in Ht.
    + now apply quiet_no_failed_call in Ht.
    + destruct (@failed_call_is_last pre before after
                  (Called f args (Some e')) (Called callee arguments (Some e))
                  Hq eq_refl Ht) as [Ha Hx].
      injection Hx as _ _ <-. auto.
Qed.

End ReaderReturns.

(** ** Feeding in chunks *)





Section ReaderChunks.

Variable v : python.
Variable World : Type.
Variable python_call :
  PyObject -> list PyObject -> World -> (PyObject + PyErr) * World.
Variable stdio_stream : Z -> option FILE.
Variable physical_reads : FILE -> list bytes.
Variable g : Grammar.

Local Abbreviation callbacks := (Reader_callbacks v python_call).
Local Abbreviation feed :=
  (Reader_feed v python_call stdio_stream physical_reads g).

(** The callbacks read the listeners of [user_data], not its context. *)
Lemma rawread_dispatch_user_data (ev : Event)
  (c c0 : luxem_rawread_context_t) (u : Reader.t) (h : host World) :
  rawread_dispatch callbacks ev c (Reader.set_context c0 u) h =
  rawread_dispatch callbacks ev c u h.
Proof. destruct ev; reflexivity. Qed.

Lemma rawread_deliver_user_data (evs : list Event)
  (c0 : luxem_rawread_context_t) (u : Reader.t) :
  forall (c : luxem_rawread_context_t) (h : host World),
    rawread_deliver callbacks evs c (Reader.set_context c0 u) h =
    rawread_deliver callbacks evs c u h.
Proof.
  induction evs as [|ev evs IH]; intros c h; [reflexivity|].
  cbn [rawread_deliver]. rewrite rawread_dispatch_user_data.
  destruct (rawread_dispatch callbacks ev c u h) as [[[[|] c1] h1]|]; auto.
Qed.

Lemma rawread_consume_user_data (data : bytes)
  (c0 : luxem_rawread_context_t) (u : Reader.t) :
  forall (c : luxem_rawread_context_t) (h : host World),
    rawread_consume g callbacks data c (Reader.set_context c0 u) h =
    rawread_consume g callbacks data c u h.
Proof.
  induction data as [|b data IH]; intros c h; [reflexivity|].
  cbn [rawread_consume].
  destruct (grammar_step g (state c) b) as [[evs m']|m]; [|reflexivity].
  rewrite rawread_deliver_user_data.
  destruct (rawread_deliver callbacks evs c u h) as [[[[|] c1] h1]|]; auto.
Qed.

Lemma luxem_rawread_feed_user_data (data : bytes) (finish : bool)
  (c c0 : luxem_rawread_context_t) (u : Reader.t) (h : host World) :
  luxem_rawread_feed g callbacks c (Reader.set_context c0 u) data finish h =
  luxem_rawread_feed g callbacks c u data finish h.
Proof.
  unfold luxem_rawread_feed, rawread_finish.
  rewrite rawread_consume_user_data.
  destruct (rawread_consume g callbacks data c u h) as [[[[|] c1] h1]|]; auto.
  destruct finish; [|reflexivity].
  destruct (stack (state c1)); [|reflexivity].
  destruct (grammar_finish g (state c1)) as [[evs m']|m]; [|reflexivity].
  now rewrite rawread_deliver_user_data.
Qed.

(** The bytes of two chunks go through the state machine as the bytes of
    their concatenation do. *)
Lemma rawread_consume_app (a b : bytes) (u : Reader.t) :
  forall (c : luxem_rawread_context_t) (h : host World),
    rawread_consume g callbacks (a ++ b) c u h =
    match rawread_consume g callbacks a c u h with
    | Some (true, c', h') => rawread_consume g callbacks b c' u h'
    | stopped => stopped
    end.
Proof.
  induction a as [|x a IH]; intros c h; [reflexivity|].
  cbn [app rawread_consume].
  destruct (grammar_step g (state c) x) as [[evs m']|m]; [|reflexivity].
  destruct (rawread_deliver callbacks evs c u h) as [[[[|] c1] h1]|]; auto.
Qed.

(** A successful [feed] of bytes, in terms of the engine. *)
Lemma Reader_feed_bytes_success (self self' : Reader.t) (data : bytes)
  (finish : bool) (h h' : host World) (ret : PyObject) :
  feed self (PyBytes data) finish h = Some (Some ret, self', h') <->
  exists c,
    luxem_rawread_feed g callbacks (Reader.context self) self data finish h
    = Some (true, c, List.length data, h') /\
    self' = Reader.set_context c self /\
    ret = PyLong (Z.of_nat (List.length data)).
Proof.
  unfold Reader_feed. cbn [WRAP_BYTES_CHECK WRAP_BYTES_TO].
  split.
  - destruct (luxem_rawread_feed g callbacks (Reader.context self) self data
                finish h) as [[[[[|] c] eaten] h1]|] eqn:E; [| |discriminate].
    + intro H. injection H as <- <- <-. exists c.
      assert (eaten = List.length data).
      { revert E. unfold luxem_rawread_feed.
        destruct (rawread_consume g callbacks data (Reader.context self) self h)
          as [[[[|] c1] h1']|]; [| |discriminate].
        - destruct finish.
          + destruct (rawread_finish g callbacks c1 self h1')
              as [[[ok c2] h2]|]; [|discriminate].
            intro H. now injection H as _ _ <- _.
          + intro H. now injection H as _ <- _.
        - discriminate. }
      subst eaten. auto.
    + destruct (format_context_error v c h1); discriminate.
  - intros (c & -> & -> & ->). reflexivity.
Qed.

Lemma luxem_rawread_feed_app (a b : bytes) (c c' : luxem_rawread_context_t)
  (u : Reader.t) (h h' : host World) (n : nat) :
  luxem_rawread_feed g callbacks c u (a ++ b) true h = Some (true, c', n, h') ->
  exists c1 h1,
    luxem_rawread_feed g callbacks c u a false h
    = Some (true, c1, List.length a, h1) /\
    luxem_rawread_feed g callbacks c1 u b true h1
    = Some (true, c', List.length b, h').
Proof.
  unfold luxem_rawread_feed. rewrite rawread_consume_app.
  destruct (rawread_consume g callbacks a c u h) as [[[[|] c1] h1]|];
    [| |discriminate].
  - intro H. exists c1, h1. split; [reflexivity|].
    destruct (rawread_consume g callbacks b c1 u h1) as [[[[|] c2] h2]|];
      [| |discriminate].
    + destruct (rawread_finish g callbacks c2 u h2) as [[[ok c3] h3]|];
        [|discriminate].
      injection H as -> <- _ <-. reflexivity.
    + discriminate.
  - discriminate.
Qed.

(** C1: when feeding a document whole (with [finish] true) succeeds,
    feeding its chunks in order to the same Reader -- [finish] false on
    all but the last -- succeeds too and leaves the Reader and the
    interpreter in the very same state: the same calls to the listeners,
    with the same payloads, in the same order. *)
Theorem chunked_feed_equals_whole (chunks : list bytes) (last : bytes) :
  forall (self self' : Reader.t) (h h' : host World) (ret : PyObject),
    feed self (PyBytes (List.concat chunks ++ last)) true h
    = Some (Some ret, self', h') ->
    feed_chunks v python_call stdio_stream physical_reads g self chunks last h
    = Some (Some (PyLong (Z.of_nat (List.length last))), self', h').
Proof.
  induction chunks as [|chunk chunks IH]; intros self self' h h' ret H.
  - cbn [List.concat app feed_chunks] in *.
    apply Reader_feed_bytes_success in H. destruct H as (c & E & -> & ->).
    apply Reader_feed_bytes_success. eauto.
  - cbn [List.concat feed_chunks] in *. rewrite <- app_assoc in H.
    apply Reader_feed_bytes_success in H. destruct H as (c & E & -> & ->).
    apply luxem_rawread_feed_app in E. destruct E as (c1 & h1 & E1 & E2).
    assert (F : feed self (PyBytes chunk) false h
                = Some (Some (PyLong (Z.of_nat (List.length chunk))),
                        Reader.set_context c1 self, h1))
      by (apply Reader_feed_bytes_success; eauto).
    rewrite F.
    rewrite (IH (Reader.set_context c1 self) (Reader.set_context c self) h1 h'
               (PyLong (Z.of_nat (List.length (List.concat chunks ++ last)))));
      [reflexivity|].
    apply Reader_feed_bytes_success. exists c.
    cbn [Reader.context Reader.set_context].
    rewrite luxem_rawread_feed_user_data. auto.
Qed.

(** ** Incomplete documents *)

Lemma rawread_dispatch_obliging (ev : Event) (c : luxem_rawread_context_t)
  (u : Reader.t) (h : host World) :
  obliging python_call -> deliverable v ev = true ->
  exists h',
    rawread_dispatch callbacks ev c u h = Some (true, c, h') /\
    curexc h' = curexc h.
Proof.
  intros Hob Hd.
  assert (call : forall callable arguments,
    exists h',
      match PyEval_CallObject python_call callable arguments h with
      | (None, h1) =>
          Some (false,
                rawread_set_error
                  {| pointer := exception_marker; length := 0 |} c, h1)
      | (Some _, h1) => Some (true, c, h1)
      end = Some (true, c, h') /\ curexc h' = curexc h).
  { intros callable arguments. unfold PyEval_CallObject.
    destruct (Hob callable arguments (world h)) as (o & w' & ->).
    eexists. split; reflexivity. }
  destruct ev; cbn [rawread_dispatch Reader_callbacks callbacks_object_begin
    callbacks_object_end callbacks_array_begin callbacks_array_end
    callbacks_key callbacks_type callbacks_primitive];
    unfold translate_rawread_object_begin, translate_rawread_object_end,
      translate_rawread_array_begin, translate_rawread_array_end,
      translate_rawread_key, translate_rawread_type,
      translate_rawread_primitive, TRANSLATE_VOID_CALLBACK,
      TRANSLATE_STRING_CALLBACK;
    try apply call;
    cbn [deliverable] in Hd;
    (destruct (WRAP_STRING_FROM v s); [apply call|discriminate]).
Qed.

Lemma rawread_deliver_obliging (evs : list Event)
  (c : luxem_rawread_context_t) (u : Reader.t) :
  forall h : host World,
    obliging python_call -> forallb (deliverable v) evs = true ->
    exists h',
      rawread_deliver callbacks evs c u h = Some (true, c, h') /\
      curexc h' = curexc h.
Proof.
  induction evs as [|ev evs IH]; intros h Hob Hd.
  - exists h. auto.
  - cbn [forallb] in Hd. apply andb_prop in Hd. destruct Hd as [Hev Hevs].
    cbn [rawread_deliver].
    destruct (@rawread_dispatch_obliging ev c u h Hob Hev) as (h1 & -> & Hc1).
    destruct (IH h1 Hob Hevs) as (h2 & -> & Hc2).
    exists h2. split; [reflexivity|congruence].
Qed.

(** With obliging listeners, bytes that the grammar accepts all go
    through: the state machine ends where the grammar says, and the
    position has moved on by their number. *)
Lemma rawread_consume_obliging (data : bytes) (u : Reader.t) :
  forall (c : luxem_rawread_context_t) (h : host World)
    (events : list Event) (m : machine),
    obliging python_call ->
    grammar_run g (state c) data = Some (events, m) ->
    forallb (deliverable v) events = true ->
    exists h',
      rawread_consume g callbacks data c u h =
      Some (true,
            {| state := m; position := position c + List.length data;
               error := error c |}, h') /\
      curexc h' = curexc h.
Proof.
  induction data as [|b data IH]; intros c h events m Hob Hrun Hd.
  - cbn [grammar_run] in Hrun. injection Hrun as <- <-.
    exists h. cbn [rawread_consume List.length]. rewrite Nat.add_0_r.
    destruct c; auto.
  - cbn [grammar_run] in Hrun. cbn [rawread_consume].
    destruct (grammar_step g (state c) b) as [[evs m1]|]; [|discriminate].
    destruct (grammar_run g m1 data) as [[evs' m2]|] eqn:R; [|discriminate].
    injection Hrun as <- <-.
    rewrite forallb_app in Hd. apply andb_prop in Hd.
    destruct Hd as [Hevs Hevs'].
    destruct (@rawread_deliver_obliging evs c u h Hob Hevs) as (h1 & -> & Hc1).
    destruct (IH (rawread_advance m1 c) h1 evs' m2 Hob R Hevs')
      as (h2 & -> & Hc2).
    exists h2. cbn [rawread_advance state position error List.length].
    rewrite Nat.add_succ_r. split; [reflexivity|congruence].
Qed.



End ReaderChunks.

(** ** The statements on the samples *)

(** A document fed whole and in three chunks, the second of which ends
    inside a token. *)
Lemma chunked_feed_equals_whole_sample :
  exists self' h',
    Reader_feed Python3 sample_call sample_stream sample_reads sample_grammar
      sample_reader (PyBytes (bytes_of_string "{a:1,b:[x,y]}")) true
      sample_host
    = Some (Some (PyLong 13), self', h') /\
    feed_chunks Python3 sample_call sample_stream sample_reads sample_grammar
      sample_reader [bytes_of_string "{a:"; bytes_of_string "1,b:[x"]
      (bytes_of_string ",y]}") sample_host
    = Some (Some (PyLong 4), self', h').
Proof.
  do 2 eexists. split; [reflexivity|].
  refine (@chunked_feed_equals_whole Python3 nat sample_call sample_stream
            sample_reads sample_grammar
            [bytes_of_string "{a:"; bytes_of_string "1,b:[x"]
            (bytes_of_string ",y]}") sample_reader _ sample_host _
            (PyLong 13) _).
  reflexivity.
Defined.

(** The [key] listener raises while ["{a:1}"] is fed as [bytes]; the
    [object_begin] listener raises while the stream of a file object is
    fed. *)
Lemma listener_failure_passes_through_sample :
  (exists self' h',
     Reader_feed Python3 sample_call sample_stream sample_reads sample_grammar
       sample_reader_bad_key (PyBytes (bytes_of_string "{a:1}")) true
       sample_host
     = Some (None, self', h') /\
     trace h'
     = [Called (PyOpaque 1) [] None;
        Called (PyOpaque 0) [PyUnicode [97%N]] (Some sample_exception)] /\
     curexc h' = Some sample_exception) /\
  (exists self' h',
     Reader_feed Python3 sample_call sample_stream sample_reads sample_grammar
       sample_reader_bad_begin (PyFileLike 3) true sample_host
     = Some (None, self', h') /\
     trace h'
     = [Called (PyBoundMethod (PyFileLike 3) "fileno") [] None;
        SaveThread; PhysicalRead 3 3; RestoreThread;
        Called (PyOpaque 0) [] (Some sample_exception)] /\
     curexc h' = Some sample_exception).
Proof.
  split.
  - pose proof (@listener_failure_passes_through Python3 nat sample_call
                  sample_stream sample_reads sample_grammar
                  sample_reader_bad_key (PyBytes (bytes_of_string "{a:1}"))
                  true sample_host) as [returns reports].
    destruct (returns (bytes_of_string "{a:1}") true eq_refl eq_refl)
      as (ret & self' & h' & E); [discriminate|].
    pose proof E as E'. vm_compute in E'. injection E' as <- <- <-.
    do 2 eexists. split; [exact E|]. split; [reflexivity|].
    specialize (reports _ _ _ E).
    specialize (reports [Called (PyOpaque 1) [] None] []
                  (PyOpaque 0) [PyUnicode [97%N]] sample_exception).
    exact (proj2 (proj2 (reports eq_refl))).
  - pose proof (@listener_failure_passes_through Python3 nat sample_call
                  sample_stream sample_reads sample_grammar
                  sample_reader_bad_begin (PyFileLike 3) true sample_host)
      as [returns reports].
    destruct (returns (bytes_of_string "{a:1}") true eq_refl eq_refl)
      as (ret & self' & h' & E); [split; [reflexivity|discriminate]|].
    pose proof E as E'. vm_compute in E'. injection E' as <- <- <-.
    do 2 eexists. split; [exact E|]. split; [reflexivity|].
    specialize (reports _ _ _ E).
    specialize (reports
                  [Called (PyBoundMethod (PyFileLike 3) "fileno") [] None;
                   SaveThread; PhysicalRead 3 3; RestoreThread] []
                  (PyOpaque 0) [] sample_exception).
    exact (proj2 (proj2 (reports eq_refl))).
Defined.


(** A [str] of Python 3 with characters of one to four bytes. *)
Lemma ascii16_round_trip_on_strings_sample :
  exists encoded,
    translate_to_ascii16 Python3 [PyUnicode [97; 233; 8364; 128512]%N]
    = Return encoded /\
    translate_from_ascii16 Python3 sample_error_text [encoded]
    = Return (PyUnicode [97; 233; 8364; 128512]%N).
Proof.
  eapply (@ascii16_round_trip_on_strings Python3 sample_error_text).
  reflexivity.
Defined.

Lemma to_ascii16_total_on_strings_sample :
  translate_to_ascii16 Python2 [PyBytes [x00; xff; x10]]
  = Return (PyBytes (bytes_of_string "00ff10")) /\
  List.length (Ascii16.encode [x00; xff; x10]) = 2 * 3 /\
  forallb Ascii16.is_digit (Ascii16.encode [x00; xff; x10]) = true.
Proof.
  apply (@to_ascii16_total_on_strings Python2 (PyBytes [x00; xff; x10])
           [x00; xff; x10]).
  reflexivity.
Defined.

Lemma map_to_N_injective (l l' : bytes) :
  map Byte.to_N l = map Byte.to_N l' -> l = l'.
Proof.
  intro H. apply (f_equal (map byte_of_N)) in H.
  rewrite !map_map in H.
  rewrite (map_ext _ (fun b => b) byte_of_N_to_N) in H.
  rewrite (map_ext _ (fun b => b) byte_of_N_to_N) in H.
  now rewrite !map_id in H.
Qed.

(** Under Python 3 a [bytes] object is not a string, so [to_ascii16]
    raises a TypeError on the byte 0xff; and as no [str] has 0xff for its
    bytes, no argument at all gets that byte encoded. *)
Lemma to_ascii16_python3_cannot_encode_0xff :
  translate_to_ascii16 Python3 [PyBytes [xff]]
  = Raise {| exc_type := PyExc_TypeError;
             exc_value :=
               Some (ascii_string Python3
                       (bytes_of_string
                          "A single string argument is required.")) |} /\
  forall o,
    translate_to_ascii16 Python3 [o]
    <> Return (ascii_string Python3 (Ascii16.encode [xff])).
Proof.
  split; [reflexivity|].
  intros o H. destruct o; try discriminate H.
  destruct (Utf8.encode s) as [b|] eqn:E.
  - rewrite (@translate_to_ascii16_string Python3 (PyUnicode s) b E) in H.
    injection H as H.
    change [102%N; 102%N] with (map Byte.to_N (Ascii16.encode [xff])) in H.
    apply map_to_N_injective in H.
    apply (f_equal Ascii16.decode) in H.
    rewrite !ascii16_decode_encode in H. injection H as ->.
    apply utf8_decode_encode in E. discriminate E.
  - unfold translate_to_ascii16, translate_to_from_ascii16 in H.
    cbn [PyArg_ParseTuple_O WRAP_STRING_CHECK WRAP_STRING_TO] in H.
    rewrite E in H. discriminate H.
Qed.

(** The byte 0xff passed as [bytes] does not make the round trip under
    Python 3: [to_ascii16] raises on it; nor does [from_ascii16] ever
    return a [bytes] object there. *)
Lemma ascii16_round_trip_fails_on_python3_bytes :
  (~ exists encoded,
       translate_to_ascii16 Python3 [PyBytes [xff]] = Return encoded /\
       translate_from_ascii16 Python3 sample_error_text [encoded]
       = Return (PyBytes [xff])) /\
  forall o,
    translate_from_ascii16 Python3 sample_error_text [o]
    <> Return (PyBytes [xff]).
Proof.
  split.
  - intros (encoded & H & _). discriminate H.
  - intros o H. destruct o; try discriminate H.
    unfold translate_from_ascii16, translate_to_from_ascii16 in H.
    cbn [PyArg_ParseTuple_O WRAP_STRING_CHECK WRAP_STRING_TO] in H.
    destruct (Utf8.encode s); [|discriminate H].
    destruct (luxem_from_ascii16 sample_error_text b) as [out|err].
    + cbn [WRAP_STRING_FROM] in H.
      destruct (Utf8.decode out); discriminate H.
    + discriminate H.
Qed.

(** A Writer on its buffer, after four calls. *)
Lemma dump_succeeds_exactly_on_buffer_sample :
  exists self h,
    Writer_calls Python3 true sample_call sample_write_grammar
      [method_object_begin; method_key [PyUnicode [97%N]];
       method_primitive [PyUnicode [49%N]]; method_object_end]
      sample_writer sample_host
    = Some (self, h) /\
    exists new,
      trace h = trace sample_host ++ new /\
      Writer_dump Python3 sample_write_grammar self h
      = Some (Some (PyBytes (buffer_writes new)), self, h).
Proof.
  do 2 eexists. split; [reflexivity|].
  refine (@dump_succeeds_exactly_on_buffer Python3 true nat sample_call
            sample_stream (list Frame) sample_write_grammar 64 None false false
            1%Z
            [method_object_begin; method_key [PyUnicode [97%N]];
             method_primitive [PyUnicode [49%N]]; method_object_end]
            sample_host sample_host _ sample_writer _ _ _);
    reflexivity.
Defined.

Lemma Writer_methods_return_self_sample :
  exists self' h',
    Writer_methods Python3 true sample_call sample_write_grammar
      method_object_begin sample_writer sample_host
    = Some (Some (PyInstance 64), self', h') /\
    Writer.address self' = 64 /\ Writer.ob_refcnt self' = 2.
Proof.
  do 2 eexists. split; [reflexivity|].
  refine (proj2
            (@Writer_methods_return_self Python3 true nat sample_call
               (list Frame)
               sample_write_grammar method_object_begin
               sample_writer _ sample_host _ (PyInstance 64) _ _));
    [discriminate|reflexivity].
Defined.

(** Under Python 3 a [bytes] object is not a string for [key]. *)
Lemma Writer_string_methods_reject_non_strings_sample :
  Writer_key Python3 true sample_call sample_write_grammar sample_writer
    [PyBytes (bytes_of_string "a")] sample_host
  = Some (None, sample_writer,
          set_curexc
            {| exc_type := PyExc_TypeError;
               exc_value :=
                 Some (ascii_string Python3
                         (bytes_of_string
                            "luxem.RawWriter.key requires a single string argument.")) |}
            sample_host).
Proof.
  apply (@Writer_string_methods_reject_non_strings Python3 true nat sample_call
           (list Frame) sample_write_grammar sample_writer
           (PyBytes (bytes_of_string "a")) sample_host).
  reflexivity.
Defined.

(** A file object of Python 2 over descriptor 3. *)
Lemma feed_stream_hooks_paired_sample :
  exists self' h' new,
    Reader_feed Python2 sample_call sample_stream sample_reads sample_grammar
      sample_reader (PyFileLike 3) true sample_host
    = Some (Some Py_None, self', h') /\
    trace h' = trace sample_host ++ new /\
    hooks_paired Held new = true /\
    Reader.thread_state self' = None /\ tstate_current h' = Some 1.
Proof.
  destruct (@feed_stream_hooks_paired Python2 nat sample_call sample_stream
              sample_reads sample_grammar sample_reader (PyFileLike 3) true
              3 sample_host 1 eq_refl eq_refl eq_refl eq_refl eq_refl)
    as [_ H].
  do 2 eexists.
  assert (E : Reader_feed Python2 sample_call sample_stream sample_reads
                sample_grammar sample_reader (PyFileLike 3) true sample_host
              = Some (Some Py_None, _, _)) by reflexivity.
  destruct (H _ _ _ E) as (new & Hn).
  exists new. split; [exact E|exact Hn].
Defined.

(** * Further properties *)

(** ** More on the UTF-8 codec *)

Lemma continuation_inv (b : byte) (n : N) :
  Utf8.continuation b = Some n -> (Byte.to_N b = 128 + n /\ n < 64)%N.
Proof.
  unfold Utf8.continuation.
  destruct (128 <=? Byte.to_N b)%N eqn:E1; [|discriminate].
  destruct (Byte.to_N b <? 192)%N eqn:E2; [|discriminate].
  cbn [andb]. intro H. apply some_inj in H.
  apply N.leb_le in E1. apply N.ltb_lt in E2. lia.
Qed.

Lemma byte_of_N_eq (b : byte) (n : N) : n = Byte.to_N b -> byte_of_N n = b.
Proof. intros ->. apply byte_of_N_to_N. Qed.

Lemma option_map_cons_inv (A : Type) (c : A) (o : option (list A))
  (s : list A) :
  option_map (cons c) o = Some s -> exists s', o = Some s' /\ s = c :: s'.
Proof.
  destruct o as [s'|]; [|discriminate]. cbn. intro H.
  exists s'. split; congruence.
Qed.

Ltac ltb_cases H :=
  repeat match type of H with
  | context [(?a <? ?b)%N] =>
      let E := fresh "E" in
      destruct (a <? b)%N eqn:E;
      [apply N.ltb_lt in E | apply N.ltb_ge in E]
  | context [(?a <=? ?b)%N] =>
      let E := fresh "E" in
      destruct (a <=? b)%N eqn:E;
      [apply N.leb_le in E | apply N.leb_gt in E]
  end.

Lemma ltb_true (a b : N) : (a < b)%N -> (a <? b)%N = true.
Proof. apply N.ltb_lt. Qed.

Lemma ltb_false (a b : N) : (b <= a)%N -> (a <? b)%N = false.
Proof. apply N.ltb_ge. Qed.

(** The first code point of a valid UTF-8 text and the bytes it takes. *)
Lemma utf8_decode_first (b0 : byte) (r0 : bytes) (s : list Utf8.codepoint) :
  Utf8.decode (b0 :: r0) = Some s ->
  exists c s' head rest,
    s = c :: s' /\ b0 :: r0 = head ++ rest /\ head <> [] /\
    Utf8.decode rest = Some s' /\
    Utf8.encode_codepoint c = Some head.
Proof.
  cbn [Utf8.decode]. cbv zeta.
  destruct (Byte.to_N b0 <? 128)%N eqn:E0.
  { intro H. apply option_map_cons_inv in H. destruct H as (s' & Hd & ->).
    exists (Byte.to_N b0), s', [b0], r0. repeat split; auto; [discriminate|].
    unfold Utf8.encode_codepoint. now rewrite E0, byte_of_N_to_N. }
  apply N.ltb_ge in E0.
  destruct (Byte.to_N b0 <? 192)%N eqn:E1; [discriminate|].
  apply N.ltb_ge in E1.
  destruct (Byte.to_N b0 <? 224)%N eqn:E2.
  { apply N.ltb_lt in E2.
    destruct r0 as [|b1 r1]; [discriminate|].
    destruct (Utf8.continuation b1) as [n1|] eqn:C1; [|discriminate].
    apply continuation_inv in C1. destruct C1 as [C1 L1].
    set (c := ((Byte.to_N b0 - 192) * 64 + n1)%N).
    destruct (c <? 128)%N eqn:Ec; [discriminate|]. apply N.ltb_ge in Ec.
    intro H. apply option_map_cons_inv in H. destruct H as (s' & Hd & ->).
    exists c, s', [b0; b1], r1. repeat split; auto; [discriminate|].
    unfold Utf8.encode_codepoint.
    rewrite (ltb_false Ec), (@ltb_true c 2048) by (unfold c; lia).
    rewrite (@byte_of_N_eq b0), (@byte_of_N_eq b1) by (unfold c; lia).
    reflexivity. }
  apply N.ltb_ge in E2.
  destruct (Byte.to_N b0 <? 240)%N eqn:E3.
  { apply N.ltb_lt in E3.
    destruct r0 as [|b1 [|b2 r2]]; try discriminate.
    destruct (Utf8.continuation b1) as [n1|] eqn:C1; [|discriminate].
    destruct (Utf8.continuation b2) as [n2|] eqn:C2; [|discriminate].
    apply continuation_inv in C1. destruct C1 as [C1 L1].
    apply continuation_inv in C2. destruct C2 as [C2 L2].
    set (c := ((Byte.to_N b0 - 224) * 4096 + n1 * 64 + n2)%N).
    destruct (c <? 2048)%N eqn:Ec; [discriminate|]. apply N.ltb_ge in Ec.
    destruct (Utf8.is_surrogate c) eqn:Es; [discriminate|]. cbn [orb].
    intro H. apply option_map_cons_inv in H. destruct H as (s' & Hd & ->).
    exists c, s', [b0; b1; b2], r2. repeat split; auto; [discriminate|].
    unfold Utf8.encode_codepoint.
    rewrite (@ltb_false c 128), (ltb_false Ec), (@ltb_true c 65536), Es
      by (unfold c; lia).
    rewrite (@byte_of_N_eq b0), (@byte_of_N_eq b1), (@byte_of_N_eq b2)
      by (unfold c; lia).
    reflexivity. }
  apply N.ltb_ge in E3.
  destruct (Byte.to_N b0 <? 248)%N eqn:E4; [|discriminate].
  apply N.ltb_lt in E4.
  destruct r0 as [|b1 [|b2 [|b3 r3]]]; try discriminate.
  destruct (Utf8.continuation b1) as [n1|] eqn:C1; [|discriminate].
  destruct (Utf8.continuation b2) as [n2|] eqn:C2; [|discriminate].
  destruct (Utf8.continuation b3) as [n3|] eqn:C3; [|discriminate].
  apply continuation_inv in C1. destruct C1 as [C1 L1].
  apply continuation_inv in C2. destruct C2 as [C2 L2].
  apply continuation_inv in C3. destruct C3 as [C3 L3].
  set (c := ((Byte.to_N b0 - 240) * 262144 + n1 * 4096 + n2 * 64 + n3)%N).
  destruct (c <? 65536)%N eqn:Ec; [discriminate|]. apply N.ltb_ge in Ec.
  destruct (1114112 <=? c)%N eqn:Em; [discriminate|]. apply N.leb_gt in Em.
  cbn [orb].
  intro H. apply option_map_cons_inv in H. destruct H as (s' & Hd & ->).
  exists c, s', [b0; b1; b2; b3], r3. repeat split; auto; [discriminate|].
  unfold Utf8.encode_codepoint.
  rewrite (@ltb_false c 128), (@ltb_false c 2048), (ltb_false Ec),
    (ltb_true Em) by lia.
  rewrite (@byte_of_N_eq b0), (@byte_of_N_eq b1), (@byte_of_N_eq b2),
    (@byte_of_N_eq b3) by (unfold c; lia).
  reflexivity.
Qed.

(** Encoding what a valid UTF-8 text decodes to gives the text back. *)
Lemma utf8_encode_decode (bs : bytes) :
  forall s, Utf8.decode bs = Some s -> Utf8.encode s = Some bs.
Proof.
  assert (strong : forall n bs, List.length bs <= n ->
            forall s, Utf8.decode bs = Some s -> Utf8.encode s = Some bs).
  { induction n as [|n IH]; intros [|b0 r0] Hn s H;
      try (cbn in H; apply some_inj in H; subst s; reflexivity);
      [cbn in Hn; lia|].
    apply utf8_decode_first in H.
    destruct H as (c & s' & head & rest & -> & Hb & Hne & Hd & Hc).
    rewrite Hb. cbn [Utf8.encode]. rewrite Hc.
    rewrite (IH rest); [reflexivity| |exact Hd].
    apply (f_equal (@List.length byte)) in Hb.
    rewrite length_app in Hb. cbn [List.length] in Hb, Hn.
    destruct head; [contradiction|cbn [List.length] in Hb; lia]. }
  intros s H. now apply (strong (List.length bs) bs).
Qed.

(** ** More on the string macros and the transcoder functions *)

(** The bytes of a string object made from bytes are those bytes. *)
Lemma WRAP_STRING_TO_FROM (v : python) (o : PyObject) (b : bytes) :
  WRAP_STRING_FROM v b = Some o ->
  WRAP_STRING_CHECK v o = true /\ WRAP_STRING_TO v o = Some b.
Proof.
  destruct v; cbn [WRAP_STRING_FROM].
  - intro H. apply some_inj in H. subst o. auto.
  - destruct (Utf8.decode b) as [s|] eqn:E; [|discriminate].
    cbn [option_map]. intro H. apply some_inj in H. subst o.
    split; [reflexivity|]. cbn [WRAP_STRING_TO].
    now apply utf8_encode_decode.
Qed.

(** The code points without UTF-8 form are the surrogates and what lies
    beyond U+10FFFF. *)
Lemma encode_codepoint_unencodable (c : Utf8.codepoint) :
  Utf8.encode_codepoint c = None <-> unencodable c = true.
Proof.
  unfold Utf8.encode_codepoint, unencodable, Utf8.is_surrogate.
  destruct (c <? 128)%N eqn:E0;
    [apply N.ltb_lt in E0|apply N.ltb_ge in E0].
  { split; [discriminate|]. intro H. apply orb_prop in H.
    destruct H as [H|H].
    - apply andb_prop in H. destruct H as [H _]. apply N.leb_le in H. lia.
    - apply N.leb_le in H. lia. }
  destruct (c <? 2048)%N eqn:E1;
    [apply N.ltb_lt in E1|apply N.ltb_ge in E1].
  { split; [discriminate|]. intro H. apply orb_prop in H.
    destruct H as [H|H].
    - apply andb_prop in H. destruct H as [H _]. apply N.leb_le in H. lia.
    - apply N.leb_le in H. lia. }
  destruct (c <? 65536)%N eqn:E2;
    [apply N.ltb_lt in E2|apply N.ltb_ge in E2].
  { destruct ((55296 <=? c)%N && (c <? 57344)%N) eqn:Es; cbn [orb].
    - split; reflexivity.
    - split; [discriminate|]. intro H. apply N.leb_le in H. lia. }
  destruct (c <? 1114112)%N eqn:E3;
    [apply N.ltb_lt in E3|apply N.ltb_ge in E3].
  - split; [discriminate|]. intro H. apply orb_prop in H.
    destruct H as [H|H].
    + apply andb_prop in H. destruct H as [_ H]. apply N.ltb_lt in H. lia.
    + apply N.leb_le in H. lia.
  - split; [intros _|reflexivity]. apply orb_true_intro. right.
    now apply N.leb_le.
Qed.

Lemma utf8_encode_unencodable (s : list Utf8.codepoint) :
  Utf8.encode s = None <-> existsb unencodable s = true.
Proof.
  induction s as [|c s IH]; cbn [Utf8.encode existsb].
  - split; discriminate.
  - pose proof (encode_codepoint_unencodable c) as Hc.
    destruct (Utf8.encode_codepoint c) as [b|].
    + destruct (unencodable c).
      * destruct Hc as [_ Hc]. discriminate (Hc eq_refl).
      * cbn [orb]. destruct (Utf8.encode s) as [bs|].
        -- split; [discriminate|]. intro H. apply IH in H. discriminate H.
        -- split; [intros _; now apply IH|reflexivity].
    + destruct Hc as [Hc _]. rewrite (Hc eq_refl). split; reflexivity.
Qed.

(** A digit of the alphabet is the character of its value. *)
Lemma from_digit_inv (c : byte) (n : N) :
  Ascii16.from_digit c = Some n -> (n < 16)%N /\ Ascii16.to_digit n = c.
Proof.
  destruct c; intro H; try discriminate H;
    apply some_inj in H; subst n; split; reflexivity.
Qed.

(** What decodes is the encoding of what it decodes to. *)
Lemma ascii16_encode_decode (s : bytes) :
  forall off out,
    Ascii16.decode_from off s = inl out -> Ascii16.encode out = s.
Proof.
  induction s as [|a|a b l IH] using pairs_ind; intros off out.
  - cbn. intro H. injection H as <-. reflexivity.
  - cbn [Ascii16.decode_from]. destruct (Ascii16.from_digit a); discriminate.
  - cbn [Ascii16.decode_from].
    destruct (Ascii16.from_digit a) as [hi|] eqn:Ea; [|discriminate].
    destruct (Ascii16.from_digit b) as [lo|] eqn:Eb; [|discriminate].
    destruct (Ascii16.decode_from (S (S off)) l) as [out'|] eqn:E;
      [|discriminate].
    intro H. injection H as <-.
    apply from_digit_inv in Ea. destruct Ea as [Ha <-].
    apply from_digit_inv in Eb. destruct Eb as [Hb <-].
    change (Ascii16.encode (byte_of_N (hi * 16 + lo) :: out'))
      with (Ascii16.encode_byte (byte_of_N (hi * 16 + lo))
              ++ Ascii16.encode out').
    rewrite (IH _ _ E). unfold Ascii16.encode_byte.
    rewrite to_N_byte_of_N by lia.
    replace ((hi * 16 + lo) / 16)%N with hi by lia.
    replace ((hi * 16 + lo) mod 16)%N with lo by lia.
    reflexivity.
Qed.

Section TranscoderMore.

Variable v : python.
Variable error_text : Ascii16.TranscoderError -> luxem_string_t.

(** X14: [to_ascii16] and [from_ascii16] -- whatever the engine function
    behind them -- run into undefined behaviour exactly under Python 3 on
    a single [str] argument that holds a lone surrogate or a code point
    beyond U+10FFFF: the only strings [PyUnicode_AsUTF8AndSize] has no
    bytes for.  Under Python 2 they never do. *)
Theorem transcoder_undefined_exactly (positional_args : list PyObject)
  (function : luxem_string_t -> luxem_string_t + luxem_string_t) :
  translate_to_from_ascii16 v positional_args function = Undefined <->
  v = Python3 /\
  exists s, positional_args = [PyUnicode s] /\ existsb unencodable s = true.
Proof.
  unfold translate_to_from_ascii16.
  destruct positional_args as [|o [|o' rest]]; cbn [PyArg_ParseTuple_O];
    try (split; [discriminate|intros (_ & s & H & _); discriminate H]).
  destruct v, o; cbn [WRAP_STRING_CHECK WRAP_STRING_TO];
    try (split; [discriminate|intros (Hv & s' & H & _);
                              first [discriminate Hv|discriminate H]]).
  - destruct (function b) as [out|e]; cbn [WRAP_STRING_FROM];
      (split; [discriminate|intros (Hv & _); discriminate Hv]).
  - destruct (Utf8.encode s) as [b|] eqn:E.
    + assert (Hn : existsb unencodable s <> true).
      { intro H. apply utf8_encode_unencodable in H. congruence. }
      destruct (function b) as [out|e];
        [destruct (WRAP_STRING_FROM Python3 out)|];
        (split; [discriminate|intros (_ & s' & H & Hs)];
         injection H as <-; contradiction).
    + apply utf8_encode_unencodable in E.
      split; [intros _; split; [reflexivity|now exists s]|reflexivity].
Qed.

(** X15: what [from_ascii16] returns, [to_ascii16] turns back into the
    argument: on the strings it accepts, [from_ascii16] is undone by
    [to_ascii16]. *)
Theorem ascii16_decode_then_encode (o r : PyObject) :
  translate_from_ascii16 v error_text [o] = Return r ->
  translate_to_ascii16 v [r] = Return o.
Proof.
  unfold translate_from_ascii16, translate_to_from_ascii16.
  cbn [PyArg_ParseTuple_O].
  destruct (WRAP_STRING_CHECK v o); [|discriminate].
  destruct (WRAP_STRING_TO v o) as [s|] eqn:Es; [|discriminate].
  unfold luxem_from_ascii16, Ascii16.decode.
  destruct (Ascii16.decode_from 0 s) as [out|e] eqn:Ed; [|discriminate].
  destruct (WRAP_STRING_FROM v out) as [r'|] eqn:Er; [|discriminate].
  intro H. injection H as <-.
  apply WRAP_STRING_TO_FROM in Er. destruct Er as [_ Er].
  rewrite (translate_to_ascii16_string v r' Er).
  pose proof (ascii16_encode_decode _ _ Ed) as He. rewrite He.
  assert (Ha : forallb is_ascii s = true).
  { rewrite <- He. apply digits_are_ascii, encode_digits. }
  pose proof (WRAP_STRING_FROM_TO v o Es) as Hf.
  rewrite (WRAP_STRING_FROM_ascii v s Ha) in Hf. congruence.
Qed.

(** X16: on a string argument with bytes [s], [from_ascii16] raises a
    ValueError exactly when [s] has an offending character -- one outside
    the alphabet, or the unpaired last one -- and the engine's error names
    the offset of the first: it lies in [s] and only digits come before
    it.  Otherwise [s] is the encoding of some bytes, and those are
    returned as a string, when they make one. *)
Theorem from_ascii16_outcome (o : PyObject) (s : bytes) :
  WRAP_STRING_TO v o = Some s ->
  match Ascii16.first_offending 0 s with
  | Some k =>
      k < List.length s /\
      forallb Ascii16.is_digit (firstn k s) = true /\
      exists m,
        translate_from_ascii16 v error_text [o] =
        Raise (PyErr_SetObject PyExc_ValueError
                 (WRAP_STRING_FROM v
                    (error_text
                       {| Ascii16.message := m; Ascii16.offset := k |})))
  | None =>
      exists out,
        Ascii16.encode out = s /\
        translate_from_ascii16 v error_text [o] =
        match WRAP_STRING_FROM v out with
        | Some r => Return r
        | None =>
            Raise {| exc_type := PyExc_UnicodeDecodeError;
                     exc_value := None |}
        end
  end.
Proof.
  intro H. pose proof (decode_from_first_offending s 0) as Hd.
  unfold translate_from_ascii16, translate_to_from_ascii16.
  cbn [PyArg_ParseTuple_O]. rewrite (WRAP_STRING_TO_CHECK v o H), H.
  unfold luxem_from_ascii16, Ascii16.decode.
  destruct (Ascii16.first_offending 0 s) as [k|] eqn:Ek.
  - destruct Hd as [m Hd]. rewrite Hd.
    apply first_offending_some in Ek. destruct Ek as (Hk & Hf & _).
    rewrite Nat.sub_0_r in Hf. split; [lia|]. split; [exact Hf|].
    now exists m.
  - destruct Hd as [out Hd]. rewrite Hd. exists out.
    split; [exact (ascii16_encode_decode _ _ Hd)|reflexivity].
Qed.

End TranscoderMore.

Section PayloadMore.

Variable v : python.
Variable World : Type.
Variable python_call :
  PyObject -> list PyObject -> World -> (PyObject + PyErr) * World.
Variable W : Type.

(** X13: the string object a Reader hands to a listener for the payload
    [string] is one the Writer accepts, and [key], [type] and [primitive]
    called with it hand the engine [string] again, byte for byte. *)
Theorem payload_read_then_written (name : Reader.t -> PyObject)
  (context context' : luxem_rawread_context_t) (user_data : Reader.t)
  (string : luxem_string_t) (h h' : host World) (ok : bool) :
  TRANSLATE_STRING_CALLBACK v python_call name context user_data string h
  = Some (ok, context', h') ->
  exists payload failure,
    trace h' = trace h ++ [Called (name user_data) [payload] failure] /\
    forall (self : Writer.t W)
      (method : luxem_rawwrite_context_t W -> Writer.t W -> luxem_string_t ->
                host World -> write_result World W)
      (badargs : bytes) (hw : host World),
      translate_string_method v self [payload] method badargs hw
      = translate_void_method v self
          (fun c u => method c u string) hw.
Proof.
  unfold TRANSLATE_STRING_CALLBACK.
  destruct (WRAP_STRING_FROM v string) as [payload|] eqn:E; [|discriminate].
  destruct (PyEval_CallObject python_call (name user_data) [payload] h)
    as [r h1] eqn:Ec.
  apply PyEval_CallObject_post in Ec. destruct Ec as [_ Ec].
  apply WRAP_STRING_TO_FROM in E. destruct E as [Echeck Eto].
  assert (written : forall (self : Writer.t W)
            (method : luxem_rawwrite_context_t W -> Writer.t W ->
                      luxem_string_t -> host World -> write_result World W)
            (badargs : bytes) (hw : host World),
            translate_string_method v self [payload] method badargs hw
            = translate_void_method v self (fun c u => method c u string) hw).
  { intros self method badargs hw.
    unfold translate_string_method, translate_void_method.
    cbn [PyArg_ParseTuple_O]. now rewrite Echeck, Eto. }
  destruct r as [o|].
  - destruct Ec as [Ht _]. intro H. injection H as _ _ <-.
    exists payload, None. auto.
  - destruct Ec as (e & Ht & _). intro H. injection H as _ _ <-.
    exists payload, (Some e). auto.
Qed.

End PayloadMore.

(** ** More on the Writer *)


Section WriterMore.

Variable v : python.
Variable clean : bool.
Variable World : Type.
Variable python_call :
  PyObject -> list PyObject -> World -> (PyObject + PyErr) * World.
Variable stdio_stream : Z -> option FILE.
Variable W : Type.
Variable g : WriteGrammar W.

Local Abbreviation methods := (Writer_methods v clean python_call g).
Local Abbreviation write :=
  (translate_rawwrite_write (W:=W) v clean python_call).

(** The four ways a method goes: the string argument has no bytes to
    give and the process ends; the engine is called for an event; the
    arguments are refused; or it is [dump]. *)
Lemma Writer_methods_cases (m : Writer_method) (self : Writer.t W)
  (h : host World) :
  (call_has_bytes v m = false /\ methods m self h = None) \/
  (call_has_bytes v m = true /\ m <> method_dump /\
   exists ev,
     method_event v m = Some ev /\
     methods m self h
     = finish_method v self
         (rawwrite_event g write ev (Writer.context self) self h)) \/
  (call_has_bytes v m = true /\ m <> method_dump /\
   exists e, methods m self h = Some (None, self, set_curexc e h)) \/
  (m = method_dump /\ methods m self h = Writer_dump v g self h).
Proof.
  destruct m as [| | | |args|args|args|];
    try (right; left; split; [reflexivity|split; [discriminate|]];
         eexists; split; reflexivity);
    try (right; right; right; split; reflexivity);
    cbn [Writer_methods call_has_bytes method_event];
    unfold Writer_key, Writer_type, Writer_primitive, translate_string_method,
      luxem_rawwrite_key, luxem_rawwrite_type, luxem_rawwrite_primitive;
    (destruct args as [|o [|o' args]];
     [right; right; left; split; [reflexivity|split; [discriminate|]];
      eexists; reflexivity
     |
     |right; right; left; split; [reflexivity|split; [discriminate|]];
      eexists; reflexivity]);
    cbn [PyArg_ParseTuple_O has_bytes];
    (destruct (WRAP_STRING_CHECK v o);
     [|right; right; left; split; [reflexivity|split; [discriminate|]];
       eexists; reflexivity]);
    (destruct (WRAP_STRING_TO v o) as [string|];
     [right; left; split; [reflexivity|split; [discriminate|]];
      eexists; split; reflexivity
     |left; split; reflexivity]).
Qed.

(** When a method returns, the Writer is the one it was called on but for
    the engine's context, with one more reference exactly when the method
    hands the Writer itself back. *)
Lemma Writer_methods_self (m : Writer_method) (self self' : Writer.t W)
  (h h' : host World) (r : option PyObject) :
  methods m self h = Some (r, self', h') ->
  exists c,
    (r = Some (PyInstance (Writer.address self)) /\
     self' = Writer.Py_INCREF (Writer.set_context c self)) \/
    ((r = None \/ exists rendered, r = Some (PyBytes rendered)) /\
     self' = Writer.set_context c self).
Proof.
  assert (same : self = Writer.set_context (Writer.context self) self)
    by now destruct self.
  destruct (Writer_methods_cases m self h)
    as [[_ ->]|[(_ & _ & ev & _ & ->)|[(_ & _ & e & ->)|[_ ->]]]];
    [discriminate| | |].
  - destruct (rawwrite_event g write ev (Writer.context self) self h)
      as [[[[|] c] h1]|]; cbn [finish_method]; [| |discriminate].
    + intro H. injection H as <- <- <-. exists c. left. auto.
    + intro H. apply raise_write_error_returns in H.
      destruct H as (-> & -> & _). exists c. right. auto.
  - intro H. injection H as <- <- <-. exists (Writer.context self). auto.
  - unfold Writer_dump. destruct (Writer.target self).
    { intro H. injection H as <- <- <-. exists (Writer.context self). auto. }
    destruct (luxem_rawwrite_buffer_render g (Writer.context self)) as [b|c].
    + intro H. injection H as <- <- <-. exists (Writer.context self).
      right. split; [right; now exists b|exact same].
    + destruct (0 <? _); [|discriminate].
      destruct (error_bytes _); [|discriminate].
      intro H. injection H as <- <- <-. exists c. auto.
Qed.

Lemma Writer_methods_keeps (m : Writer_method) (self self' : Writer.t W)
  (h h' : host World) (r : option PyObject) :
  methods m self h = Some (r, self', h') ->
  Writer.target self' = Writer.target self /\
  Writer.file self' = Writer.file self.
Proof.
  intro H. apply Writer_methods_self in H.
  destruct H as (c & [[_ ->]|[_ ->]]); auto.
Qed.

(** X10: a Writer method never rebinds the Writer: its address, its target
    and its stream are as before, and its reference count has grown by
    exactly the references the method hands out -- one when the Writer
    itself is returned, none when the method raises or [dump] returns the
    rendered bytes. *)
Theorem Writer_methods_reference_count (m : Writer_method)
  (self self' : Writer.t W) (h h' : host World) (r : option PyObject) :
  methods m self h = Some (r, self', h') ->
  Writer.address self' = Writer.address self /\
  Writer.target self' = Writer.target self /\
  Writer.file self' = Writer.file self /\
  Writer.ob_refcnt self' =
  Writer.ob_refcnt self + references_to (Writer.address self) r.
Proof.
  intro H. apply Writer_methods_self in H.
  destruct H as (c & [[-> ->]|[[->|[b ->]] ->]]);
    cbn [Writer.Py_INCREF Writer.set_context Writer.address Writer.target
         Writer.file Writer.ob_refcnt references_to];
    rewrite ?Nat.eqb_refl; repeat split; lia.
Qed.

(** A method in terms of its event. *)
Lemma Writer_methods_event (m : Writer_method) (ev : Event)
  (self : Writer.t W) (h : host World) :
  method_event v m = Some ev ->
  methods m self h
  = finish_method v self
      (rawwrite_event g write ev (Writer.context self) self h).
Proof.
  destruct m as [| | | |args|args|args|]; cbn [method_event];
    try (intro H; injection H as <-; reflexivity);
    try discriminate;
    (destruct args as [|o [|o' args]]; try discriminate);
    cbn [Writer_methods];
    unfold Writer_key, Writer_type, Writer_primitive, translate_string_method,
      luxem_rawwrite_key, luxem_rawwrite_type, luxem_rawwrite_primitive;
    cbn [PyArg_ParseTuple_O];
    (destruct (WRAP_STRING_CHECK v o); [|discriminate]);
    (destruct (WRAP_STRING_TO v o) as [string|]; [|discriminate]);
    cbn [option_map]; intro H; injection H as <-; reflexivity.
Qed.

(** X12: a call the format does not allow where the Writer stands -- an
    end without its begin, say -- raises a ValueError whose value is the
    engine's message, as a string.  Nothing is written and no reference is
    taken: but for the error kept in the context, the Writer and the
    world are as before. *)
Theorem Writer_structural_error (m : Writer_method) (ev : Event)
  (self : Writer.t W) (h : host World) (message : Message) :
  method_event v m = Some ev ->
  write_step g (pretty (Writer.context self)) (wstate (Writer.context self)) ev
  = inr message ->
  methods m self h
  = Some (None,
          Writer.set_context
            (rawwrite_set_error (engine_error message) (Writer.context self))
            self,
          set_curexc
            (PyErr_SetObject PyExc_ValueError
               (WRAP_STRING_FROM v (message_text message))) h).
Proof.
  intros Hev Hstep. rewrite (Writer_methods_event m self h Hev).
  unfold rawwrite_event. rewrite Hstep. cbn [finish_method].
  unfold raise_write_error.
  cbn [Writer.set_context Writer.context rawwrite_set_error werror
         engine_error pointer length is_exception_marker negb error_bytes].
  change (0 <? List.length (message_text message)) with true.
  cbn iota. now rewrite firstn_all.
Qed.

(** *** The sink *)

(** The argument of the write callback is built, or the SystemError is
    set and nothing else has changed. *)
Lemma Py_BuildValue_bytes_cases (string : luxem_string_t) (h : host World) :
  Py_BuildValue_bytes v clean string h = (Some [PyBytes string], h) \/
  builds_bytes v clean = false /\
  exists e, Py_BuildValue_bytes v clean string h = (None, set_curexc e h).
Proof.
  unfold Py_BuildValue_bytes, builds_bytes.
  destruct v; [now left|]. destruct clean; [now left|right]. eauto.
Qed.

(** What the write callback leaves: at most the call of the target, with
    the run as its one argument. *)
Lemma translate_rawwrite_write_sink (c c' : luxem_rawwrite_context_t W)
  (u : Writer.t W) (run : bytes) (h h' : host World) (ok : bool) :
  write c u run h = Some (ok, c', h') ->
  out c' = out c /\
  exists new,
    trace h' = trace h ++ new /\
    (new = [] /\ ok = false \/
     exists t failure,
       Writer.target u = Some t /\ new = [Called t [PyBytes run] failure] /\
       (ok = true -> failure = None)).
Proof.
  unfold translate_rawwrite_write.
  destruct (Py_BuildValue_bytes_cases run h) as [->|(_ & e & ->)].
  - destruct (Writer.target u) as [t|]; [|discriminate].
    destruct (PyEval_CallObject python_call t [PyBytes run] h)
      as [[o|] h1] eqn:E;
      apply PyEval_CallObject_post in E; destruct E as [_ E];
      intro H; injection H as <- <- <-.
    + destruct E as [Ht _]. split; [reflexivity|]. eexists.
      split; [exact Ht|]. right. eauto.
    + destruct E as (e & Ht & _). split; [reflexivity|]. eexists.
      split; [exact Ht|]. right. exists t, (Some e).
      split; [reflexivity|]. split; [reflexivity|discriminate].
  - intro H. injection H as <- <- <-. split; [reflexivity|].
    exists []. cbn [set_curexc trace]. rewrite app_nil_r. auto.
Qed.

(** Emission on a Writer whose sink is the one of its target answers,
    keeps the sink, and does to the world what the sink allows. *)
Lemma rawwrite_emit_sink (runs : list bytes) (u : Writer.t W) :
  forall (c : luxem_rawwrite_context_t W) (h : host World),
    sink_of (Writer.target u) (Writer.file u) (out c) ->
    exists ok c' h' new,
      rawwrite_emit write runs c u h = Some (ok, c', h') /\
      sink_of (Writer.target u) (Writer.file u) (out c') /\
      trace h' = trace h ++ new /\
      Forall (sink_action (Writer.target u) (Writer.file u)) new.
Proof.
  induction runs as [|run runs IH]; intros c h Hs; cbn [rawwrite_emit].
  - exists true, c, h, []. rewrite app_nil_r. auto.
  - unfold sink_of in Hs.
    destruct (Writer.target u) as [t|] eqn:Et.
    + destruct (Writer.file u) as [f|] eqn:Ef.
      * rewrite Hs.
        destruct (IH c (record (FileWrite f run) h)) as
          (ok & c' & h' & new & -> & Hs' & Ht & Hn).
        { exact Hs. }
        exists ok, c', h', (FileWrite f run :: new).
        repeat split; [exact Hs'| |].
        -- rewrite Ht. cbn [record trace]. now rewrite <- app_assoc.
        -- constructor; [reflexivity|exact Hn].
      * rewrite Hs.
        destruct (write c u run h) as [[[ok1 c1] h1]|] eqn:E.
        2:{ revert E. unfold translate_rawwrite_write.
            destruct (Py_BuildValue_bytes v clean run h) as [[arguments|] h0];
              [|discriminate].
            rewrite Et.
            destruct (PyEval_CallObject python_call t arguments h0)
              as [[o|] h1]; discriminate. }
        apply translate_rawwrite_write_sink in E.
        destruct E as (Ho & new1 & Ht1 & E).
        assert (Hn1 : Forall (sink_action (Some t) None) new1).
        { destruct E as [[-> _]|(t' & failure & Ht' & -> & _)];
            [constructor|].
          rewrite Et in Ht'. injection Ht' as <-.
          constructor; [cbn; auto|constructor]. }
        destruct ok1.
        -- destruct (IH c1 h1) as (ok & c' & h' & new & -> & Hs' & Ht & Hn).
           { congruence. }
           exists ok, c', h', (new1 ++ new).
           repeat split; [exact Hs'| |].
           ++ rewrite Ht, Ht1. now rewrite <- app_assoc.
           ++ apply Forall_app. auto.
        -- exists false, c1, h1, new1.
           repeat split; [congruence|exact Ht1|exact Hn1].
    + destruct Hs as [buffer Hs]. rewrite Hs.
      destruct (IH (rawwrite_set_out (BufferOut (buffer ++ run)) c)
                  (record (BufferWrite run) h)) as
        (ok & c' & h' & new & -> & Hs' & Ht & Hn).
      { cbn [sink_of rawwrite_set_out out]. eauto. }
      exists ok, c', h', (BufferWrite run :: new).
      repeat split; [exact Hs'| |].
      * rewrite Ht. cbn [record trace]. now rewrite <- app_assoc.
      * constructor; [exact I|exact Hn].
Qed.

Lemma rawwrite_event_sink (ev : Event) (u : Writer.t W)
  (c : luxem_rawwrite_context_t W) (h : host World) :
  sink_of (Writer.target u) (Writer.file u) (out c) ->
  exists ok c' h' new,
    rawwrite_event g write ev c u h = Some (ok, c', h') /\
    sink_of (Writer.target u) (Writer.file u) (out c') /\
    trace h' = trace h ++ new /\
    Forall (sink_action (Writer.target u) (Writer.file u)) new.
Proof.
  intro Hs. unfold rawwrite_event.
  destruct (write_step g (pretty c) (wstate c) ev) as [[runs w']|m].
  - destruct (rawwrite_emit_sink runs u c h Hs)
      as (ok & c' & h' & new & -> & Hs' & Ht & Hn).
    destruct ok; eexists _, _, h', new; repeat split; eauto.
  - eexists false, _, h, []. rewrite app_nil_r.
    repeat split; [exact Hs|constructor].
Qed.

(** A method that returns, on a Writer whose sink is bound, leaves the
    sink bound and has done to the world what the sink allows. *)
Lemma Writer_methods_sink (m : Writer_method) (self self' : Writer.t W)
  (h h' : host World) (r : option PyObject) :
  sink_bound self ->
  methods m self h = Some (r, self', h') ->
  sink_bound self' /\
  exists new,
    trace h' = trace h ++ new /\
    Forall (sink_action (Writer.target self) (Writer.file self)) new.
Proof.
  intros Hs.
  assert (same : forall (e : option PyErr) c,
            out c = out (Writer.context self) ->
            sink_bound (Writer.set_context c self) /\
            exists new,
              trace match e with Some e' => set_curexc e' h | None => h end
              = trace h ++ new /\
              Forall (sink_action (Writer.target self) (Writer.file self)) new).
  { intros e c Hc. split.
    - unfold sink_bound. cbn [Writer.set_context Writer.target Writer.file
                                Writer.context]. now rewrite Hc.
    - exists []. rewrite app_nil_r. split; [now destruct e|constructor]. }
  assert (self_eq : self = Writer.set_context (Writer.context self) self)
    by now destruct self.
  destruct (Writer_methods_cases m self h)
    as [[_ ->]|[(_ & _ & ev & _ & ->)|[(_ & _ & e & ->)|[_ ->]]]];
    [discriminate| | |].
  - destruct (rawwrite_event_sink ev self (Writer.context self) h Hs)
      as (ok & c' & h1 & new & -> & Hs' & Ht & Hn).
    cbn [finish_method]. destruct ok.
    + intro H. injection H as <- <- <-. split; [exact Hs'|eauto].
    + intro H. apply raise_write_error_returns in H.
      destruct H as (_ & -> & Ht'). split; [exact Hs'|].
      exists new. rewrite Ht'. auto.
  - intro H. injection H as <- <- <-.
    destruct (same (Some e) (Writer.context self) eq_refl) as [Hs' Hn].
    rewrite <- self_eq in Hs'. auto.
  - unfold Writer_dump. destruct (Writer.target self) as [t|] eqn:Et.
    + intro H. injection H as <- <- <-.
      destruct (same (Some (PyErr_SetString v PyExc_TypeError
                   (bytes_of_string
                      "luxem.RawWriter.dump can only be used if not using a custom serialize callback for serializing to file.")))
                  (Writer.context self) eq_refl) as [Hs' Hn].
      rewrite <- self_eq in Hs'. auto.
    + unfold luxem_rawwrite_buffer_render.
      destruct (out (Writer.context self)) eqn:Eo;
        try (destruct (0 <? _); [|discriminate];
             destruct (error_bytes _); [|discriminate];
             intro H; injection H as <- <- <-;
             apply (same (Some _));
             cbn [rawwrite_set_error out]; now rewrite Eo).
      intro H. injection H as <- <- <-.
      destruct (same None (Writer.context self) Eo) as [Hs' Hn].
      rewrite <- self_eq in Hs'. auto.
Qed.

Lemma Writer_calls_sink (ms : list Writer_method) :
  forall (self self' : Writer.t W) (h h' : host World),
    sink_bound self ->
    Writer_calls v clean python_call g ms self h = Some (self', h') ->
    sink_bound self' /\
    Writer.target self' = Writer.target self /\
    Writer.file self' = Writer.file self /\
    exists new,
      trace h' = trace h ++ new /\
      Forall (sink_action (Writer.target self) (Writer.file self)) new.
Proof.
  induction ms as [|m ms IH]; intros self self' h h' Hs H;
    cbn [Writer_calls] in H.
  - injection H as <- <-. repeat split; auto.
    exists []. rewrite app_nil_r. auto.
  - destruct (methods m self h) as [[[r self1] h1]|] eqn:E; [|discriminate].
    destruct (@Writer_methods_keeps _ _ _ _ _ _ E) as (Etarget & Efile).
    destruct (@Writer_methods_sink _ _ _ _ _ _ Hs E)
      as (Hs1 & new1 & Ht1 & Hn1).
    destruct (IH _ _ _ _ Hs1 H) as (Hs' & Et & Ef & new & Ht & Hn).
    split; [exact Hs'|]. split; [congruence|]. split; [congruence|].
    exists (new1 ++ new). split; [rewrite Ht, Ht1; now rewrite app_assoc|].
    apply Forall_app. split; [exact Hn1|]. now rewrite <- Etarget, <- Efile.
Qed.

(** What [Writer_init] leaves of a fresh instance when it returns 0. *)
Lemma Writer_init_sink (address : nat) (target : option PyObject)
  (pretty use_spaces : bool) (indent_multiple : Z)
  (h h' : host World) (self : Writer.t W) :
  Writer_init v python_call stdio_stream (Writer_new g address) target pretty
    use_spaces indent_multiple h = (0%Z, self, h') ->
  sink_bound self /\ Writer.target self = target /\
  Writer.file self = stream_of v python_call stdio_stream target h /\
  werror (Writer.context self) = no_error.
Proof.
  unfold Writer_init, stream_of, sink_bound, sink_of. destruct target as [o|].
  - cbn [Writer.set_target Writer.target Writer_new].
    destruct (WRAP_FILE_CHECK v o).
    + destruct (WRAP_FILE_TO v python_call stdio_stream o h) as [[f|] h1];
        [|discriminate].
      destruct pretty; intro H; injection H as <- <-; cbn; auto.
    + destruct pretty; intro H; injection H as <- <-; cbn; auto.
  - cbn [Writer.target Writer_new].
    destruct pretty; intro H; injection H as <- <-; cbn; eauto.
Qed.

(** What [Writer_init] does to the world: at most one thing. *)
Lemma Writer_init_actions (self0 : Writer.t W) (target : option PyObject)
  (pretty use_spaces : bool) (indent_multiple : Z)
  (h h' : host World) (self : Writer.t W) (status : Z) :
  Writer.target self0 = None ->
  Writer_init v python_call stdio_stream self0 target pretty
    use_spaces indent_multiple h = (status, self, h') ->
  exists new,
    trace h' = trace h ++ new /\
    List.length new <= 1 /\
    Forall (init_action v target
              (stream_of v python_call stdio_stream target h)) new /\
    (v = Python2 ->
     new = match stream_of v python_call stdio_stream target h with
           | Some f => [FileIncUseCount f]
           | None => []
           end).
Proof.
  intro fresh.
  assert (nothing : forall h0 : host World,
            exists new : list action,
              trace h0 = trace h0 ++ new /\ List.length new <= 1 /\
              Forall (init_action v target None) new /\
              (v = Python2 -> new = [])).
  { intro h0. exists []. rewrite app_nil_r. cbn. auto. }
  unfold Writer_init, stream_of. destruct target as [o|].
  - cbn [Writer.set_target Writer.target].
    destruct (WRAP_FILE_CHECK v o) eqn:Ec.
    + destruct (WRAP_FILE_TO v python_call stdio_stream o h)
        as [[f|] h1] eqn:Ef; cbn [fst];
        apply WRAP_FILE_TO_post in Ef;
        destruct Ef as (_ & new & Ht & Hn & Ef).
      * assert (actions : exists new' : list action,
                  trace (WRAP_FILE_INC_stream v f h1) = trace h ++ new' /\
                  List.length new' <= 1 /\
                  Forall (init_action v (Some o) (Some f)) new' /\
                  (v = Python2 -> new' = [FileIncUseCount f])).
        { unfold WRAP_FILE_INC_stream.
          destruct Hn as [->|(Hv & failure & ->)].
          - rewrite app_nil_r in Ht. destruct v eqn:Ev.
            + exists [FileIncUseCount f]. cbn [record trace]. rewrite Ht.
              repeat split; auto. constructor; [cbn; auto|constructor].
            + exists []. rewrite app_nil_r. repeat split; auto.
              discriminate.
          - rewrite Hv. exists [Called (PyBoundMethod o "fileno") [] failure].
            repeat split; auto; [|discriminate].
            constructor; [|constructor]. exists o. split; [reflexivity|].
            split; [reflexivity|eauto]. }
        destruct pretty; intro H; injection H as <- <- <-; exact actions.
      * intro H; injection H as <- <- <-.
        exists new. split; [exact Ht|].
        split; [destruct Hn as [->|(_ & failure & ->)]; cbn; lia|].
        split.
        -- destruct Hn as [->|(Hv & failure & ->)]; [constructor|].
           constructor; [|constructor]. exists o. split; [reflexivity|].
           split; [exact Hv|eauto].
        -- intro Hv. destruct Hn as [->|(Hv' & _)]; [reflexivity|congruence].
    + destruct pretty; intro H; injection H as <- <- <-; apply nothing.
  - rewrite fresh.
    destruct pretty; intro H; injection H as <- <- <-; apply nothing.
Qed.

(** X8: a Writer acts on the world only through the sink it was
    constructed with.  Whatever is called on it, a Writer without target
    only appends to its buffer, a Writer on a file object only writes to
    the stream of that object, and a Writer on any other target only
    calls that target, each time with one [bytes] argument.  Before that,
    its construction has done what it takes to have the stream of a file
    object, and nothing else. *)
Theorem Writer_acts_through_its_sink (address : nat)
  (target : option PyObject) (pretty use_spaces : bool) (indent_multiple : Z)
  (ms : list Writer_method) (h0 h1 h : host World) (self0 self : Writer.t W) :
  Writer_init v python_call stdio_stream (Writer_new g address) target pretty
    use_spaces indent_multiple h0 = (0%Z, self0, h1) ->
  Writer_calls v clean python_call g ms self0 h1 = Some (self, h) ->
  exists opening new,
    trace h = trace h0 ++ opening ++ new /\
    trace h1 = trace h0 ++ opening /\
    Forall (init_action v target
              (stream_of v python_call stdio_stream target h0)) opening /\
    Forall (sink_action target
              (stream_of v python_call stdio_stream target h0)) new.
Proof.
  intros Hinit Hcalls.
  destruct (@Writer_init_actions (Writer_new g address) _ _ _ _ _ _ _ _
              eq_refl Hinit) as (opening & Ho & _ & Hi & _).
  apply Writer_init_sink in Hinit.
  destruct Hinit as (Hs & Et & Ef & _).
  destruct (@Writer_calls_sink ms self0 self h1 h Hs Hcalls)
    as (_ & _ & _ & new & Ht & Hn).
  rewrite Ef, Et in Hn.
  exists opening, new. rewrite app_assoc, <- Ho. repeat split; assumption.
Qed.

(** X7: what [Writer_init] does on a fresh instance.  It fails exactly
    when the target is a file object whose stream cannot be had; no sink
    is bound then, and an exception is set under Python 3, while under
    Python 2 nothing at all has changed.  To the world it does at most one
    thing: under Python 3 the call of the [fileno] method of a target that
    has one; under Python 2, once the stream is there, the increment of
    the use count -- in the stream. *)
Theorem Writer_init_failure (address : nat) (target : option PyObject)
  (pretty use_spaces : bool) (indent_multiple : Z)
  (h h' : host World) (self : Writer.t W) (status : Z) :
  Writer_init v python_call stdio_stream (Writer_new g address) target pretty
    use_spaces indent_multiple h = (status, self, h') ->
  (status = 0%Z \/ status = (-1)%Z) /\
  (status = (-1)%Z <->
   exists o, target = Some o /\ WRAP_FILE_CHECK v o = true /\
             stream_of v python_call stdio_stream target h = None) /\
  (status = (-1)%Z ->
   out (Writer.context self) = NoSink /\
   match v with
   | Python3 => exists e, curexc h' = Some e
   | Python2 => h' = h
   end) /\
  exists new,
    trace h' = trace h ++ new /\
    List.length new <= 1 /\
    Forall (init_action v target
              (stream_of v python_call stdio_stream target h)) new /\
    (v = Python2 ->
     new = match stream_of v python_call stdio_stream target h with
           | Some f => [FileIncUseCount f]
           | None => []
           end).
Proof.
  intro Hinit.
  pose proof (@Writer_init_actions (Writer_new g address) _ _ _ _ _ _ _ _
                eq_refl Hinit) as actions.
  cut ((status = 0%Z \/ status = (-1)%Z) /\
       (status = (-1)%Z <->
        exists o, target = Some o /\ WRAP_FILE_CHECK v o = true /\
                  stream_of v python_call stdio_stream target h = None) /\
       (status = (-1)%Z ->
        out (Writer.context self) = NoSink /\
        match v with
        | Python3 => exists e, curexc h' = Some e
        | Python2 => h' = h
        end)).
  { intros (A & B & C). auto. }
  clear actions. revert Hinit. unfold Writer_init, stream_of.
  destruct target as [o|].
  - cbn [Writer.set_target Writer.target Writer_new].
    destruct (WRAP_FILE_CHECK v o) eqn:Ec.
    + destruct (WRAP_FILE_TO v python_call stdio_stream o h)
        as [[f|] h1] eqn:Ef; cbn [fst];
        apply WRAP_FILE_TO_post in Ef;
        destruct Ef as (_ & new & Ht & Hn & Ef).
      * destruct pretty; intro H; injection H as <- <- <-;
          (split; [now left|]);
          (split; [split; [discriminate|];
                   intros (o' & _ & _ & H); discriminate H|]);
          discriminate.
      * intro H; injection H as <- <- <-.
        split; [now right|].
        split; [split; [|reflexivity]; intros _; exists o; auto|].
        intros _; split; [reflexivity|]; now destruct v.
    + destruct pretty; intro H; injection H as <- <- <-;
        (split; [now left|]);
        (split; [split; [discriminate|];
                 intros (o' & Ho & Hc & _); injection Ho as <-; congruence|]);
        discriminate.
  - cbn [Writer.target Writer_new].
    destruct pretty; intro H; injection H as <- <- <-;
      (split; [now left|]);
      (split; [split; [discriminate|];
               intros (o' & H & _); discriminate H|]);
      discriminate.
Qed.

(** *** When a method returns *)

(** What the write callback leaves when the argument is built. *)
Lemma translate_rawwrite_write_post (c c' : luxem_rawwrite_context_t W)
  (u : Writer.t W) (run : bytes) (h h' : host World) (ok : bool) :
  builds_bytes v clean = true ->
  write c u run h = Some (ok, c', h') ->
  engine_post (werror c) h ok (werror c') h'.
Proof.
  intro Hb. unfold translate_rawwrite_write.
  destruct (Py_BuildValue_bytes_cases run h) as [->|(Hb' & _)];
    [|congruence].
  destruct (Writer.target u) as [t|]; [|discriminate].
  destruct (PyEval_CallObject python_call t [PyBytes run] h)
    as [[o|] h1] eqn:E;
    apply PyEval_CallObject_post in E; destruct E as [_ E];
    intro H; injection H as <- <- <-.
  - destruct E as [Ht Hc]. eapply post_success; eauto. reflexivity.
  - destruct E as (e & Ht & Hc). cbn [rawwrite_set_error werror].
    eapply post_callback_failure with (pre := []); eauto. reflexivity.
Qed.

Lemma rawwrite_emit_post (runs : list bytes) (u : Writer.t W) :
  forall (c c' : luxem_rawwrite_context_t W) (h h' : host World) (ok : bool),
    builds_bytes v clean = true \/ out c <> CallbackOut ->
    rawwrite_emit write runs c u h = Some (ok, c', h') ->
    engine_post (werror c) h ok (werror c') h'.
Proof.
  induction runs as [|run runs IH]; intros c c' h h' ok Hb H;
    cbn [rawwrite_emit] in H.
  - injection H as <- <- <-. apply engine_post_refl.
  - destruct (out c) as [|buffer|f|] eqn:Eo; [discriminate| | |].
    + apply IH in H; [|right; cbn [rawwrite_set_out out]; discriminate].
      cbn [rawwrite_set_out werror] in H.
      eapply engine_post_after; [| | |exact H];
        [cbn [record trace]; reflexivity|reflexivity|reflexivity].
    + apply IH in H; [|right; rewrite Eo; discriminate].
      eapply engine_post_after; [| | |exact H];
        [cbn [record trace]; reflexivity|reflexivity|reflexivity].
    + destruct Hb as [Hb|Hb]; [|contradiction].
      destruct (write c u run h) as [[[[|] c1] h1]|] eqn:E; [| |discriminate].
      * apply (translate_rawwrite_write_post _ _ _ _ Hb) in E.
        apply IH in H; [|now left]. eapply engine_post_trans; eauto.
      * injection H as <- <- <-.
        now apply (translate_rawwrite_write_post _ _ _ _ Hb) in E.
Qed.

Lemma rawwrite_event_post (ev : Event) (u : Writer.t W)
  (c c' : luxem_rawwrite_context_t W) (h h' : host World) (ok : bool) :
  builds_bytes v clean = true \/ out c <> CallbackOut ->
  rawwrite_event g write ev c u h = Some (ok, c', h') ->
  engine_post (werror c) h ok (werror c') h'.
Proof.
  intro Hb. unfold rawwrite_event.
  destruct (write_step g (pretty c) (wstate c) ev) as [[runs w']|m].
  - destruct (rawwrite_emit write runs c u h) as [[[[|] c1] h1]|] eqn:E;
      [| |discriminate]; intro H; injection H as <- <- <-;
      now apply rawwrite_emit_post in E.
  - intro H. injection H as <- <- <-. cbn [rawwrite_set_error werror].
    apply post_violation with (new := []);
      [now rewrite app_nil_r|reflexivity..].
Qed.

(** After the engine has answered as it should, the method returns, and
    a failed call is what it reports. *)
Lemma finish_method_post (self : Writer.t W)
  (c0 c : luxem_rawwrite_context_t W) (ok : bool) (h h1 : host World) :
  engine_post (werror c0) h ok (werror c) h1 ->
  exists r self' h',
    finish_method v self (Some (ok, c, h1)) = Some (r, self', h') /\
    feed_post h h' r.
Proof.
  intro P. cbn [finish_method].
  inversion P as [h1' new Ht Hq Hc Hok He|h1' new m Ht Hq Hc Hok He|
                  h1' pre callee args e Ht Hq Hc Hok He]; subst.
  - do 3 eexists. split; [reflexivity|]. left. eauto.
  - unfold raise_write_error. cbn [Writer.set_context Writer.context].
    rewrite <- He.
    cbn [engine_error pointer length is_exception_marker negb].
    change (0 <? List.length (message_text m)) with true.
    cbn [error_bytes pointer].
    do 3 eexists. split; [reflexivity|]. left. exists new. auto.
  - unfold raise_write_error. cbn [Writer.set_context Writer.context].
    rewrite <- He. cbn.
    do 3 eexists. split; [reflexivity|]. right.
    split; [reflexivity|]. exists pre, callee, args, e. auto.
Qed.

(** A method returns on a Writer whose sink is bound, when its string
    argument has bytes to give and the argument of the write callback can
    be built, or there is no write callback. *)
Lemma Writer_methods_returns (m : Writer_method) (self : Writer.t W)
  (h : host World) :
  sink_bound self ->
  call_has_bytes v m = true ->
  builds_bytes v clean = true \/
  Writer.target self = None \/ Writer.file self <> None ->
  exists r self' h',
    methods m self h = Some (r, self', h') /\ feed_post h h' r.
Proof.
  intros Hs Hm Hb.
  assert (Hout : builds_bytes v clean = true \/
                 out (Writer.context self) <> CallbackOut).
  { destruct Hb as [Hb|Hb]; [now left|right].
    unfold sink_bound, sink_of in Hs.
    destruct (Writer.target self) as [t|].
    - destruct (Writer.file self) as [f|]; [rewrite Hs; discriminate|].
      destruct Hb as [Hb|Hb]; [discriminate|contradiction].
    - destruct Hs as [buffer ->]. discriminate. }
  assert (same : forall (e : option PyErr) (o : option PyObject),
            feed_post h
              match e with Some e' => set_curexc e' h | None => h end o).
  { intros e o. left. exists []. destruct e; cbn; now rewrite app_nil_r. }
  destruct (Writer_methods_cases m self h)
    as [[Hn _]|[(_ & _ & ev & _ & ->)|[(_ & _ & e & ->)|[_ ->]]]];
    [congruence| | |].
  - destruct (rawwrite_event_sink ev self (Writer.context self) h Hs)
      as (ok & c' & h1 & new & E & _).
    rewrite E. apply rawwrite_event_post in E; [|exact Hout].
    now apply finish_method_post with (c0 := Writer.context self).
  - do 3 eexists. split; [reflexivity|]. exact (same (Some e) None).
  - unfold Writer_dump. unfold sink_bound, sink_of in Hs.
    destruct (Writer.target self) as [t|].
    + do 3 eexists. split; [reflexivity|]. apply (same (Some _) None).
    + destruct Hs as [buffer Hs]. unfold luxem_rawwrite_buffer_render.
      rewrite Hs. do 3 eexists. split; [reflexivity|]. exact (same None _).
Qed.

Lemma Writer_calls_returns (ms : list Writer_method) :
  forall (self : Writer.t W) (h : host World),
    sink_bound self ->
    forallb (call_has_bytes v) ms = true ->
    builds_bytes v clean = true \/
    Writer.target self = None \/ Writer.file self <> None ->
    exists self' h', Writer_calls v clean python_call g ms self h
                     = Some (self', h').
Proof.
  induction ms as [|m ms IH]; intros self h Hs Hm Hb; cbn [Writer_calls].
  - eauto.
  - cbn [forallb] in Hm. apply andb_prop in Hm. destruct Hm as [Hm Hms].
    destruct (@Writer_methods_returns m self h Hs Hm Hb)
      as (r & self1 & h1 & E & _).
    rewrite E.
    destruct (@Writer_methods_keeps _ _ _ _ _ _ E) as (Etarget & Efile).
    destruct (@Writer_methods_sink _ _ _ _ _ _ Hs E) as (Hs1 & _).
    apply IH; auto. now rewrite Etarget, Efile.
Qed.

(** A constructed Writer to which the bytes can be handed. *)
Lemma Writer_init_builds (address : nat) (target : option PyObject)
  (pretty use_spaces : bool) (indent_multiple : Z)
  (h h' : host World) (self : Writer.t W) :
  Writer_init v python_call stdio_stream (Writer_new g address) target pretty
    use_spaces indent_multiple h = (0%Z, self, h') ->
  builds_bytes v clean || negb (callback_target v target) = true ->
  builds_bytes v clean = true \/
  Writer.target self = None \/ Writer.file self <> None.
Proof.
  intros Hinit Hb. apply orb_prop in Hb. destruct Hb as [Hb|Hb]; [now left|].
  right. revert Hinit. unfold Writer_init, callback_target in *.
  destruct target as [o|].
  - cbn [Writer.set_target Writer.target Writer_new].
    destruct (WRAP_FILE_CHECK v o); [|discriminate Hb].
    destruct (WRAP_FILE_TO v python_call stdio_stream o h) as [[f|] h1];
      [|discriminate].
    destruct pretty; intro H; injection H as <- <-; right; discriminate.
  - cbn [Writer.target Writer_new].
    destruct pretty; intro H; injection H as <- <-; now left.
Qed.

(** X9: the process survives every call on a constructed Writer whose
    string arguments have bytes to give, as long as the bytes to write
    can be handed to a target that is called with them: no assertion of
    the error branches fails, the write callback is never called without
    a target, and the engine is never left without a sink.  Under
    Python 2 every string has bytes to give and the bytes can always be
    handed on. *)
Theorem constructed_Writer_calls_return (address : nat)
  (target : option PyObject) (pretty use_spaces : bool) (indent_multiple : Z)
  (ms : list Writer_method) (h0 h1 : host World) (self0 : Writer.t W) :
  Writer_init v python_call stdio_stream (Writer_new g address) target pretty
    use_spaces indent_multiple h0 = (0%Z, self0, h1) ->
  builds_bytes v clean || negb (callback_target v target) = true ->
  forallb (call_has_bytes v) ms = true ->
  exists self h,
    Writer_calls v clean python_call g ms self0 h1 = Some (self, h).
Proof.
  intros Hinit Hb Hm.
  pose proof (@Writer_init_builds _ _ _ _ _ _ _ _ Hinit Hb) as Hb'.
  apply Writer_init_sink in Hinit. destruct Hinit as (Hs & _).
  now apply Writer_calls_returns.
Qed.

(** Where the argument of the write callback cannot be built, no call
    is made at all. *)
Lemma rawwrite_emit_unbuilt_quiet (runs : list bytes) (u : Writer.t W) :
  forall (c c' : luxem_rawwrite_context_t W) (h h' : host World) (ok : bool),
    builds_bytes v clean = false ->
    rawwrite_emit write runs c u h = Some (ok, c', h') ->
    exists new, trace h' = trace h ++ new /\ quiet new.
Proof.
  induction runs as [|run runs IH]; intros c c' h h' ok Hb H;
    cbn [rawwrite_emit] in H.
  - injection H as _ _ <-. exists []. now rewrite app_nil_r.
  - destruct (out c) as [|buffer|f|]; [discriminate| | |].
    + apply IH in H; [|exact Hb]. destruct H as (new & Ht & Hq).
      exists (BufferWrite run :: new).
      split; [rewrite Ht; cbn [record trace]; now rewrite <- app_assoc|].
      exact Hq.
    + apply IH in H; [|exact Hb]. destruct H as (new & Ht & Hq).
      exists (FileWrite f run :: new).
      split; [rewrite Ht; cbn [record trace]; now rewrite <- app_assoc|].
      exact Hq.
    + revert H. unfold translate_rawwrite_write.
      destruct (Py_BuildValue_bytes_cases run h) as [E|(_ & e & ->)].
      * revert Hb E. unfold builds_bytes, Py_BuildValue_bytes.
        destruct v; [discriminate|]. destruct clean; discriminate.
      * intro H. injection H as _ _ <-. exists [].
        cbn [set_curexc trace]. now rewrite app_nil_r.
Qed.

(** What a method has done when it returns, on whatever Writer. *)
Lemma Writer_methods_post (m : Writer_method) (self self' : Writer.t W)
  (h h' : host World) (r : option PyObject) :
  methods m self h = Some (r, self', h') -> feed_post h h' r.
Proof.
  assert (same : forall (e : option PyErr) (o : option PyObject),
            feed_post h
              match e with Some e' => set_curexc e' h | None => h end o).
  { intros e o. left. exists []. destruct e; cbn; now rewrite app_nil_r. }
  destruct (Writer_methods_cases m self h)
    as [[_ ->]|[(_ & _ & ev & _ & ->)|[(_ & _ & e & ->)|[_ ->]]]];
    [discriminate| | |].
  - destruct (rawwrite_event g write ev (Writer.context self) self h)
      as [[[ok c] h1]|] eqn:E; [|discriminate].
    destruct (builds_bytes v clean) eqn:Hb.
    + apply rawwrite_event_post in E; [|now left].
      destruct (@finish_method_post self _ _ _ _ _ E)
        as (r' & self1 & h2 & -> & P).
      intro H. now injection H as <- <- <-.
    + assert (Q : exists new, trace h1 = trace h ++ new /\ quiet new).
      { revert E. unfold rawwrite_event.
        destruct (write_step g (pretty (Writer.context self))
                    (wstate (Writer.context self)) ev) as [[runs w']|message].
        - destruct (rawwrite_emit write runs (Writer.context self) self h)
            as [[[[|] c1] h2]|] eqn:E; [| |discriminate];
            apply rawwrite_emit_unbuilt_quiet in E; try exact Hb;
            intro H; injection H as _ _ <-; exact E.
        - intro H. injection H as _ _ <-. exists []. now rewrite app_nil_r. }
      destruct Q as (new & Ht & Hq). cbn [finish_method]. destruct ok.
      * intro H. injection H as <- <- <-. left. eauto.
      * intro H. apply raise_write_error_returns in H.
        destruct H as (_ & _ & Ht'). left. exists new. split; congruence.
  - intro H. injection H as <- <- <-. exact (same (Some e) None).
  - unfold Writer_dump. destruct (Writer.target self).
    { intro H. injection H as <- <- <-. apply (same (Some _) None). }
    destruct (luxem_rawwrite_buffer_render g (Writer.context self)) as [b|c].
    + intro H. injection H as <- <- <-. exact (same None _).
    + destruct (0 <? _); [|discriminate].
      destruct (error_bytes _); [|discriminate].
      intro H. injection H as <- <- <-. apply (same (Some _) None).
Qed.

(** X11: a method called on a constructed Writer returns, whatever the
    target does, when its string argument has bytes to give and the bytes
    to write can be handed to a target that is called with them; and when
    the call of the target fails, that call is the last thing the method
    does, the method returns NULL, and the exception indicator holds the
    very exception the target raised -- not a ValueError of the binding's
    making. *)
Theorem sink_failure_passes_through (address : nat)
  (target : option PyObject) (pretty use_spaces : bool) (indent_multiple : Z)
  (ms : list Writer_method) (m : Writer_method)
  (h0 h1 h : host World) (self0 self : Writer.t W) :
  Writer_init v python_call stdio_stream (Writer_new g address) target pretty
    use_spaces indent_multiple h0 = (0%Z, self0, h1) ->
  Writer_calls v clean python_call g ms self0 h1 = Some (self, h) ->
  (builds_bytes v clean || negb (callback_target v target) = true ->
   call_has_bytes v m = true ->
   exists r self' h', methods m self h = Some (r, self', h')) /\
  (forall (r : option PyObject) (self' : Writer.t W) (h' : host World),
     methods m self h = Some (r, self', h') ->
     forall (before after : list action) (callee : PyObject)
       (arguments : list PyObject) (e : PyErr),
       trace h'
       = trace h ++ before ++ Called callee arguments (Some e) :: after ->
       after = [] /\ r = None /\ curexc h' = Some e).
Proof.
  intros Hinit Hcalls. split.
  - intros Hb Hm.
    pose proof (@Writer_init_builds _ _ _ _ _ _ _ _ Hinit Hb) as Hb'.
    apply Writer_init_sink in Hinit. destruct Hinit as (Hs & _).
    destruct (@Writer_calls_sink ms self0 self h1 h Hs Hcalls)
      as (Hs' & Et & Ef & _).
    rewrite <- Et, <- Ef in Hb'.
    destruct (@Writer_methods_returns m self h Hs' Hm Hb')
      as (r & self' & h' & E & _).
    eauto.
  - intros r self' h' E before after callee arguments e Ht.
    apply Writer_methods_post in E.
    destruct E as [(new & Hn & Hq)|(Hr & pre & f & args & e' & Hn & Hq & Hc)];
      rewrite Hn in Ht; apply app_inv_head in Ht.
    + now apply quiet_no_failed_call in Ht.
    + destruct (@failed_call_is_last pre before after
                  (Called f args (Some e')) (Called callee arguments (Some e))
                  Hq eq_refl Ht) as [Ha Hx].
      injection Hx as _ _ <-. auto.
Qed.

(** *** Where a method ends the process *)










End WriterMore.

(** ** More on the Reader *)

Section ReaderMore.

Variable v : python.
Variable World : Type.
Variable python_call :
  PyObject -> list PyObject -> World -> (PyObject + PyErr) * World.
Variable stdio_stream : Z -> option FILE.
Variable physical_reads : FILE -> list bytes.
Variable g : Grammar.

Local Abbreviation callbacks := (Reader_callbacks v python_call).
Local Abbreviation feed :=
  (Reader_feed v python_call stdio_stream physical_reads g).
Local Abbreviation feed_reads :=
  (rawread_feed_reads g callbacks (@feed_unlock_gil World)
     (@feed_lock_gil World)).

(** X1: [feed] called with an object that is neither [bytes] nor a file
    object returns NULL with a TypeError set; the Reader is as before, and
    so is the interpreter state but for the exception: the engine was not
    called. *)
Theorem feed_rejects_other_objects (self : Reader.t) (data : PyObject)
  (finish : bool) (h : host World) :
  WRAP_BYTES_CHECK v data = false ->
  WRAP_FILE_CHECK v data = false ->
  feed self data finish h =
  Some (None, self,
        set_curexc
          {| exc_type := PyExc_TypeError;
             exc_value :=
               Some (ascii_string v
                       (bytes_of_string
                          "luxem.RawReader.feed requires a single bytes or binary file argument.")) |}
          h).
Proof.
  intros Hb Hf. unfold Reader_feed. rewrite Hb, Hf.
  now rewrite PyErr_SetString_ascii by reflexivity.
Qed.

(** X2: the two hooks undo each other.  Called by a thread that holds the
    lock on a Reader that is not suspended, the suspend hook parks the
    thread state in the Reader and releases the lock, and the resume hook
    then gives back the very Reader and the thread state, with nothing
    else changed.  A second suspend in between, or a resume without
    suspend, fails its assertion. *)
Theorem feed_hooks_round_trip (c c' : luxem_rawread_context_t)
  (self : Reader.t) (h : host World) (t : PyThreadState) :
  Reader.thread_state self = None ->
  tstate_current h = Some t ->
  feed_lock_gil c' self h = None /\
  exists suspended h1 h2,
    feed_unlock_gil c self h = Some (suspended, h1) /\
    Reader.thread_state suspended = Some t /\
    tstate_current h1 = None /\
    feed_unlock_gil c' suspended h1 = None /\
    feed_lock_gil c' suspended h1 = Some (self, h2) /\
    tstate_current h2 = Some t /\
    trace h2 = trace h ++ [SaveThread; RestoreThread] /\
    curexc h2 = curexc h /\ world h2 = world h.
Proof.
  intros Hu Hs. destruct self as [x0 x1 x2 x3 x4 x5 x6 x7 ts].
  cbn [Reader.thread_state] in Hu. subst ts.
  unfold feed_lock_gil, feed_unlock_gil, PyEval_SaveThread.
  cbn [Reader.thread_state]. rewrite Hs. split; [reflexivity|].
  eexists _, _, _. split; [reflexivity|].
  cbn [Reader.set_thread_state Reader.thread_state PyEval_RestoreThread
         record set_tstate tstate_current trace curexc world
         Reader.context Reader.object_begin Reader.object_end
         Reader.array_begin Reader.array_end Reader.key Reader.type
         Reader.primitive].
  split; [reflexivity|]. split; [reflexivity|]. split; [reflexivity|].
  split; [reflexivity|]. split; [reflexivity|].
  split; [cbn; now rewrite <- app_assoc|]. split; reflexivity.
Qed.

(** What suspend and resume leave of the Reader. *)
Lemma hooks_keep_reader (c c' : luxem_rawread_context_t) (u u1 u2 : Reader.t)
  (h h1 h2 h3 : host World) :
  feed_unlock_gil c u h = Some (u1, h1) ->
  feed_lock_gil c' u1 h2 = Some (u2, h3) ->
  u2 = u.
Proof.
  unfold feed_unlock_gil, feed_lock_gil, PyEval_SaveThread.
  destruct (Reader.thread_state u) eqn:Hu; [discriminate|].
  destruct (tstate_current h); [|discriminate].
  intro H. injection H as <- <-.
  cbn [Reader.set_thread_state Reader.thread_state PyEval_RestoreThread].
  intro H. injection H as <- _. destruct u. cbn in Hu. now subst.
Qed.

(** *** Only the listeners are called *)

Lemma listens_refl (u : Reader.t) (h : host World) : listens v u h h.
Proof. exists []. now rewrite app_nil_r. Qed.

Lemma listens_trans (u : Reader.t) (h h1 h2 : host World) :
  listens v u h h1 -> listens v u h1 h2 -> listens v u h h2.
Proof.
  intros (n1 & Ht1 & Hn1) (n2 & Ht2 & Hn2). exists (n1 ++ n2).
  split; [now rewrite Ht2, Ht1, app_assoc|]. apply Forall_app. auto.
Qed.

Lemma rawread_dispatch_listens (ev : Event) (c c' : luxem_rawread_context_t)
  (u : Reader.t) (h h' : host World) (ok : bool) :
  rawread_dispatch callbacks ev c u h = Some (ok, c', h') ->
  listens v u h h'.
Proof.
  assert (call : forall callable arguments,
    listener_call v u (Called callable arguments None) ->
    (forall e, listener_call v u (Called callable arguments (Some e))) ->
    match PyEval_CallObject python_call callable arguments h with
    | (None, h1) =>
        Some (false,
              rawread_set_error
                {| pointer := exception_marker; length := 0 |} c, h1)
    | (Some _, h1) => Some (true, c, h1)
    end = Some (ok, c', h') ->
    listens v u h h').
  { intros callable arguments L1 L2.
    destruct (PyEval_CallObject python_call callable arguments h)
      as [[o|] h1] eqn:E;
      apply PyEval_CallObject_post in E; destruct E as [_ E];
      intro H; injection H as _ _ <-.
    - destruct E as [Ht _]. eexists. split; [exact Ht|]. now constructor.
    - destruct E as (e & Ht & _). eexists. split; [exact Ht|].
      constructor; [apply L2|constructor]. }
  destruct ev; cbn [rawread_dispatch Reader_callbacks callbacks_object_begin
    callbacks_object_end callbacks_array_begin callbacks_array_end
    callbacks_key callbacks_type callbacks_primitive];
    unfold translate_rawread_object_begin, translate_rawread_object_end,
      translate_rawread_array_begin, translate_rawread_array_end,
      translate_rawread_key, translate_rawread_type,
      translate_rawread_primitive, TRANSLATE_VOID_CALLBACK,
      TRANSLATE_STRING_CALLBACK;
    try (apply call; cbn [listener_call]; now auto);
    (destruct (WRAP_STRING_FROM v s) as [o|] eqn:E; [|discriminate]);
    apply WRAP_STRING_TO_FROM in E; destruct E as [E _];
    apply call; cbn [listener_call]; auto.
Qed.

Lemma rawread_deliver_listens (evs : list Event) :
  forall (c c' : luxem_rawread_context_t) (u : Reader.t) (h h' : host World)
    (ok : bool),
    rawread_deliver callbacks evs c u h = Some (ok, c', h') ->
    listens v u h h'.
Proof.
  induction evs as [|ev evs IH]; intros c c' u h h' ok H;
    cbn [rawread_deliver] in H.
  - injection H as _ _ <-. apply listens_refl.
  - destruct (rawread_dispatch callbacks ev c u h)
      as [[[[|] c1] h1]|] eqn:E; [| |discriminate].
    + apply rawread_dispatch_listens in E. apply IH in H.
      eapply listens_trans; eauto.
    + injection H as _ _ <-. now apply rawread_dispatch_listens in E.
Qed.

Lemma rawread_consume_listens (data : bytes) :
  forall (c c' : luxem_rawread_context_t) (u : Reader.t) (h h' : host World)
    (ok : bool),
    rawread_consume g callbacks data c u h = Some (ok, c', h') ->
    listens v u h h'.
Proof.
  induction data as [|b data IH]; intros c c' u h h' ok H;
    cbn [rawread_consume] in H.
  - injection H as _ _ <-. apply listens_refl.
  - destruct (grammar_step g (state c) b) as [[evs m']|m].
    + destruct (rawread_deliver callbacks evs c u h)
        as [[[[|] c1] h1]|] eqn:E; [| |discriminate].
      * apply rawread_deliver_listens in E. apply IH in H.
        eapply listens_trans; eauto.
      * injection H as _ _ <-. now apply rawread_deliver_listens in E.
    + injection H as _ _ <-. apply listens_refl.
Qed.

Lemma luxem_rawread_feed_listens (c c' : luxem_rawread_context_t)
  (u : Reader.t) (data : bytes) (finish ok : bool) (eaten : nat)
  (h h' : host World) :
  luxem_rawread_feed g callbacks c u data finish h = Some (ok, c', eaten, h') ->
  listens v u h h'.
Proof.
  unfold luxem_rawread_feed.
  destruct (rawread_consume g callbacks data c u h)
    as [[[[|] c1] h1]|] eqn:E; [| |discriminate];
    apply rawread_consume_listens in E.
  - destruct finish.
    + unfold rawread_finish. destruct (stack (state c1)).
      * destruct (grammar_finish g (state c1)) as [[evs m']|m].
        -- destruct (rawread_deliver callbacks evs c1 u h1)
             as [[[[|] c2] h2]|] eqn:F; [| |discriminate];
             apply rawread_deliver_listens in F;
             intro H; injection H as _ _ _ <-;
             eapply listens_trans; eauto.
        -- intro H. now injection H as _ _ _ <-.
      * intro H. now injection H as _ _ _ <-.
    + intro H. now injection H as _ _ _ <-.
  - intro H. now injection H as _ _ _ <-.
Qed.

Lemma listens_reader_action (u : Reader.t) (file : option FILE)
  (new : list action) :
  Forall (listener_call v u) new -> Forall (reader_action v u file) new.
Proof.
  apply Forall_impl. intros a H. destruct a; try contradiction. exact H.
Qed.

(** What the read loop leaves: the Reader it was given, and a world on
    which it has acted by listener calls and by reads of [file] between a
    release of the lock and its re-acquisition. *)
Lemma rawread_feed_reads_keeps (file : FILE) (reads : list bytes) :
  forall (c c' : luxem_rawread_context_t) (u u' : Reader.t)
    (h h' : host World) (ok : bool),
    feed_reads file reads c u h = Some (ok, c', u', h') ->
    u' = u /\
    exists new,
      trace h' = trace h ++ new /\
      Forall (reader_action v u (Some file)) new.
Proof.
  assert (hooks : forall (u : Reader.t) n,
            Forall (reader_action v u (Some file))
              [SaveThread; PhysicalRead file n; RestoreThread]).
  { intros u n. repeat constructor; discriminate. }
  induction reads as [|chunk reads IH]; intros c c' u u' h h' ok H;
    cbn [rawread_feed_reads] in H;
    destruct (feed_unlock_gil c u h) as [[u1 h1]|] eqn:E1;
    try discriminate;
    destruct (feed_lock_gil c u1 _) as [[u2 h3]|] eqn:E2;
    try discriminate;
    pose proof (@hooks_keep_reader _ _ _ _ _ _ _ _ _ E1 E2) as Hu; subst u2;
    destruct (@read_window World c u u1 u h h1 h3 file _ E1 E2)
      as (Hq & _).
  - destruct (luxem_rawread_feed g callbacks c u [] true h3)
      as [[[[ok' c1] eaten] h4]|] eqn:F; [|discriminate].
    injection H as _ _ <- <-. split; [reflexivity|].
    apply luxem_rawread_feed_listens in F. destruct F as (new & Ht & Hn).
    eexists. split; [rewrite Ht, Hq, <- app_assoc; reflexivity|].
    apply Forall_app. split; [apply hooks|].
    now apply listens_reader_action.
  - destruct (luxem_rawread_feed g callbacks c u chunk false h3)
      as [[[[[|] c1] eaten] h4]|] eqn:F; [| |discriminate];
      apply luxem_rawread_feed_listens in F; destruct F as (new & Ht & Hn).
    + apply IH in H. destruct H as (-> & new' & Ht' & Hn').
      split; [reflexivity|]. eexists.
      split; [rewrite Ht', Ht, Hq, <- !app_assoc; reflexivity|].
      apply Forall_app. split; [apply hooks|].
      apply Forall_app. split; [now apply listens_reader_action|exact Hn'].
    + injection H as _ _ <- <-. split; [reflexivity|].
      eexists. split; [rewrite Ht, Hq, <- app_assoc; reflexivity|].
      apply Forall_app. split; [apply hooks|].
      now apply listens_reader_action.
Qed.

Lemma format_context_error_keeps (c : luxem_rawread_context_t)
  (h h' : host World) :
  format_context_error v c h = Some h' ->
  trace h' = trace h /\ tstate_current h' = tstate_current h.
Proof.
  unfold format_context_error.
  destruct (negb _).
  - destruct (0 <? _); [|discriminate].
    destruct (pointer (error c)); try discriminate.
    intro H. injection H as <-. auto.
  - destruct (_ =? 0); [|discriminate]. intro H. injection H as <-. auto.
Qed.

(** What [feed] leaves of the Reader and of the world. *)
Lemma Reader_feed_keeps (self self' : Reader.t) (data : PyObject)
  (finish : bool) (h h' : host World) (ret : option PyObject) :
  feed self data finish h = Some (ret, self', h') ->
  self' = Reader.set_context (Reader.context self') self /\
  exists opening new,
    trace h' = trace h ++ opening ++ new /\
    Forall (fileno_call v data) opening /\
    List.length opening <= 1 /\
    (WRAP_BYTES_CHECK v data = true -> opening = []) /\
    Forall (reader_action v self
              (feed_stream v python_call stdio_stream data h)) new.
Proof.
  assert (same : forall c, Reader.set_context c self
                           = Reader.set_context
                               (Reader.context (Reader.set_context c self))
                               self) by reflexivity.
  assert (plain : forall (h1 : host World) (new : list action) file,
            trace h1 = trace h ++ new ->
            Forall (reader_action v self file) new ->
            exists opening new',
              trace h1 = trace h ++ opening ++ new' /\
              Forall (fileno_call v data) opening /\
              List.length opening <= 1 /\
              (WRAP_BYTES_CHECK v data = true -> opening = []) /\
              Forall (reader_action v self file) new').
  { intros h1 new file Ht Hn. exists [], new. cbn. auto. }
  unfold Reader_feed, feed_stream, stream_of.
  destruct (WRAP_BYTES_CHECK v data).
  - destruct (WRAP_BYTES_TO v data) as [string|]; [|discriminate].
    destruct (luxem_rawread_feed g callbacks (Reader.context self) self
                string finish h) as [[[[[|] c] eaten] h1]|] eqn:F;
      [| |discriminate];
      apply luxem_rawread_feed_listens in F; destruct F as (new & Ht & Hn).
    + intro H. injection H as _ <- <-. split; [apply same|].
      apply plain with (new := new);
        [exact Ht|now apply listens_reader_action].
    + destruct (format_context_error v c h1) as [h2|] eqn:E; [|discriminate].
      apply format_context_error_keeps in E. destruct E as [E _].
      intro H. injection H as _ <- <-. split; [apply same|].
      apply plain with (new := new);
        [congruence|now apply listens_reader_action].
  - destruct (WRAP_FILE_CHECK v data).
    + destruct (WRAP_FILE_TO v python_call stdio_stream data h)
        as [[file|] h0] eqn:Ew; [|discriminate].
      apply WRAP_FILE_TO_post in Ew.
      destruct Ew as (_ & opening & Ht0 & Ho & _). cbn [fst].
      assert (stream : forall (h1 : host World) (new : list action),
                trace h1 = trace h0 ++ new ->
                Forall (reader_action v self (Some file)) new ->
                exists opening' new',
                  trace h1 = trace h ++ opening' ++ new' /\
                  Forall (fileno_call v data) opening' /\
                  List.length opening' <= 1 /\
                  (false = true -> opening' = []) /\
                  Forall (reader_action v self (Some file)) new').
      { intros h1 new Ht Hn. exists opening, new.
        split; [now rewrite Ht, Ht0, app_assoc|].
        split; [|split; [|split; [discriminate|exact Hn]]];
          destruct Ho as [->|(Hv & failure & ->)]; cbn; auto.
        constructor; [|constructor]. split; [exact Hv|eauto]. }
      unfold luxem_rawread_feed_file.
      destruct (feed_reads file (physical_reads file) (Reader.context self)
                  self h0) as [[[[[|] c] u1] h1]|] eqn:F;
        [| |discriminate];
        apply rawread_feed_reads_keeps in F;
        destruct F as (-> & new & Ht & Hn).
      * intro H. injection H as _ <- <-. split; [apply same|].
        now apply stream with (new := new).
      * destruct (format_context_error v c h1) as [h2|] eqn:E; [|discriminate].
        apply format_context_error_keeps in E. destruct E as [E _].
        intro H. injection H as _ <- <-. split; [apply same|].
        apply stream with (new := new); [congruence|exact Hn].
    + intro H. injection H as _ <- <-.
      split; [now destruct self|].
      apply plain with (new := []); [|constructor].
      cbn [set_curexc trace]. now rewrite app_nil_r.
Qed.

(** X3: [feed] changes nothing of the Reader but the engine's context: the
    seven listeners are the ones it was constructed with, and no thread
    state is left behind in it. *)
Theorem feed_changes_only_context (self self' : Reader.t) (data : PyObject)
  (finish : bool) (h h' : host World) (ret : option PyObject) :
  feed self data finish h = Some (ret, self', h') ->
  self' = Reader.set_context (Reader.context self') self.
Proof. intro H. now apply Reader_feed_keeps in H. Qed.

(** X4: [feed] acts on the world only through the object it is fed, the
    listeners of the Reader and the stream it reads from.  Fed a file
    object, it first asks, under Python 3, for its descriptor: that is at
    most one call, of the [fileno] method of the object.  Every other call
    it makes into Python is a call of one of the four structural listeners
    without argument, or of the [key], [type] or [primitive] listener with
    one string argument; fed a file object it also releases the lock,
    reads from the stream of that object and takes the lock again; fed
    [bytes] it does neither, and it never writes. *)
Theorem feed_acts_through_listeners (self self' : Reader.t) (data : PyObject)
  (finish : bool) (h h' : host World) (ret : option PyObject) :
  feed self data finish h = Some (ret, self', h') ->
  exists opening new,
    trace h' = trace h ++ opening ++ new /\
    Forall (fileno_call v data) opening /\
    List.length opening <= 1 /\
    (WRAP_BYTES_CHECK v data = true -> opening = []) /\
    Forall (reader_action v self
              (feed_stream v python_call stdio_stream data h)) new.
Proof. intro H. now apply Reader_feed_keeps in H. Qed.

(** *** When the process survives a feed *)

Lemma rawread_consume_deliverable (data : bytes) :
  forall (c : luxem_rawread_context_t) (u : Reader.t) (h : host World),
    deliverable_grammar v g ->
    rawread_consume g callbacks data c u h <> None.
Proof.
  induction data as [|b data IH]; intros c u h Hg; cbn [rawread_consume].
  - discriminate.
  - destruct (grammar_step g (state c) b) as [[evs m']|m] eqn:E;
      [|discriminate].
    destruct Hg as [Hstep Hfinish].
    pose proof (@rawread_deliver_deliverable v World python_call evs c u h
                  (Hstep _ _ _ _ E)) as D.
    destruct (rawread_deliver callbacks evs c u h) as [[[[|] c1] h1]|];
      [apply IH; now split|discriminate|contradiction].
Qed.

Lemma luxem_rawread_feed_deliverable (c : luxem_rawread_context_t)
  (u : Reader.t) (data : bytes) (finish : bool) (h : host World) :
  deliverable_grammar v g ->
  luxem_rawread_feed g callbacks c u data finish h <> None.
Proof.
  intro Hg. unfold luxem_rawread_feed.
  pose proof (@rawread_consume_deliverable data c u h Hg) as C.
  destruct (rawread_consume g callbacks data c u h) as [[[[|] c1] h1]|];
    [|discriminate|contradiction].
  destruct finish; [|discriminate].
  unfold rawread_finish. destruct (stack (state c1)); [|discriminate].
  destruct (grammar_finish g (state c1)) as [[evs m']|m] eqn:E;
    [|discriminate].
  destruct Hg as [Hstep Hfinish].
  pose proof (@rawread_deliver_deliverable v World python_call evs c1 u h1
                (Hfinish _ _ _ E)) as D.
  destruct (rawread_deliver callbacks evs c1 u h1) as [[[[|] c2] h2]|];
    [discriminate|discriminate|contradiction].
Qed.

(** X5: the process survives every feed of [bytes] to a Reader of a format
    whose payloads all make string objects -- which, under Python 2, every
    format is: no assertion of [format_context_error] fails, whatever the
    Reader has been through and whatever its listeners do. *)
Theorem feed_bytes_returns (self : Reader.t) (data : bytes) (finish : bool)
  (h : host World) :
  deliverable_grammar v g ->
  exists ret self' h',
    feed self (PyBytes data) finish h = Some (ret, self', h').
Proof.
  intro Hg. unfold Reader_feed. cbn [WRAP_BYTES_CHECK WRAP_BYTES_TO].
  pose proof (@luxem_rawread_feed_deliverable (Reader.context self) self data
                finish h Hg) as F.
  destruct (luxem_rawread_feed g callbacks (Reader.context self) self data
              finish h) as [[[[[|] c] eaten] h1]|] eqn:E; [| |contradiction].
  - eauto.
  - apply luxem_rawread_feed_post in E. destruct E as [E _].
    pose proof (@format_context_error_total v World _ c h h1 E) as T.
    destruct (format_context_error v c h1) as [h2|]; [eauto|contradiction].
Qed.


End ReaderMore.

(** ** The further statements on the samples *)

(** [None] is neither [bytes] nor a file object. *)
Lemma feed_rejects_other_objects_sample :
  Reader_feed Python3 sample_call sample_stream sample_reads sample_grammar
    sample_reader Py_None true sample_host
  = Some (None, sample_reader,
          set_curexc
            {| exc_type := PyExc_TypeError;
               exc_value :=
                 Some (ascii_string Python3
                         (bytes_of_string
                            "luxem.RawReader.feed requires a single bytes or binary file argument.")) |}
            sample_host).
Proof.
  apply (@feed_rejects_other_objects Python3 nat sample_call sample_stream
           sample_reads sample_grammar sample_reader Py_None true sample_host);
    reflexivity.
Defined.

Lemma feed_hooks_round_trip_sample :
  exists suspended h1 h2,
    feed_unlock_gil luxem_rawread_construct sample_reader sample_host
    = Some (suspended, h1) /\
    feed_lock_gil luxem_rawread_construct suspended h1
    = Some (sample_reader, h2) /\
    tstate_current h2 = Some 1 /\
    trace h2 = [SaveThread; RestoreThread].
Proof.
  destruct (@feed_hooks_round_trip nat luxem_rawread_construct
              luxem_rawread_construct sample_reader sample_host 1
              eq_refl eq_refl)
    as (_ & suspended & h1 & h2 & H1 & _ & _ & _ & H2 & H3 & H4 & _).
  exists suspended, h1, h2. auto.
Defined.

(** A document read from the stream of descriptor 3. *)
Lemma feed_changes_only_context_sample :
  exists ret self' h',
    Reader_feed Python3 sample_call sample_stream sample_reads sample_grammar
      sample_reader (PyLong 3) true sample_host
    = Some (ret, self', h') /\
    self' = Reader.set_context (Reader.context self') sample_reader.
Proof.
  do 3 eexists. split; [reflexivity|].
  refine (@feed_changes_only_context Python3 nat sample_call sample_stream
            sample_reads sample_grammar sample_reader _ (PyLong 3) true
            sample_host _ _ _).
  reflexivity.
Defined.

(** A document read from the stream of a file object, whose descriptor
    is asked for first. *)
Lemma feed_acts_through_listeners_sample :
  exists ret self' h' opening new,
    Reader_feed Python3 sample_call sample_stream sample_reads sample_grammar
      sample_reader (PyFileLike 3) true sample_host
    = Some (ret, self', h') /\
    trace h' = trace sample_host ++ opening ++ new /\
    Forall (fileno_call Python3 (PyFileLike 3)) opening /\
    Forall (reader_action Python3 sample_reader (Some 3)) new.
Proof.
  do 3 eexists.
  assert (E : Reader_feed Python3 sample_call sample_stream sample_reads
                sample_grammar sample_reader (PyFileLike 3) true sample_host
              = Some (_, _, _)) by (vm_compute; reflexivity).
  destruct (@feed_acts_through_listeners Python3 nat sample_call
              sample_stream sample_reads sample_grammar _ _ _ _ _ _ _ E)
    as (opening & new & Ht & Ho & _ & _ & Hn).
  exists opening, new. split; [exact E|].
  split; [exact Ht|]. split; [exact Ho|exact Hn].
Defined.

(** Under Python 2 the sample format delivers all its payloads. *)
Lemma feed_bytes_returns_sample :
  exists ret self' h',
    Reader_feed Python2 sample_call sample_stream sample_reads sample_grammar
      sample_reader (PyBytes [xff; "}"%byte]) true sample_host
    = Some (ret, self', h').
Proof.
  apply (@feed_bytes_returns Python2 nat sample_call sample_stream
           sample_reads sample_grammar sample_reader [xff; "}"%byte] true
           sample_host).
  split.
  - intros m b evs m' _. apply forallb_forall. intros ev _.
    destruct ev; reflexivity.
  - intros m evs m' _. apply forallb_forall. intros ev _.
    destruct ev; reflexivity.
Defined.


(** [dump] takes no reference. *)
Lemma Writer_methods_reference_count_sample :
  exists self' h',
    Writer_methods Python3 true sample_call sample_write_grammar method_dump
      sample_writer sample_host
    = Some (Some (PyBytes []), self', h') /\
    Writer.ob_refcnt self' = Writer.ob_refcnt sample_writer + 0.
Proof.
  do 2 eexists. split; [reflexivity|].
  refine (proj2 (proj2 (proj2
            (@Writer_methods_reference_count Python3 true nat sample_call
               (list Frame) sample_write_grammar method_dump sample_writer _
               sample_host _ (Some (PyBytes [])) _)))).
  reflexivity.
Defined.

(** The target of the Writer raises on the first run it is handed. *)
Lemma sink_failure_passes_through_sample :
  exists self' h',
    Writer_methods Python3 true sample_call sample_write_grammar
      method_object_begin sample_failing_writer sample_host
    = Some (None, self', h') /\
    trace h'
    = [Called (PyOpaque 0) [PyBytes (bytes_of_string "{")]
         (Some sample_exception)] /\
    curexc h' = Some sample_exception.
Proof.
  destruct (@sink_failure_passes_through Python3 true nat sample_call
              sample_stream (list Frame) sample_write_grammar 67
              (Some (PyOpaque 0)) false false 1%Z [] method_object_begin
              sample_host sample_host sample_host sample_failing_writer
              sample_failing_writer eq_refl eq_refl)
    as [returns reports].
  destruct (returns eq_refl eq_refl) as (r & self' & h' & E).
  pose proof E as E'. vm_compute in E'. injection E' as <- <- <-.
  do 2 eexists. split; [exact E|]. split; [reflexivity|].
  specialize (reports _ _ _ E).
  specialize (reports [] [] (PyOpaque 0) [PyBytes (bytes_of_string "{")]
                sample_exception).
  exact (proj2 (proj2 (reports eq_refl))).
Defined.

(** A Writer on the stream of descriptor 3, had from a file object. *)
Lemma Writer_acts_through_its_sink_sample :
  exists self h opening new,
    Writer_calls Python3 true sample_call sample_write_grammar
      [method_array_begin; method_primitive [PyUnicode [49%N]];
       method_dump; method_array_end]
      sample_stream_writer sample_stream_host
    = Some (self, h) /\
    trace h = trace sample_host ++ opening ++ new /\
    Forall (init_action Python3 (Some (PyFileLike 3)) (Some 3)) opening /\
    Forall (sink_action (Some (PyFileLike 3)) (Some 3)) new.
Proof.
  do 2 eexists.
  assert (E : Writer_calls Python3 true sample_call sample_write_grammar
                [method_array_begin; method_primitive [PyUnicode [49%N]];
                 method_dump; method_array_end]
                sample_stream_writer sample_stream_host
              = Some (_, _)) by (vm_compute; reflexivity).
  destruct (@Writer_acts_through_its_sink Python3 true nat sample_call
              sample_stream (list Frame) sample_write_grammar 66
              (Some (PyFileLike 3)) true true 2%Z _ sample_host
              sample_stream_host _ sample_stream_writer _ eq_refl E)
    as (opening & new & Ht & _ & Ho & Hn).
  exists opening, new. split; [exact E|].
  split; [exact Ht|]. split; [exact Ho|exact Hn].
Defined.

(** A Writer on the stream of descriptor 3, pretty-printing. *)
Lemma constructed_Writer_calls_return_sample :
  exists self h,
    Writer_calls Python3 false sample_call sample_write_grammar
      [method_object_end; method_key [PyUnicode [97%N]]; method_key [];
       method_type [PyBytes []]; method_dump]
      sample_stream_writer sample_stream_host
    = Some (self, h).
Proof.
  apply (@constructed_Writer_calls_return Python3 false nat sample_call
           sample_stream (list Frame) sample_write_grammar 66
           (Some (PyFileLike 3)) true true 2%Z
           [method_object_end; method_key [PyUnicode [97%N]]; method_key [];
            method_type [PyBytes []]; method_dump]
           sample_host sample_stream_host sample_stream_writer);
    reflexivity.
Defined.

(** Under Python 2, a file object whose descriptor has no stream. *)
Lemma Writer_init_failure_sample :
  exists self h',
    Writer_init Python2 sample_call sample_stream
      (Writer_new sample_write_grammar 68) (Some (PyFileLike 4)) false false 1
      sample_host
    = ((-1)%Z, self, h') /\
    out (Writer.context self) = NoSink /\
    h' = sample_host.
Proof.
  do 2 eexists. split; [reflexivity|].
  exact (proj1 (proj2 (proj2
           (@Writer_init_failure Python2 nat sample_call sample_stream
              (list Frame) sample_write_grammar 68 (Some (PyFileLike 4))
              false false 1%Z sample_host _ _ (-1)%Z eq_refl)))
           eq_refl).
Defined.

(** An object closed that was never opened. *)
Lemma Writer_structural_error_sample :
  exists self',
    Writer_methods Python3 true sample_call sample_write_grammar
      method_object_end
      sample_writer sample_host
    = Some (None, self',
            set_curexc
              {| exc_type := PyExc_ValueError;
                 exc_value :=
                   Some (ascii_string Python3
                           (bytes_of_string "no object to close")) |}
              sample_host).
Proof.
  eexists.
  refine (@Writer_structural_error Python3 true nat sample_call (list Frame)
            sample_write_grammar method_object_end ObjectEnd sample_writer
            sample_host (sample_message "no object to close") _ _);
    reflexivity.
Defined.

(** The payload of two bytes that is one character of Python 3. *)
Lemma payload_read_then_written_sample :
  exists self' h',
    Writer_key Python3 true sample_call sample_write_grammar sample_writer
      [PyUnicode [233%N]] sample_host
    = translate_void_method Python3 sample_writer
        (fun c u =>
           luxem_rawwrite_key sample_write_grammar
             (translate_rawwrite_write (W:=list Frame) Python3 true sample_call)
             c u
             [xc3; xa9])
        sample_host /\
    translate_rawread_key Python3 sample_call luxem_rawread_construct
      sample_reader [xc3; xa9] sample_host
    = Some (true, self', h').
Proof.
  do 2 eexists.
  assert (E : translate_rawread_key Python3 sample_call luxem_rawread_construct
                sample_reader [xc3; xa9] sample_host
              = Some (true, _, _)) by reflexivity.
  split; [|exact E].
  destruct (@payload_read_then_written Python3 nat sample_call (list Frame)
              Reader.key _ _ _ _ _ _ _ E) as (payload & failure & Ht & H).
  cbn in Ht. injection Ht as <- _. apply H.
Defined.

(** The bytes 00 ff 10, which are a string of Python 2. *)
Lemma ascii16_decode_then_encode_sample :
  translate_from_ascii16 Python2 sample_error_text
    [PyBytes (bytes_of_string "00ff10")]
  = Return (PyBytes [x00; xff; x10]) /\
  translate_to_ascii16 Python2 [PyBytes [x00; xff; x10]]
  = Return (PyBytes (bytes_of_string "00ff10")).
Proof.
  split; [reflexivity|].
  apply (@ascii16_decode_then_encode Python2 sample_error_text
           (PyBytes (bytes_of_string "00ff10")) (PyBytes [x00; xff; x10])).
  reflexivity.
Defined.

(** ["0g"]: the second character is outside the alphabet. *)
Lemma from_ascii16_outcome_sample :
  exists m,
    translate_from_ascii16 Python3 sample_error_text [PyUnicode [48; 103]%N]
    = Raise (PyErr_SetObject PyExc_ValueError
               (WRAP_STRING_FROM Python3
                  (sample_error_text
                     {| Ascii16.message := m; Ascii16.offset := 1 |}))).
Proof.
  refine (proj2 (proj2
            (@from_ascii16_outcome Python3 sample_error_text
               (PyUnicode [48; 103]%N) (bytes_of_string "0g") _))).
  reflexivity.
Defined.




(** ** Where a feed ends the process *)

Section ReaderEnds.

Variable v : python.
Variable World : Type.
Variable python_call :
  PyObject -> list PyObject -> World -> (PyObject + PyErr) * World.
Variable stdio_stream : Z -> option FILE.
Variable physical_reads : FILE -> list bytes.
Variable g : Grammar.

Local Abbreviation callbacks := (Reader_callbacks v python_call).
Local Abbreviation feed :=
  (Reader_feed v python_call stdio_stream physical_reads g).

Lemma rawread_dispatch_undeliverable (ev : Event)
  (c : luxem_rawread_context_t) (u : Reader.t) (h : host World) :
  deliverable v ev = false -> rawread_dispatch callbacks ev c u h = None.
Proof.
  destruct ev; cbn [deliverable]; try discriminate;
    cbn [rawread_dispatch Reader_callbacks callbacks_key callbacks_type
           callbacks_primitive];
    unfold translate_rawread_key, translate_rawread_type,
      translate_rawread_primitive, TRANSLATE_STRING_CALLBACK;
    (destruct (WRAP_STRING_FROM v s); [discriminate|reflexivity]).
Qed.

Lemma rawread_deliver_undeliverable (before after : list Event) (ev : Event)
  (c : luxem_rawread_context_t) (u : Reader.t) (h : host World) :
  obliging python_call ->
  forallb (deliverable v) before = true ->
  deliverable v ev = false ->
  rawread_deliver callbacks (before ++ ev :: after) c u h = None.
Proof.
  intros Hob. revert h.
  induction before as [|ev0 before IH]; intros h Hb Hev.
  - cbn [app rawread_deliver]. now rewrite rawread_dispatch_undeliverable.
  - cbn [forallb] in Hb. apply andb_prop in Hb. destruct Hb as [H0 Hb].
    cbn [app rawread_deliver].
    destruct (@rawread_dispatch_obliging v World python_call ev0 c u h Hob H0)
      as (h1 & -> & _).
    now apply IH.
Qed.

(** The payloads that make no string object: under Python 3, those that
    are not UTF-8. *)
Lemma deliverable_false (ev : Event) :
  deliverable v ev = false <->
  v = Python3 /\
  exists s, (ev = Key s \/ ev = TypeTag s \/ ev = Primitive s) /\
            Utf8.decode s = None.
Proof.
  destruct ev; cbn [deliverable];
    try (split; [discriminate|intros (_ & s & [H|[H|H]] & _); discriminate H]);
    (destruct v; cbn [WRAP_STRING_FROM];
     [split; [discriminate|intros (H & _); discriminate H]|]);
    (destruct (Utf8.decode s) as [t|] eqn:E; cbn [option_map];
     [split; [discriminate|];
      intros (_ & s' & [H|[H|H]] & Hs); try discriminate H;
      injection H as <-; congruence
     |split; [intros _; split; [reflexivity|]; exists s; auto|reflexivity]]).
Qed.

(** X17: under Python 3 a payload that is not UTF-8 brings the process
    down.  When the bytes fed so far are accepted and their events
    delivered, and the next byte completes a key, type or primitive whose
    bytes are not UTF-8, [PyUnicode_FromStringAndSize] returns NULL and the
    callback applies [Py_DECREF] to it: [feed] does not return, whatever
    follows that byte. *)
Theorem feed_undecodable_payload_ends_process (self : Reader.t)
  (accepted rest : bytes) (b : byte) (finish : bool) (h : host World)
  (events before after : list Event) (ev : Event) (m m' : machine)
  (s : luxem_string_t) :
  v = Python3 ->
  obliging python_call ->
  grammar_run g (state (Reader.context self)) accepted = Some (events, m) ->
  forallb (deliverable v) events = true ->
  grammar_step g m b = inl (before ++ ev :: after, m') ->
  forallb (deliverable v) before = true ->
  ev = Key s \/ ev = TypeTag s \/ ev = Primitive s ->
  Utf8.decode s = None ->
  feed self (PyBytes (accepted ++ b :: rest)) finish h = None.
Proof.
  intros Hv Hob Hrun Hd Hstep Hb Hev Hs.
  assert (Hu : deliverable v ev = false).
  { apply deliverable_false. split; [exact Hv|]. now exists s. }
  destruct (@rawread_consume_obliging v World python_call g accepted self
              (Reader.context self) h events m Hob Hrun Hd)
    as (h1 & Hc & _).
  unfold Reader_feed. cbn [WRAP_BYTES_CHECK WRAP_BYTES_TO].
  unfold luxem_rawread_feed. rewrite rawread_consume_app, Hc.
  cbn [rawread_consume state]. rewrite Hstep.
  now rewrite rawread_deliver_undeliverable.
Qed.

End ReaderEnds.

(** The byte 0xff as a primitive, ended by a comma. *)
Lemma feed_undecodable_payload_ends_process_sample :
  Reader_feed Python3 obliging_call sample_stream sample_reads
    sample_grammar sample_reader (PyBytes [xff; ","%byte; "1"%byte]) true
    sample_host
  = None.
Proof.
  refine (@feed_undecodable_payload_ends_process Python3 nat obliging_call
            sample_stream sample_reads sample_grammar sample_reader
            [xff] [ "1"%byte ] ","%byte true sample_host
            [] [] [] (Primitive [xff])
            {| stack := []; awaiting := AwaitingValue; pending := [xff] |}
            {| stack := []; awaiting := AwaitingValue; pending := [] |}
            [xff] eq_refl _ eq_refl eq_refl eq_refl eq_refl _ eq_refl).
  - intros callee arguments w. exists Py_None, (S w). reflexivity.
  - right. right. reflexivity.
Defined.
